(** * Product ordering service: catalog import, basket and order views

    A shallow embedding of [backend/models.py] and of the request handlers of
    [backend/views.py], with the properties of the service stated and proved
    over it.

    The relational store is a record of tables; every table carries its rows
    and the next value of its auto-increment key.  The handlers address
    fields of the models by name, as the object-relational mapper does, and
    the names are resolved against the field declarations of [models.py];
    a name that no declaration introduces raises the mapper's exception. *)

From Stdlib Require Import ZArith List String Ascii Bool Lia.
Import ListNotations.

Open Scope string_scope.
Open Scope list_scope.
Open Scope Z_scope.

(** ** Values, exceptions and results *)

Inductive Value :=
| VInt (z : Z)
| VStr (s : string)
| VBool (b : bool)
| VNull.

Definition Value_eqb (a b : Value) : bool :=
  match a, b with
  | VInt x, VInt y => x =? y
  | VStr x, VStr y => String.eqb x y
  | VBool x, VBool y => Bool.eqb x y
  | VNull, VNull => true
  | _, _ => false
  end.

Definition kwargs := list (string * Value).

Fixpoint assoc {A : Type} (k : string) (l : list (string * A)) : option A :=
  match l with
  | [] => None
  | (k', v) :: l' => if String.eqb k k' then Some v else assoc k l'
  end.

(** The exceptions the handlers can meet.  [IntegrityError] carries the
    text that [str(error)] gives. *)
Inductive Exception :=
| FieldError
| FieldDoesNotExist
| AttributeError
| TypeError
| ValueError
| KeyError
| UnboundLocalError
| MultipleObjectsReturned
| DoesNotExist
| IntegrityError (msg : string)
| RequestException.

Inductive Result (A : Type) :=
| Ok (a : A)
| Raise (e : Exception).
Arguments Ok {A} a.
Arguments Raise {A} e.

(** ** models.py: the field declarations *)

Inductive ModelName :=
| MUser | MContact | MSeller | MCategory | MProduct | MProductInfo
| MParameter | MProductParameter | MOrder | MOrderItem | MConfirmEmailToken.

Definition ModelName_eqb (a b : ModelName) : bool :=
  match a, b with
  | MUser, MUser | MContact, MContact | MSeller, MSeller
  | MCategory, MCategory | MProduct, MProduct | MProductInfo, MProductInfo
  | MParameter, MParameter | MProductParameter, MProductParameter
  | MOrder, MOrder | MOrderItem, MOrderItem
  | MConfirmEmailToken, MConfirmEmailToken => true
  | _, _ => false
  end.

Definition all_models : list ModelName :=
  [MUser; MContact; MSeller; MCategory; MProduct; MProductInfo;
   MParameter; MProductParameter; MOrder; MOrderItem; MConfirmEmailToken].

(** The lower-case model name, from which the mapper derives the query name
    of a reverse relation that has no [related_name]. *)
Definition model_name (m : ModelName) : string :=
  match m with
  | MUser => "user" | MContact => "contact" | MSeller => "seller"
  | MCategory => "category" | MProduct => "product"
  | MProductInfo => "productinfo" | MParameter => "parameter"
  | MProductParameter => "productparameter" | MOrder => "order"
  | MOrderItem => "orderitem" | MConfirmEmailToken => "confirmemailtoken"
  end.

Inductive FieldDecl :=
| AutoField
| CharField
| EmailField
| URLField
| BooleanField
| PositiveIntegerField
| DateTimeField
| ForeignKey (to : ModelName) (related_name : option string)
| OneToOneField (to : ModelName) (related_name : option string)
| ManyToManyField (to : ModelName) (related_name : option string).

(** The fields of every model, in the order of [models.py]; [id] is the
    implicit primary key, and [MUser] starts with the columns it inherits
    from [AbstractUser]. *)
Definition fields (m : ModelName) : list (string * FieldDecl) :=
  match m with
  | MUser =>
      [("id", AutoField); ("password", CharField);
       ("last_login", DateTimeField); ("is_superuser", BooleanField);
       ("username", CharField); ("first_name", CharField);
       ("last_name", CharField); ("is_staff", BooleanField);
       ("is_active", BooleanField); ("date_joined", DateTimeField);
       ("email", EmailField); ("type", CharField)]
  | MContact =>
      [("id", AutoField);
       ("user", ForeignKey MUser (Some "contacts"));
       ("address", CharField); ("phone", CharField)]
  | MSeller =>
      [("id", AutoField);
       ("user", OneToOneField MUser None);
       ("name", CharField); ("state", BooleanField); ("url", URLField)]
  | MCategory =>
      [("id", AutoField); ("name", CharField);
       ("shops", ManyToManyField MSeller (Some "categories"))]
  | MProduct =>
      [("id", AutoField); ("name", CharField);
       ("category", ForeignKey MCategory (Some "products"))]
  | MProductInfo =>
      [("id", AutoField); ("name", CharField);
       ("product", ForeignKey MProduct (Some "product_infos"));
       ("seller", ForeignKey MSeller (Some "product_infos"));
       ("quantity", PositiveIntegerField); ("price", PositiveIntegerField);
       ("price_rrc", PositiveIntegerField);
       ("article", PositiveIntegerField)]
  | MParameter =>
      [("id", AutoField); ("name", CharField)]
  | MProductParameter =>
      [("id", AutoField);
       ("product_info", ForeignKey MProductInfo (Some "product_parameters"));
       ("parameter", ForeignKey MParameter (Some "product_parameters"));
       ("value", CharField)]
  | MOrder =>
      [("id", AutoField);
       ("user", ForeignKey MContact (Some "orders"));
       ("dt", DateTimeField); ("state", CharField)]
  | MOrderItem =>
      [("id", AutoField);
       ("order", ForeignKey MOrder (Some "ordered_items"));
       ("product", ForeignKey MProductInfo (Some "ordered_items"));
       ("shop", ForeignKey MSeller (Some "ordered_items"));
       ("quantity", PositiveIntegerField)]
  | MConfirmEmailToken =>
      [("id", AutoField);
       ("user", ForeignKey MUser (Some "confirm_email_tokens"));
       ("created_at", DateTimeField); ("key", CharField)]
  end.

(** ** Name resolution

    One component of a lookup resolves, on a model, to a column of its
    table, to a relation that a key of the model follows, or to a relation
    that a key of another model follows back to it. *)

Inductive Step :=
| SColumn (col : string)
| SForward (col : string) (to : ModelName)
| SReverse (src : ModelName) (col : string)
| SManyToMany (to : ModelName).

Definition attname (f : string) : string := String.append f "_id".

Definition forward_step (name : string) (decl : string * FieldDecl)
  : option Step :=
  let '(f, d) := decl in
  match d with
  | ForeignKey to _ | OneToOneField to _ =>
      if String.eqb name f then Some (SForward (attname f) to)
      else if String.eqb name (attname f) then Some (SColumn (attname f))
      else None
  | ManyToManyField to _ =>
      if String.eqb name f then Some (SManyToMany to) else None
  | _ => if String.eqb name f then Some (SColumn f) else None
  end.

Fixpoint first_some {A B : Type} (f : A -> option B) (l : list A)
  : option B :=
  match l with
  | [] => None
  | a :: l' => match f a with Some b => Some b | None => first_some f l' end
  end.

Definition related_query_name (src : ModelName) (rn : option string)
  : string :=
  match rn with Some n => n | None => model_name src end.

(** The relation that the declaration [decl] of model [src] opens on the
    model [m] it points to. *)
Definition reverse_step (m : ModelName) (name : string) (src : ModelName)
  (decl : string * FieldDecl) : option Step :=
  let '(f, d) := decl in
  match d with
  | ForeignKey to rn | OneToOneField to rn =>
      if ModelName_eqb to m && String.eqb name (related_query_name src rn)
      then Some (SReverse src (attname f)) else None
  | ManyToManyField to rn =>
      if ModelName_eqb to m && String.eqb name (related_query_name src rn)
      then Some (SManyToMany src) else None
  | _ => None
  end.

Definition resolve_name (m : ModelName) (name : string) : option Step :=
  match first_some (forward_step name) (fields m) with
  | Some s => Some s
  | None =>
      first_some
        (fun src => first_some (reverse_step m name src) (fields src))
        all_models
  end.

(** Lookups are written with the separator [__]. *)
Definition LOOKUP_SEP : ascii := "_"%char.

Fixpoint split_lookup_from (s cur : string) : list string :=
  match s with
  | EmptyString => [cur]
  | String c rest =>
      match rest with
      | String c' rest' =>
          if Ascii.eqb c LOOKUP_SEP && Ascii.eqb c' LOOKUP_SEP
          then cur :: split_lookup_from rest' EmptyString
          else split_lookup_from rest (String.append cur (String c EmptyString))
      | EmptyString => [String.append cur (String c EmptyString)]
      end
  end.

Definition split_lookup (s : string) : list string :=
  split_lookup_from s EmptyString.

(** The path of a lookup from model [m]: every component but the last must
    be a relation, and nothing may follow a column. *)
Fixpoint resolve_path (m : ModelName) (path : list string)
  : option (list Step) :=
  match path with
  | [] => Some []
  | name :: rest =>
      match resolve_name m name with
      | None => None
      | Some (SColumn c) =>
          match rest with [] => Some [SColumn c] | _ => None end
      | Some (SForward c to) =>
          match resolve_path to rest with
          | Some p => Some (SForward c to :: p)
          | None => None
          end
      | Some (SReverse src c) =>
          match resolve_path src rest with
          | Some p => Some (SReverse src c :: p)
          | None => None
          end
      | Some (SManyToMany to) =>
          match resolve_path to rest with
          | Some p => Some (SManyToMany to :: p)
          | None => None
          end
      end
  end.

Definition resolve_lookup (m : ModelName) (lookup : string)
  : option (list Step) :=
  resolve_path m (split_lookup lookup).


(** ** models.py: the rows

    One record per model that the handlers store; a foreign key is kept as
    the column [<field>_id] that holds the key of the row it points to. *)

Record Seller := mkSeller {
  Seller_id : Z;
  Seller_user_id : option Z;
  Seller_name : string;
  Seller_state : bool;
  Seller_url : option string
}.

Record Category := mkCategory {
  Category_id : Z;
  Category_name : string
}.

(** The table behind [Category.shops]. *)
Record CategoryShops := mkCategoryShops {
  CategoryShops_id : Z;
  CategoryShops_category_id : Z;
  CategoryShops_seller_id : Z
}.

Record Product := mkProduct {
  Product_id : Z;
  Product_name : string;
  Product_category_id : Z
}.

Record ProductInfo := mkProductInfo {
  ProductInfo_id : Z;
  ProductInfo_name : string;
  ProductInfo_product_id : Z;
  ProductInfo_seller_id : Z;
  ProductInfo_quantity : Z;
  ProductInfo_price : Z;
  ProductInfo_price_rrc : Z;
  ProductInfo_article : Z
}.

Record Parameter_ := mkParameter {
  Parameter_id : Z;
  Parameter_name : string
}.

Record ProductParameter := mkProductParameter {
  ProductParameter_id : Z;
  ProductParameter_product_info_id : Z;
  ProductParameter_parameter_id : Z;
  ProductParameter_value : string
}.

Record Order := mkOrder {
  Order_id : Z;
  Order_user_id : Z;
  Order_dt : Z;
  Order_state : string
}.

Record OrderItem := mkOrderItem {
  OrderItem_id : Z;
  OrderItem_order_id : Z;
  OrderItem_product_id : Z;
  OrderItem_shop_id : Z;
  OrderItem_quantity : Z
}.

(** A table: its rows in the order of insertion, and the next value of
    its auto-increment primary key. *)
Record Table (T : Type) := mkTable {
  rows : list T;
  next_id : Z
}.
Arguments mkTable {T} rows next_id.
Arguments rows {T} t.
Arguments next_id {T} t.

Record Database := mkDatabase {
  sellers : Table Seller;
  categories : Table Category;
  category_shops : Table CategoryShops;
  products : Table Product;
  product_infos : Table ProductInfo;
  parameters : Table Parameter_;
  product_parameters : Table ProductParameter;
  orders : Table Order;
  order_items : Table OrderItem
}.

Definition empty_table {T : Type} : Table T := mkTable [] 1.

Definition empty_database : Database :=
  mkDatabase empty_table empty_table empty_table empty_table empty_table
             empty_table empty_table empty_table empty_table.

Definition set_sellers (t : Table Seller) (db : Database) : Database :=
  mkDatabase t (categories db) (category_shops db) (products db)
             (product_infos db) (parameters db) (product_parameters db)
             (orders db) (order_items db).

Definition set_categories (t : Table Category) (db : Database) : Database :=
  mkDatabase (sellers db) t (category_shops db) (products db)
             (product_infos db) (parameters db) (product_parameters db)
             (orders db) (order_items db).

Definition set_category_shops (t : Table CategoryShops) (db : Database)
  : Database :=
  mkDatabase (sellers db) (categories db) t (products db)
             (product_infos db) (parameters db) (product_parameters db)
             (orders db) (order_items db).

Definition set_products (t : Table Product) (db : Database) : Database :=
  mkDatabase (sellers db) (categories db) (category_shops db) t
             (product_infos db) (parameters db) (product_parameters db)
             (orders db) (order_items db).

Definition set_product_infos (t : Table ProductInfo) (db : Database)
  : Database :=
  mkDatabase (sellers db) (categories db) (category_shops db) (products db)
             t (parameters db) (product_parameters db)
             (orders db) (order_items db).

Definition set_parameters (t : Table Parameter_) (db : Database) : Database :=
  mkDatabase (sellers db) (categories db) (category_shops db) (products db)
             (product_infos db) t (product_parameters db)
             (orders db) (order_items db).

Definition set_product_parameters (t : Table ProductParameter)
  (db : Database) : Database :=
  mkDatabase (sellers db) (categories db) (category_shops db) (products db)
             (product_infos db) (parameters db) t
             (orders db) (order_items db).

Definition set_orders (t : Table Order) (db : Database) : Database :=
  mkDatabase (sellers db) (categories db) (category_shops db) (products db)
             (product_infos db) (parameters db) (product_parameters db)
             t (order_items db).

Definition set_order_items (t : Table OrderItem) (db : Database)
  : Database :=
  mkDatabase (sellers db) (categories db) (category_shops db) (products db)
             (product_infos db) (parameters db) (product_parameters db)
             (orders db) t.

(** ** Columns by name

    What the mapper reads and writes when a handler names a column. *)

Definition opt_int (o : option Z) : Value :=
  match o with Some z => VInt z | None => VNull end.

Definition opt_str (o : option string) : Value :=
  match o with Some s => VStr s | None => VNull end.

Definition Seller_column (c : string) (r : Seller) : option Value :=
  if String.eqb c "id" then Some (VInt (Seller_id r))
  else if String.eqb c "user_id" then Some (opt_int (Seller_user_id r))
  else if String.eqb c "name" then Some (VStr (Seller_name r))
  else if String.eqb c "state" then Some (VBool (Seller_state r))
  else if String.eqb c "url" then Some (opt_str (Seller_url r))
  else None.

Definition Category_column (c : string) (r : Category) : option Value :=
  if String.eqb c "id" then Some (VInt (Category_id r))
  else if String.eqb c "name" then Some (VStr (Category_name r))
  else None.

Definition Product_column (c : string) (r : Product) : option Value :=
  if String.eqb c "id" then Some (VInt (Product_id r))
  else if String.eqb c "name" then Some (VStr (Product_name r))
  else if String.eqb c "category_id" then Some (VInt (Product_category_id r))
  else None.

Definition ProductInfo_column (c : string) (r : ProductInfo)
  : option Value :=
  if String.eqb c "id" then Some (VInt (ProductInfo_id r))
  else if String.eqb c "name" then Some (VStr (ProductInfo_name r))
  else if String.eqb c "product_id"
  then Some (VInt (ProductInfo_product_id r))
  else if String.eqb c "seller_id" then Some (VInt (ProductInfo_seller_id r))
  else if String.eqb c "quantity" then Some (VInt (ProductInfo_quantity r))
  else if String.eqb c "price" then Some (VInt (ProductInfo_price r))
  else if String.eqb c "price_rrc" then Some (VInt (ProductInfo_price_rrc r))
  else if String.eqb c "article" then Some (VInt (ProductInfo_article r))
  else None.

Definition Parameter_column (c : string) (r : Parameter_) : option Value :=
  if String.eqb c "id" then Some (VInt (Parameter_id r))
  else if String.eqb c "name" then Some (VStr (Parameter_name r))
  else None.

Definition ProductParameter_column (c : string) (r : ProductParameter)
  : option Value :=
  if String.eqb c "id" then Some (VInt (ProductParameter_id r))
  else if String.eqb c "product_info_id"
  then Some (VInt (ProductParameter_product_info_id r))
  else if String.eqb c "parameter_id"
  then Some (VInt (ProductParameter_parameter_id r))
  else if String.eqb c "value" then Some (VStr (ProductParameter_value r))
  else None.

Definition Order_column (c : string) (r : Order) : option Value :=
  if String.eqb c "id" then Some (VInt (Order_id r))
  else if String.eqb c "user_id" then Some (VInt (Order_user_id r))
  else if String.eqb c "dt" then Some (VInt (Order_dt r))
  else if String.eqb c "state" then Some (VStr (Order_state r))
  else None.

Definition OrderItem_column (c : string) (r : OrderItem) : option Value :=
  if String.eqb c "id" then Some (VInt (OrderItem_id r))
  else if String.eqb c "order_id" then Some (VInt (OrderItem_order_id r))
  else if String.eqb c "product_id" then Some (VInt (OrderItem_product_id r))
  else if String.eqb c "shop_id" then Some (VInt (OrderItem_shop_id r))
  else if String.eqb c "quantity" then Some (VInt (OrderItem_quantity r))
  else None.

(** ** Rows read by column name, and the joins of a lookup *)

Definition GRow := string -> option Value.

Definition col_value (r : GRow) (c : string) : Value :=
  match r c with Some v => v | None => VNull end.

(** The tables a lookup can walk.  Accounts, contacts and tokens are kept
    in tables of their own, beside this store. *)
Definition table_rows (m : ModelName) (db : Database) : list GRow :=
  match m with
  | MSeller => map (fun r c => Seller_column c r) (rows (sellers db))
  | MCategory => map (fun r c => Category_column c r) (rows (categories db))
  | MProduct => map (fun r c => Product_column c r) (rows (products db))
  | MProductInfo =>
      map (fun r c => ProductInfo_column c r) (rows (product_infos db))
  | MParameter =>
      map (fun r c => Parameter_column c r) (rows (parameters db))
  | MProductParameter =>
      map (fun r c => ProductParameter_column c r)
          (rows (product_parameters db))
  | MOrder => map (fun r c => Order_column c r) (rows (orders db))
  | MOrderItem =>
      map (fun r c => OrderItem_column c r) (rows (order_items db))
  | MUser | MContact | MConfirmEmailToken => []
  end.

Definition int_in (v : Value) (l : list Z) : bool :=
  match v with VInt z => existsb (Z.eqb z) l | _ => false end.

(** The rows one step away from [r]. *)
Definition step_rows (db : Database) (s : Step) (r : GRow) : list GRow :=
  match s with
  | SColumn _ => []
  | SForward c to =>
      filter (fun r' => Value_eqb (col_value r' "id") (col_value r c))
             (table_rows to db)
  | SReverse src c =>
      filter (fun r' => Value_eqb (col_value r' c) (col_value r "id"))
             (table_rows src db)
  | SManyToMany MSeller =>
      let linked :=
        map CategoryShops_seller_id
            (filter (fun l => Value_eqb (VInt (CategoryShops_category_id l))
                                        (col_value r "id"))
                    (rows (category_shops db))) in
      filter (fun r' => int_in (col_value r' "id") linked)
             (table_rows MSeller db)
  | SManyToMany MCategory =>
      let linked :=
        map CategoryShops_category_id
            (filter (fun l => Value_eqb (VInt (CategoryShops_seller_id l))
                                        (col_value r "id"))
                    (rows (category_shops db))) in
      filter (fun r' => int_in (col_value r' "id") linked)
             (table_rows MCategory db)
  | SManyToMany _ => []
  end.

(** The values at the end of a path, one per joined row. *)
Fixpoint reach (db : Database) (path : list Step) (r : GRow) : list Value :=
  match path with
  | [] => []
  | SColumn c :: _ => [col_value r c]
  | s :: rest => flat_map (reach db rest) (step_rows db s r)
  end.

(** ** Strings of digits

    [str.isdigit] and the conversion the mapper applies to a value bound to
    an integer column.  Request strings are taken over ASCII:
    [str.isdigit] also accepts the digits of other scripts, which these
    strings do not have, and a property that depends on the test is
    stated for fields of ASCII characters. *)

Definition is_digit (c : ascii) : bool :=
  let n := nat_of_ascii c in (48 <=? n)%nat && (n <=? 57)%nat.

Fixpoint all_digits (s : string) : bool :=
  match s with
  | EmptyString => true
  | String c s' => is_digit c && all_digits s'
  end.

Definition isdigit (s : string) : bool :=
  match s with EmptyString => false | _ => all_digits s end.

Fixpoint int_of_digits_from (acc : Z) (s : string) : Z :=
  match s with
  | EmptyString => acc
  | String c s' =>
      int_of_digits_from (10 * acc + (Z.of_nat (nat_of_ascii c) - 48)) s'
  end.

Definition int_of_digits (s : string) : Z := int_of_digits_from 0 s.

Definition is_integer_column (d : FieldDecl) : bool :=
  match d with
  | AutoField | PositiveIntegerField | ForeignKey _ _ | OneToOneField _ _ =>
      true
  | _ => false
  end.

(** [get_prep_value]: a string of digits bound to an integer column is
    read as a number, as [int] reads it, and a truth value as 1 or 0; any
    other string there is a [ValueError].  [int] also reads a sign,
    blanks and underscores, and the store compares numbers of at most 64
    bits: a property that depends on the reading is stated for strings
    of digits within that range. *)
Definition prep_value (d : FieldDecl) (v : Value) : option Value :=
  if is_integer_column d then
    match v with
    | VStr s => if isdigit s then Some (VInt (int_of_digits s)) else None
    | VBool b => Some (VInt (if b then 1 else 0))
    | _ => Some v
    end
  else Some v.

(** The declaration behind a name that has a column. *)
Definition column_decl (m : ModelName) (name : string)
  : option (string * FieldDecl) :=
  first_some
    (fun decl : string * FieldDecl =>
       let '(f, d) := decl in
       match d with
       | ForeignKey _ _ | OneToOneField _ _ =>
           if String.eqb name f || String.eqb name (attname f)
           then Some (attname f, d) else None
       | ManyToManyField _ _ => None
       | _ => if String.eqb name f then Some (f, d) else None
       end)
    (fields m).

(** The declaration of the column at the end of a lookup. *)
Fixpoint final_decl (m : ModelName) (path : list string)
  : option FieldDecl :=
  match path with
  | [] => None
  | [name] =>
      match column_decl m name with Some (_, d) => Some d | None => None end
  | name :: rest =>
      match resolve_name m name with
      | Some (SForward _ to) => final_decl to rest
      | Some (SReverse src _) => final_decl src rest
      | Some (SManyToMany to) => final_decl to rest
      | _ => None
      end
  end.

(** The columns a row must be given on insertion: those that are neither
    nullable nor defaulted in [models.py] (text columns default to the
    empty string, [Seller.user] and [Seller.url] are nullable,
    [Seller.state] has a default and [Order.dt] is stamped). *)
Definition required_columns (m : ModelName) : list string :=
  match m with
  | MProduct => ["category_id"]
  | MProductInfo =>
      ["product_id"; "seller_id"; "quantity"; "price"; "price_rrc";
       "article"]
  | MProductParameter => ["product_info_id"; "parameter_id"]
  | MOrder => ["user_id"]
  | MOrderItem => ["order_id"; "product_id"; "shop_id"; "quantity"]
  | MContact | MConfirmEmailToken => ["user_id"]
  | _ => []
  end.

(** The columns with a uniqueness constraint besides the primary key:
    [Seller.user] is a [OneToOneField]. *)
Definition unique_columns (m : ModelName) : list string :=
  match m with
  | MSeller => ["user_id"]
  | MUser => ["email"; "username"]
  | MConfirmEmailToken => ["key"]
  | _ => []
  end.

(** ** Writing a column by name *)

Definition Seller_assign (c : string) (v : Value) (r : Seller)
  : option Seller :=
  match v with
  | VInt z =>
      if String.eqb c "id"
      then Some (mkSeller z (Seller_user_id r) (Seller_name r)
                          (Seller_state r) (Seller_url r))
      else if String.eqb c "user_id"
      then Some (mkSeller (Seller_id r) (Some z) (Seller_name r)
                          (Seller_state r) (Seller_url r))
      else None
  | VStr s =>
      if String.eqb c "name"
      then Some (mkSeller (Seller_id r) (Seller_user_id r) s
                          (Seller_state r) (Seller_url r))
      else if String.eqb c "url"
      then Some (mkSeller (Seller_id r) (Seller_user_id r) (Seller_name r)
                          (Seller_state r) (Some s))
      else None
  | VBool b =>
      if String.eqb c "state"
      then Some (mkSeller (Seller_id r) (Seller_user_id r) (Seller_name r)
                          b (Seller_url r))
      else None
  | VNull =>
      if String.eqb c "user_id"
      then Some (mkSeller (Seller_id r) None (Seller_name r)
                          (Seller_state r) (Seller_url r))
      else if String.eqb c "url"
      then Some (mkSeller (Seller_id r) (Seller_user_id r) (Seller_name r)
                          (Seller_state r) None)
      else None
  end.

Definition Category_assign (c : string) (v : Value) (r : Category)
  : option Category :=
  match v with
  | VInt z =>
      if String.eqb c "id" then Some (mkCategory z (Category_name r))
      else None
  | VStr s =>
      if String.eqb c "name" then Some (mkCategory (Category_id r) s)
      else None
  | _ => None
  end.

Definition Product_assign (c : string) (v : Value) (r : Product)
  : option Product :=
  match v with
  | VInt z =>
      if String.eqb c "id"
      then Some (mkProduct z (Product_name r) (Product_category_id r))
      else if String.eqb c "category_id"
      then Some (mkProduct (Product_id r) (Product_name r) z)
      else None
  | VStr s =>
      if String.eqb c "name"
      then Some (mkProduct (Product_id r) s (Product_category_id r))
      else None
  | _ => None
  end.

Definition ProductInfo_assign (c : string) (v : Value) (r : ProductInfo)
  : option ProductInfo :=
  let '(mkProductInfo i n p s q pr rrc a) := r in
  match v with
  | VInt z =>
      if String.eqb c "id" then Some (mkProductInfo z n p s q pr rrc a)
      else if String.eqb c "product_id"
      then Some (mkProductInfo i n z s q pr rrc a)
      else if String.eqb c "seller_id"
      then Some (mkProductInfo i n p z q pr rrc a)
      else if String.eqb c "quantity"
      then Some (mkProductInfo i n p s z pr rrc a)
      else if String.eqb c "price"
      then Some (mkProductInfo i n p s q z rrc a)
      else if String.eqb c "price_rrc"
      then Some (mkProductInfo i n p s q pr z a)
      else if String.eqb c "article"
      then Some (mkProductInfo i n p s q pr rrc z)
      else None
  | VStr x =>
      if String.eqb c "name" then Some (mkProductInfo i x p s q pr rrc a)
      else None
  | _ => None
  end.

Definition Parameter_assign (c : string) (v : Value) (r : Parameter_)
  : option Parameter_ :=
  match v with
  | VInt z =>
      if String.eqb c "id" then Some (mkParameter z (Parameter_name r))
      else None
  | VStr s =>
      if String.eqb c "name" then Some (mkParameter (Parameter_id r) s)
      else None
  | _ => None
  end.

Definition ProductParameter_assign (c : string) (v : Value)
  (r : ProductParameter) : option ProductParameter :=
  let '(mkProductParameter i pi pa x) := r in
  match v with
  | VInt z =>
      if String.eqb c "id" then Some (mkProductParameter z pi pa x)
      else if String.eqb c "product_info_id"
      then Some (mkProductParameter i z pa x)
      else if String.eqb c "parameter_id"
      then Some (mkProductParameter i pi z x)
      else None
  | VStr s =>
      if String.eqb c "value" then Some (mkProductParameter i pi pa s)
      else None
  | _ => None
  end.

Definition Order_assign (c : string) (v : Value) (r : Order)
  : option Order :=
  let '(mkOrder i u d s) := r in
  match v with
  | VInt z =>
      if String.eqb c "id" then Some (mkOrder z u d s)
      else if String.eqb c "user_id" then Some (mkOrder i z d s)
      else if String.eqb c "dt" then Some (mkOrder i u z s)
      else None
  | VStr x =>
      if String.eqb c "state" then Some (mkOrder i u d x) else None
  | _ => None
  end.

Definition OrderItem_assign (c : string) (v : Value) (r : OrderItem)
  : option OrderItem :=
  let '(mkOrderItem i o p s q) := r in
  match v with
  | VInt z =>
      if String.eqb c "id" then Some (mkOrderItem z o p s q)
      else if String.eqb c "order_id" then Some (mkOrderItem i z p s q)
      else if String.eqb c "product_id" then Some (mkOrderItem i o z s q)
      else if String.eqb c "shop_id" then Some (mkOrderItem i o p z q)
      else if String.eqb c "quantity" then Some (mkOrderItem i o p s z)
      else None
  | _ => None
  end.

(** ** The object-relational mapper

    What a manager needs of its model: the name under which [models.py]
    declares it, its columns read and written by name, the instance that
    [Model()] builds before any keyword is applied, the stamp of
    [auto_now_add], and its table in the store. *)

Record ModelOps (T : Type) := mkOps {
  model : ModelName;
  pk : T -> Z;
  column : string -> T -> option Value;
  assign : string -> Value -> T -> option T;
  blank : T;
  with_pk : Z -> T -> T;
  stamp : Z -> T -> T;
  table : Database -> Table T;
  store : Table T -> Database -> Database
}.
Arguments model {T} m.
Arguments pk {T} m r.
Arguments column {T} m c r.
Arguments assign {T} m c v r.
Arguments blank {T} m.
Arguments with_pk {T} m i r.
Arguments stamp {T} m now r.
Arguments table {T} m db.
Arguments store {T} m t db.

Definition Seller_objects : ModelOps Seller :=
  mkOps Seller MSeller Seller_id Seller_column Seller_assign
        (mkSeller 0 None "" true None)
        (fun i r => mkSeller i (Seller_user_id r) (Seller_name r)
                             (Seller_state r) (Seller_url r))
        (fun _ r => r) sellers set_sellers.

Definition Category_objects : ModelOps Category :=
  mkOps Category MCategory Category_id Category_column Category_assign
        (mkCategory 0 "") (fun i r => mkCategory i (Category_name r))
        (fun _ r => r) categories set_categories.

Definition Product_objects : ModelOps Product :=
  mkOps Product MProduct Product_id Product_column Product_assign
        (mkProduct 0 "" 0)
        (fun i r => mkProduct i (Product_name r) (Product_category_id r))
        (fun _ r => r) products set_products.

Definition ProductInfo_objects : ModelOps ProductInfo :=
  mkOps ProductInfo MProductInfo ProductInfo_id ProductInfo_column
        ProductInfo_assign (mkProductInfo 0 "" 0 0 0 0 0 0)
        (fun i r =>
           mkProductInfo i (ProductInfo_name r) (ProductInfo_product_id r)
                         (ProductInfo_seller_id r) (ProductInfo_quantity r)
                         (ProductInfo_price r) (ProductInfo_price_rrc r)
                         (ProductInfo_article r))
        (fun _ r => r) product_infos set_product_infos.

Definition Parameter_objects : ModelOps Parameter_ :=
  mkOps Parameter_ MParameter Parameter_id Parameter_column Parameter_assign
        (mkParameter 0 "") (fun i r => mkParameter i (Parameter_name r))
        (fun _ r => r) parameters set_parameters.

Definition ProductParameter_objects : ModelOps ProductParameter :=
  mkOps ProductParameter MProductParameter ProductParameter_id
        ProductParameter_column ProductParameter_assign
        (mkProductParameter 0 0 0 "")
        (fun i r =>
           mkProductParameter i (ProductParameter_product_info_id r)
                              (ProductParameter_parameter_id r)
                              (ProductParameter_value r))
        (fun _ r => r) product_parameters set_product_parameters.

Definition Order_objects : ModelOps Order :=
  mkOps Order MOrder Order_id Order_column Order_assign
        (mkOrder 0 0 0 "")
        (fun i r => mkOrder i (Order_user_id r) (Order_dt r) (Order_state r))
        (fun now r => mkOrder (Order_id r) (Order_user_id r) now
                              (Order_state r))
        orders set_orders.

Definition OrderItem_objects : ModelOps OrderItem :=
  mkOps OrderItem MOrderItem OrderItem_id OrderItem_column OrderItem_assign
        (mkOrderItem 0 0 0 0 0)
        (fun i r =>
           mkOrderItem i (OrderItem_order_id r) (OrderItem_product_id r)
                       (OrderItem_shop_id r) (OrderItem_quantity r))
        (fun _ r => r) order_items set_order_items.

(** ** Managers and query sets *)

Fixpoint mapM {A B : Type} (f : A -> Result B) (l : list A)
  : Result (list B) :=
  match l with
  | [] => Ok []
  | a :: l' =>
      match f a with
      | Raise e => Raise e
      | Ok b =>
          match mapM f l' with
          | Raise e => Raise e
          | Ok bs => Ok (b :: bs)
          end
      end
  end.

(** A lookup that ends on a relation compares the key the relation
    follows. *)
Fixpoint close_path (p : list Step) : list Step :=
  match p with
  | [] => []
  | [SForward c _] => [SColumn c]
  | s :: rest => s :: close_path rest
  end.

(** One keyword of [filter]: the path of its lookup and the value prepared
    for the column at the end of the path. *)
Definition Condition := (list Step * Value)%type.

Definition resolve_condition (m : ModelName) (kv : string * Value)
  : Result Condition :=
  let path := split_lookup (fst kv) in
  match resolve_path m path, final_decl m path with
  | Some p, Some d =>
      match prep_value d (snd kv) with
      | Some v => Ok (close_path p, v)
      | None => Raise ValueError
      end
  | _, _ => Raise FieldError
  end.

Definition holds (db : Database) (r : GRow) (c : Condition) : bool :=
  existsb (Value_eqb (snd c)) (reach db (fst c) r).

(** [Q(kw1) | Q(kw2) | ...]; the empty disjunction is [Q()], which
    every row satisfies. *)
Definition Q := list kwargs.

Section Manager.
Context {T : Type} (O : ModelOps T).

Definition grow (r : T) : GRow := fun c => column O c r.

(** [filter] with keywords [kw]: the names are resolved when the query set is built,
    the rows are compared when it is run. *)
Definition filter_kwargs (kw : kwargs) (db : Database)
  : Result (T -> bool) :=
  match mapM (resolve_condition (model O)) kw with
  | Raise e => Raise e
  | Ok conds => Ok (fun r => forallb (holds db (grow r)) conds)
  end.

Definition filter_Q (q : Q) (db : Database) : Result (T -> bool) :=
  match mapM (fun kw => mapM (resolve_condition (model O)) kw) q with
  | Raise e => Raise e
  | Ok [] => Ok (fun _ => true)
  | Ok disj =>
      Ok (fun r => existsb (forallb (holds db (grow r))) disj)
  end.

Definition run (qs : Result (T -> bool)) (db : Database)
  : Result (list T) :=
  match qs with
  | Raise e => Raise e
  | Ok p => Ok (filter p (rows (table O db)))
  end.

Definition objects_get (kw : kwargs) (db : Database) : Result T :=
  match run (filter_kwargs kw db) db with
  | Raise e => Raise e
  | Ok [] => Raise DoesNotExist
  | Ok [r] => Ok r
  | Ok _ => Raise MultipleObjectsReturned
  end.

(** [Model] called with keywords [kw]: every keyword must name a column. *)
Fixpoint build (kw : kwargs) (obj : T) (cols : list string)
  : Result (T * list string) :=
  match kw with
  | [] => Ok (obj, cols)
  | (k, v) :: kw' =>
      match column_decl (model O) k with
      | None => Raise TypeError
      | Some (c, d) =>
          match prep_value d v with
          | None => Raise ValueError
          | Some v' =>
              match assign O c v' obj with
              | None => Raise ValueError
              | Some obj' => build kw' obj' (c :: cols)
              end
          end
      end
  end.

Definition same_in (c : string) (obj r : T) : bool :=
  match column O c obj, column O c r with
  | Some VNull, _ | None, _ | _, None => false
  | Some v, Some v' => Value_eqb v v'
  end.

Definition violates_unique (obj : T) (l : list T) : bool :=
  existsb (fun c => existsb (same_in c obj) l)
          ("id" :: unique_columns (model O)).

(** [objects.create] with keywords [kw]: the row is inserted at the end of its table
    under the next key, unless the keywords give the key.  Of the
    constraints of the store, the columns that must be given, the
    primary key and the unique columns are checked; the keys to other
    tables and the ranges of the numbers are not, and a property that
    asserts an insertion states them as its hypotheses. *)
Definition objects_create (now : Z) (kw : kwargs) (db : Database)
  : Database * Result T :=
  match build kw (blank O) [] with
  | Raise e => (db, Raise e)
  | Ok (obj, cols) =>
      if forallb (fun c => existsb (String.eqb c) cols)
                 (required_columns (model O))
      then
        let t := table O db in
        let obj := stamp O now obj in
        let obj := if existsb (String.eqb "id") cols then obj
                   else with_pk O (next_id t) obj in
        if violates_unique obj (rows t)
        then (db, Raise (IntegrityError "UNIQUE constraint failed"))
        else (store O (mkTable (rows t ++ [obj])
                               (Z.max (next_id t) (pk O obj + 1))) db,
              Ok obj)
      else (db, Raise (IntegrityError "NOT NULL constraint failed"))
  end.

(** [objects.get_or_create] with keywords [kw]: when the insertion fails the row is
    looked up once more, here in an unchanged store, and the failure is
    raised again. *)
Definition objects_get_or_create (now : Z) (kw : kwargs) (db : Database)
  : Database * Result (T * bool) :=
  match objects_get kw db with
  | Ok r => (db, Ok (r, false))
  | Raise DoesNotExist =>
      match objects_create now kw db with
      | (db', Ok r) => (db', Ok (r, true))
      | (_, Raise e) => (db, Raise e)
      end
  | Raise e => (db, Raise e)
  end.

(** The columns of [update], found with [_meta.get_field]. *)
Definition resolve_assignment (kv : string * Value)
  : Result (string * Value) :=
  match column_decl (model O) (fst kv) with
  | None => Raise FieldDoesNotExist
  | Some (c, d) =>
      match prep_value d (snd kv) with
      | None => Raise ValueError
      | Some v => Ok (c, v)
      end
  end.

Fixpoint assign_all (asg : list (string * Value)) (r : T) : T :=
  match asg with
  | [] => r
  | (c, v) :: asg' =>
      assign_all asg' (match assign O c v r with Some r' => r' | None => r end)
  end.

(** [queryset.update]: the number of rows matched.  The ranges of the
    numbers written are not checked. *)
Definition update (qs : Result (T -> bool)) (kw : kwargs) (db : Database)
  : Database * Result Z :=
  match qs with
  | Raise e => (db, Raise e)
  | Ok p =>
      match mapM resolve_assignment kw with
      | Raise e => (db, Raise e)
      | Ok asg =>
          let t := table O db in
          (store O (mkTable (map (fun r => if p r then assign_all asg r
                                           else r) (rows t))
                            (next_id t)) db,
           Ok (Z.of_nat (List.length (filter p (rows t)))))
      end
  end.
End Manager.

(** ** Aggregates over joins *)

Definition Step_eqb (a b : Step) : bool :=
  match a, b with
  | SColumn c, SColumn c' => String.eqb c c'
  | SForward c m, SForward c' m' => String.eqb c c' && ModelName_eqb m m'
  | SReverse m c, SReverse m' c' => ModelName_eqb m m' && String.eqb c c'
  | SManyToMany m, SManyToMany m' => ModelName_eqb m m'
  | _, _ => false
  end.

Definition is_relation (s : Step) : bool :=
  match s with SColumn _ => false | _ => true end.

Definition mul_value (a b : Value) : Value :=
  match a, b with
  | VInt x, VInt y => VInt (x * y)
  | _, _ => VNull
  end.

Definition cross (la lb : list Value) : list Value :=
  flat_map (fun a => map (mul_value a) lb) la.

(** [F(a) * F(b)] over the joined rows of [r]: the relations with which
    both references start are joined once. *)
Fixpoint F_times_F (db : Database) (pa pb : list Step) (r : GRow)
  : list Value :=
  match pa, pb with
  | sa :: pa', sb :: pb' =>
      if Step_eqb sa sb && is_relation sa
      then flat_map (F_times_F db pa' pb') (step_rows db sa r)
      else cross (reach db pa r) (reach db pb r)
  | _, _ => cross (reach db pa r) (reach db pb r)
  end.

(** The same when the query set was filtered on a lookup through the
    relation the references start with: the join of the filter is the
    one the aggregate runs over, so only the joined rows that satisfy
    the filter are multiplied. *)
Definition F_times_F_where (db : Database) (c : Condition)
  (pa pb : list Step) (r : GRow) : list Value :=
  match fst c, pa, pb with
  | sf :: pf', sa :: pa', sb :: pb' =>
      if Step_eqb sf sa && Step_eqb sa sb && is_relation sa
      then flat_map (F_times_F db pa' pb')
                    (filter (fun r' => holds db r' (pf', snd c))
                            (step_rows db sa r))
      else F_times_F db pa pb r
  | _, _, _ => F_times_F db pa pb r
  end.

(** [Sum]: null over no value, and nulls are skipped. *)
Fixpoint ints (l : list Value) : list Z :=
  match l with
  | [] => []
  | VInt z :: l' => z :: ints l'
  | _ :: l' => ints l'
  end.

Definition Sum (l : list Value) : Value :=
  match ints l with
  | [] => VNull
  | zs => VInt (fold_right Z.add 0 zs)
  end.

Definition resolve_F (m : ModelName) (name : string)
  : Result (list Step) :=
  match resolve_lookup m name with
  | Some p => Ok (close_path p)
  | None => Raise FieldError
  end.

(** ** Requests and responses *)

Record AuthUser := mkUser {
  User_id : Z;
  User_type : string
}.

(** A request: the authenticated account ([None] for an anonymous
    caller), the form fields of [request.data] and the time of the call. *)
Record Request := mkRequest {
  user : option AuthUser;
  data : list (string * string);
  now : Z
}.

Unset Elimination Schemes.
Inductive JValue :=
| JNull
| JBool (b : bool)
| JInt (z : Z)
| JStr (s : string)
| JList (l : list JValue)
| JDict (d : list (string * JValue)).
Set Elimination Schemes.

(** [JsonResponse(body, status=...)], and [Response(serializer.data)] for
    a list of orders annotated with [total_sum]. *)
Inductive Response :=
| JsonResponse (body : list (string * JValue)) (status : Z)
| OrdersResponse (orders : list (Order * Value)).

Definition log_in_required : Response :=
  JsonResponse [("Status", JBool false); ("Error", JStr "Log in required")]
               403.

Definition only_for_sellers : Response :=
  JsonResponse [("Status", JBool false); ("Error", JStr "Only for sellers")]
               403.

Definition not_specified : Response :=
  JsonResponse [("Status", JBool false);
                ("Errors", JStr "Necessary arguments are not specified")]
               200.

(** ** views.py: the listings of orders *)

Definition Order_eqb (a b : Order) : bool :=
  (Order_id a =? Order_id b) && (Order_user_id a =? Order_user_id b)
  && (Order_dt a =? Order_dt b) && String.eqb (Order_state a) (Order_state b).

Definition annotated_eqb (a b : Order * Value) : bool :=
  Order_eqb (fst a) (fst b) && Value_eqb (snd a) (snd b).

Fixpoint distinct (l : list (Order * Value)) : list (Order * Value) :=
  match l with
  | [] => []
  | x :: l' =>
      x :: filter (fun y => negb (annotated_eqb x y)) (distinct l')
  end.

Definition exclude (qs : Result (Order -> bool)) (kw : kwargs)
  (db : Database) : Result (Order -> bool) :=
  match qs with
  | Raise e => Raise e
  | Ok p =>
      match filter_kwargs Order_objects kw db with
      | Raise e => Raise e
      | Ok q => Ok (fun r => p r && negb (q r))
      end
  end.

(** [annotate(total_sum=Sum(F(a) * F(b)))]: the references are resolved
    when the query set is built; the rows are grouped by order. *)
Definition annotate_total_sum (qs : Result (Order -> bool))
  (filtered_on : option Condition) (a b : string) (db : Database)
  : Result (list (Order * Value)) :=
  match qs with
  | Raise e => Raise e
  | Ok p =>
      match resolve_F MOrder a, resolve_F MOrder b with
      | Ok pa, Ok pb =>
          Ok (map (fun o =>
                     let r := grow Order_objects o in
                     (o, Sum (match filtered_on with
                              | Some c => F_times_F_where db c pa pb r
                              | None => F_times_F db pa pb r
                              end)))
                  (filter p (rows (orders db))))
      | Raise e, _ => Raise e
      | _, Raise e => Raise e
      end
  end.

Definition total_sum_of (qs : Result (Order -> bool))
  (filtered_on : option Condition) (db : Database)
  : Result (list (Order * Value)) :=
  annotate_total_sum qs filtered_on
    "ordered_items__quantity" "ordered_items__product_info__price" db.

Definition respond_orders (annotated : Result (list (Order * Value)))
  : Result Response :=
  match annotated with
  | Raise e => Raise e
  | Ok l => Ok (OrdersResponse (distinct l))
  end.

Definition BasketView_get (request : Request) (db : Database)
  : Result Response :=
  match user request with
  | None => Ok log_in_required
  | Some u =>
      let basket :=
        filter_kwargs Order_objects
          [("user_id", VInt (User_id u)); ("state", VStr "basket")] db in
      respond_orders (total_sum_of basket None db)
  end.

Definition OrderView_get (request : Request) (db : Database)
  : Result Response :=
  match user request with
  | None => Ok log_in_required
  | Some u =>
      let order :=
        exclude
          (filter_kwargs Order_objects [("user_id", VInt (User_id u))] db)
          [("state", VStr "basket")] db in
      respond_orders (total_sum_of order None db)
  end.

Definition SellerOrdersView_get (request : Request) (db : Database)
  : Result Response :=
  match user request with
  | None => Ok log_in_required
  | Some u =>
      if negb (String.eqb (User_type u) "seller") then Ok only_for_sellers
      else
        let lookup :=
          ("ordered_items__product_info__seller__user_id",
           VInt (User_id u)) in
        let order :=
          exclude (filter_kwargs Order_objects [lookup] db)
                  [("state", VStr "basket")] db in
        let joined :=
          match resolve_condition MOrder lookup with
          | Ok c => Some c
          | Raise _ => None
          end in
        respond_orders (total_sum_of order joined db)
  end.

(** ** views.py: placing an order

    [new_order.send] notifies by mail and leaves the store as it is. *)
Definition OrderView_post (request : Request) (db : Database)
  : Database * Result Response :=
  match user request with
  | None => (db, Ok log_in_required)
  | Some u =>
      match assoc "id" (data request), assoc "contact" (data request) with
      | Some id, Some contact =>
          if isdigit id then
            match update Order_objects
                    (filter_kwargs Order_objects
                       [("user_id", VInt (User_id u)); ("id", VStr id)] db)
                    [("contact_id", VStr contact); ("state", VStr "new")]
                    db with
            | (db', Raise (IntegrityError _)) =>
                (db', Ok (JsonResponse
                            [("Status", JBool false);
                             ("Errors",
                              JStr "The arguments are specified incorrectly")]
                            200))
            | (db', Raise e) => (db', Raise e)
            | (db', Ok is_updated) =>
                if is_updated =? 0 then (db', Ok not_specified)
                else (db', Ok (JsonResponse [("Status", JBool true)] 200))
            end
          else (db, Ok not_specified)
      | _, _ => (db, Ok not_specified)
      end
  end.

(** ** views.py: the import of a catalog

    The document of a seller, as [load_yaml] hands it over: the name of the
    seller, the categories and the goods, every good with the items of its
    [parameters] mapping. *)

Record CategoryEntry := mkCategoryEntry {
  category_id : Z;
  category_name : string
}.

Record Good := mkGood {
  good_id : Z;
  good_category : Z;
  good_name : string;
  good_model : string;
  good_quantity : Z;
  good_price : Z;
  good_price_rrc : Z;
  good_parameters : list (string * string)
}.

Record Document := mkDocument {
  document_seller : string;
  document_categories : list CategoryEntry;
  document_goods : list Good
}.

(** [category_object.sellers.add(seller_id)]: the pair is linked unless it
    is linked already. *)
Definition related_add (category seller : Z) (db : Database) : Database :=
  let t := category_shops db in
  if existsb (fun l => (CategoryShops_category_id l =? category)
                       && (CategoryShops_seller_id l =? seller)) (rows t)
  then db
  else set_category_shops
         (mkTable (rows t ++ [mkCategoryShops (next_id t) category seller])
                  (next_id t + 1)) db.

(** [queryset.delete()] on [ProductInfo]: the rows go, and with them the
    rows of [ProductParameter] and [OrderItem] whose key points to one of
    them, both declared [on_delete=CASCADE]; no key points to these two
    models.  The number of rows deleted is returned. *)
Definition delete_product_infos (qs : Result (ProductInfo -> bool))
  (db : Database) : Database * Result Z :=
  match qs with
  | Raise e => (db, Raise e)
  | Ok p =>
      let gone := map ProductInfo_id (filter p (rows (product_infos db))) in
      let dead_parameter (x : ProductParameter) :=
        existsb (Z.eqb (ProductParameter_product_info_id x)) gone in
      let dead_item (x : OrderItem) :=
        existsb (Z.eqb (OrderItem_product_id x)) gone in
      let n :=
        (List.length (filter p (rows (product_infos db)))
         + List.length (filter dead_parameter (rows (product_parameters db)))
         + List.length (filter dead_item (rows (order_items db))))%nat in
      let db1 :=
        set_order_items
          (mkTable (filter (fun x => negb (dead_item x))
                           (rows (order_items db)))
                   (next_id (order_items db))) db in
      let db2 :=
        set_product_parameters
          (mkTable (filter (fun x => negb (dead_parameter x))
                           (rows (product_parameters db1)))
                   (next_id (product_parameters db1))) db1 in
      (set_product_infos
         (mkTable (filter (fun x => negb (p x)) (rows (product_infos db2)))
                  (next_id (product_infos db2))) db2,
       Ok (Z.of_nat n))
  end.

Section Catalog.
(** [URLValidator]: the text of the [ValidationError], if any. *)
Variable validate_url : string -> option string.
(** [load_yaml(get(url).content, Loader=Loader)]. *)
Variable load_url : string -> Result Document.

Fixpoint import_parameters (now product_info_id : Z)
  (items : list (string * string)) (db : Database)
  : Database * Result unit :=
  match items with
  | [] => (db, Ok tt)
  | (name, value) :: items' =>
      match objects_get_or_create Parameter_objects now
              [("name", VStr name)] db with
      | (db1, Raise e) => (db1, Raise e)
      | (db1, Ok (parameter_object, _)) =>
          match objects_create ProductParameter_objects now
                  [("product_info_id", VInt product_info_id);
                   ("parameter_id", VInt (Parameter_id parameter_object));
                   ("value", VStr value)] db1 with
          | (db2, Raise e) => (db2, Raise e)
          | (db2, Ok _) =>
              import_parameters now product_info_id items' db2
          end
      end
  end.

Fixpoint import_goods (now seller_id : Z) (goods : list Good)
  (db : Database) : Database * Result unit :=
  match goods with
  | [] => (db, Ok tt)
  | item :: goods' =>
      match objects_get_or_create Product_objects now
              [("name", VStr (good_name item));
               ("category_id", VInt (good_category item))] db with
      | (db1, Raise e) => (db1, Raise e)
      | (db1, Ok (product, _)) =>
          match objects_create ProductInfo_objects now
                  [("name", VStr (good_model item));
                   ("product_id", VInt (Product_id product));
                   ("seller_id", VInt seller_id);
                   ("quantity", VInt (good_quantity item));
                   ("price", VInt (good_price item));
                   ("price_rrc", VInt (good_price_rrc item));
                   ("article", VInt (good_id item))] db1 with
          | (db2, Raise e) => (db2, Raise e)
          | (db2, Ok product_info) =>
              match import_parameters now (ProductInfo_id product_info)
                      (good_parameters item) db2 with
              | (db3, Raise e) => (db3, Raise e)
              | (db3, Ok _) => import_goods now seller_id goods' db3
              end
          end
      end
  end.

(** The loop over the categories.  [category_object.sellers] is an
    attribute of the instance; [category_object.save()] writes the row
    back as it is. *)
Fixpoint import_categories (now seller_id : Z)
  (entries : list CategoryEntry) (db : Database)
  : Database * Result unit :=
  match entries with
  | [] => (db, Ok tt)
  | category :: entries' =>
      match objects_get_or_create Category_objects now
              [("id", VInt (category_id category));
               ("name", VStr (category_name category))] db with
      | (db1, Raise e) => (db1, Raise e)
      | (db1, Ok (category_object, _)) =>
          match resolve_name MCategory "sellers" with
          | Some (SManyToMany MSeller) =>
              import_categories now seller_id entries'
                (related_add (Category_id category_object) seller_id db1)
          | _ => (db1, Raise AttributeError)
          end
      end
  end.

Definition import_document (request : Request) (u : AuthUser)
  (data : Document) (db : Database) : Database * Result Response :=
  match objects_get_or_create Seller_objects (now request)
          [("name", VStr (document_seller data));
           ("user_id", VInt (User_id u))] db with
  | (db1, Raise e) => (db1, Raise e)
  | (db1, Ok (seller, _)) =>
      match import_categories (now request) (Seller_id seller)
              (document_categories data) db1 with
      | (db2, Raise e) => (db2, Raise e)
      | (db2, Ok _) =>
          match delete_product_infos
                  (filter_kwargs ProductInfo_objects
                     [("seller_id", VInt (Seller_id seller))] db2)
                  db2 with
          | (db3, Raise e) => (db3, Raise e)
          | (db3, Ok _) =>
              match import_goods (now request) (Seller_id seller)
                      (document_goods data) db3 with
              | (db4, Raise e) => (db4, Raise e)
              | (db4, Ok _) =>
                  (db4, Ok (JsonResponse [("Status", JBool true)] 200))
              end
          end
      end
  end.

Definition CatalogView_post (request : Request) (db : Database)
  : Database * Result Response :=
  match user request with
  | None => (db, Ok log_in_required)
  | Some u =>
      if negb (String.eqb (User_type u) "seller")
      then (db, Ok only_for_sellers)
      else
        match assoc "url" (data request) with
        | Some (String c rest as url) =>
            match validate_url url with
            | Some e =>
                (db, Ok (JsonResponse [("Status", JBool false);
                                       ("Error", JStr e)] 200))
            | None =>
                match load_url url with
                | Raise e => (db, Raise e)
                | Ok data => import_document request u data db
                end
            end
        | _ =>
            (db, Ok (JsonResponse
                       [("Status", JBool false);
                        ("Error",
                         JStr "All required arguments not provided")]
                       200))
        end
  end.
End Catalog.

(** ** views.py: the basket *)

(** [str.split(",")]. *)
Fixpoint split_from (sep : ascii) (s cur : string) : list string :=
  match s with
  | EmptyString => [cur]
  | String c s' =>
      if Ascii.eqb c sep then cur :: split_from sep s' EmptyString
      else split_from sep s' (String.append cur (String c EmptyString))
  end.

Definition str_split (sep : ascii) (s : string) : list string :=
  split_from sep s EmptyString.

(** What the body of a [for] loop does at its end: it goes on with the
    next element, or it leaves the handler with a response. *)
Inductive Flow (S : Type) :=
| Continue (s : S)
| Return (r : Response).
Arguments Continue {S} s.
Arguments Return {S} r.

Fixpoint for_each {A S : Type}
  (body : A -> S -> Database -> Database * Result (Flow S))
  (l : list A) (s : S) (db : Database) : Database * Result (Flow S) :=
  match l with
  | [] => (db, Ok (Continue s))
  | a :: l' =>
      match body a s db with
      | (db', Ok (Continue s')) => for_each body l' s' db'
      | other => other
      end
  end.

(** [for x in value]: the elements of a list, the keys of an object, the
    characters of a string. *)
Fixpoint characters (s : string) : list JValue :=
  match s with
  | EmptyString => []
  | String c s' => JStr (String c EmptyString) :: characters s'
  end.

Definition iterate (v : JValue) : Result (list JValue) :=
  match v with
  | JList l => Ok l
  | JDict d => Ok (map (fun kv => JStr (fst kv)) d)
  | JStr s => Ok (characters s)
  | _ => Raise TypeError
  end.

(** [value[key]] with a string key. *)
Definition subscript (v : JValue) (key : string) : Result JValue :=
  match v with
  | JDict d =>
      match assoc key d with Some x => Ok x | None => Raise KeyError end
  | _ => Raise TypeError
  end.

(** [dict.update({key: x})]. *)
Fixpoint dict_update (d : list (string * JValue)) (key : string)
  (x : JValue) : list (string * JValue) :=
  match d with
  | [] => [(key, x)]
  | (k, y) :: d' =>
      if String.eqb k key then (k, x) :: d'
      else (k, y) :: dict_update d' key x
  end.

Definition is_int (v : JValue) : option Z :=
  match v with JInt z => Some z | _ => None end.

(** [queryset.delete()] on [OrderItem], to which no key points. *)
Definition delete_order_items (qs : Result (OrderItem -> bool))
  (db : Database) : Database * Result Z :=
  match qs with
  | Raise e => (db, Raise e)
  | Ok p =>
      let t := order_items db in
      (set_order_items
         (mkTable (filter (fun x => negb (p x)) (rows t)) (next_id t)) db,
       Ok (Z.of_nat (List.length (filter p (rows t)))))
  end.

(** The basket of the caller, looked up or created.  The key of the
    account is written into [Order.user], which models.py declares as a
    key to [Contact]; this store does not keep the contacts and takes
    the order, and [WithContacts.get_or_create_basket] below is the call
    on a store that keeps them. *)
Definition get_or_create_basket (request : Request) (u : AuthUser)
  (db : Database) : Database * Result (Order * bool) :=
  objects_get_or_create Order_objects (now request)
    [("user_id", VInt (User_id u)); ("state", VStr "basket")] db.

Section Basket.
(** [ujson.loads]: [None] stands for its [ValueError]. *)
Variable load_json : string -> option JValue.
(** [OrderItemSerializer(data=...)]: [is_valid()] and [save()]. *)
Variable is_valid : list (string * JValue) -> Database -> bool.
Variable save :
  list (string * JValue) -> Database -> Database * Result unit.

(** The body of the loop of [post]; its last statement is the
    [return] of the handler. *)
Definition post_body (basket : Order) (order_item : JValue)
  (objects_created : Z) (db : Database) : Database * Result (Flow Z) :=
  match order_item with
  | JDict d =>
      let d' := dict_update d "order" (JInt (Order_id basket)) in
      let created (n : Z) :=
        Return (JsonResponse [("Status", JBool true);
                              ("Created objects", JInt n)] 200) in
      if is_valid d' db then
        match save d' db with
        | (db', Raise (IntegrityError error)) =>
            (db', Ok (Return (JsonResponse [("Status", JBool false);
                                            ("Errors", JStr error)] 200)))
        | (db', Raise e) => (db', Raise e)
        | (db', Ok _) => (db', Ok (created (objects_created + 1)))
        end
      else (db, Ok (created objects_created))
  | _ => (db, Raise AttributeError)
  end.

Definition BasketView_post (request : Request) (db : Database)
  : Database * Result Response :=
  match user request with
  | None => (db, Ok log_in_required)
  | Some u =>
      match assoc "items" (data request) with
      | Some (String _ _ as items_string) =>
          let items_dict := load_json items_string in
          match get_or_create_basket request u db with
          | (db1, Raise e) => (db1, Raise e)
          | (db1, Ok (basket, _)) =>
              match items_dict with
              | None => (db1, Raise UnboundLocalError)
              | Some v =>
                  match iterate v with
                  | Raise e => (db1, Raise e)
                  | Ok l =>
                      match for_each (post_body basket) l 0 db1 with
                      | (db2, Raise e) => (db2, Raise e)
                      | (db2, Ok (Return r)) => (db2, Ok r)
                      | (db2, Ok (Continue _)) => (db2, Ok not_specified)
                      end
                  end
              end
          end
      | _ => (db, Ok not_specified)
      end
  end.

(** The loop of [delete] builds the disjunction of its query. *)
Fixpoint delete_query (basket : Order) (items_list : list string)
  (query : Q) (objects_deleted : bool) : Q * bool :=
  match items_list with
  | [] => (query, objects_deleted)
  | order_item_id :: rest =>
      if isdigit order_item_id
      then delete_query basket rest
             (query ++ [[("order_id", VInt (Order_id basket));
                         ("id", VStr order_item_id)]])
             true
      else delete_query basket rest query objects_deleted
  end.

Definition BasketView_delete (request : Request) (db : Database)
  : Database * Result Response :=
  match user request with
  | None => (db, Ok log_in_required)
  | Some u =>
      match assoc "items" (data request) with
      | Some (String _ _ as items_string) =>
          let items_list := str_split "," items_string in
          match get_or_create_basket request u db with
          | (db1, Raise e) => (db1, Raise e)
          | (db1, Ok (basket, _)) =>
              let '(query, objects_deleted) :=
                delete_query basket items_list [] false in
              if objects_deleted then
                match delete_order_items
                        (filter_Q OrderItem_objects query db1) db1 with
                | (db2, Raise e) => (db2, Raise e)
                | (db2, Ok deleted_count) =>
                    (db2, Ok (JsonResponse
                                [("Status", JBool true);
                                 ("Deleted objects", JInt deleted_count)]
                                200))
                end
              else (db1, Ok not_specified)
          end
      | _ => (db, Ok not_specified)
      end
  end.

(** The body of the loop of [put]. *)
Definition put_body (basket : Order) (order_item : JValue)
  (objects_updated : Z) (db : Database) : Database * Result (Flow Z) :=
  match subscript order_item "id" with
  | Raise e => (db, Raise e)
  | Ok id =>
      match is_int id with
      | None => (db, Ok (Continue objects_updated))
      | Some i =>
          match subscript order_item "quantity" with
          | Raise e => (db, Raise e)
          | Ok quantity =>
              match is_int quantity with
              | None => (db, Ok (Continue objects_updated))
              | Some q =>
                  match update OrderItem_objects
                          (filter_kwargs OrderItem_objects
                             [("order_id", VInt (Order_id basket));
                              ("id", VInt i)] db)
                          [("quantity", VInt q)] db with
                  | (db', Raise e) => (db', Raise e)
                  | (db', Ok n) =>
                      (db', Ok (Continue (objects_updated + n)))
                  end
              end
          end
      end
  end.

Definition BasketView_put (request : Request) (db : Database)
  : Database * Result Response :=
  match user request with
  | None => (db, Ok log_in_required)
  | Some u =>
      match assoc "items" (data request) with
      | Some (String _ _ as items_string) =>
          let items_dict := load_json items_string in
          match get_or_create_basket request u db with
          | (db1, Raise e) => (db1, Raise e)
          | (db1, Ok (basket, _)) =>
              match items_dict with
              | None => (db1, Raise UnboundLocalError)
              | Some v =>
                  match iterate v with
                  | Raise e => (db1, Raise e)
                  | Ok l =>
                      match for_each (put_body basket) l 0 db1 with
                      | (db2, Raise e) => (db2, Raise e)
                      | (db2, Ok (Return r)) => (db2, Ok r)
                      | (db2, Ok (Continue objects_updated)) =>
                          (db2, Ok (JsonResponse
                                      [("Status", JBool true);
                                       ("Updated objects",
                                        JInt objects_updated)] 200))
                      end
                  end
              end
          end
      | _ => (db, Ok not_specified)
      end
  end.

(** The three operations on the basket, and a sequence of them. *)
Inductive BasketOperation :=
| Add (request : Request)
| UpdateQuantity (request : Request)
| DeleteItems (request : Request).

Definition perform (op : BasketOperation) (db : Database) : Database :=
  match op with
  | Add request => fst (BasketView_post request db)
  | UpdateQuantity request => fst (BasketView_put request db)
  | DeleteItems request => fst (BasketView_delete request db)
  end.

Definition perform_all (ops : list BasketOperation) (db : Database)
  : Database :=
  fold_left (fun db op => perform op db) ops db.
End Basket.

(** ** Inputs of the examples *)

(** The document of the example scenario. *)
Definition example_document : Document :=
  mkDocument "Acme" [mkCategoryEntry 1 "Tools"]
    [mkGood 10 1 "Hammer" "H1" 5 1000 1200 [("Weight", "1kg")]].

Definition a_seller : AuthUser := mkUser 7 "seller".
Definition a_buyer : AuthUser := mkUser 3 "buyer".

Definition import_request : Request :=
  mkRequest (Some a_seller) [("url", "https://acme.example/catalog.yaml")] 100.

(** The orders of a user that are in the state [basket]. *)
Definition is_basket_of (uid : Z) (o : Order) : bool :=
  (uid =? Order_user_id o) && String.eqb "basket" (Order_state o).

Definition baskets_of (uid : Z) (db : Database) : list Order :=
  filter (is_basket_of uid) (rows (orders db)).

Definition at_most_one_basket (db : Database) : Prop :=
  forall uid, (List.length (baskets_of uid db) <= 1)%nat.

(** The basket that [get_or_create] inserts for a user who has none, and
    the store with it. *)
Definition new_basket (request : Request) (u : AuthUser) (db : Database)
  : Order :=
  mkOrder (next_id (orders db)) (User_id u) (now request) "basket".

Definition with_new_basket (request : Request) (u : AuthUser)
  (db : Database) : Database :=
  set_orders (mkTable (rows (orders db) ++ [new_basket request u db])
                      (next_id (orders db) + 1)) db.

(** The number a response reports under [Created objects]. *)
Definition created_objects (r : Result Response) : Z :=
  match r with
  | Ok (JsonResponse body _) =>
      match assoc "Created objects" body with
      | Some (JInt n) => n
      | _ => 0
      end
  | _ => 0
  end.

(** The numbers that a comma-separated list names: its entries made of
    digits. *)
Definition listed_ids (items : string) : list Z :=
  map int_of_digits (filter isdigit (str_split "," items)).

(** The keywords of one disjunct of the query of [delete], and the
    conditions they resolve to. *)
Definition line_keywords (basket : Order) (order_item_id : string)
  : kwargs :=
  [("order_id", VInt (Order_id basket)); ("id", VStr order_item_id)].

Definition line_conditions (basket : Order) (order_item_id : string)
  : list Condition :=
  [([SColumn "order_id"], VInt (Order_id basket));
   ([SColumn "id"], VInt (int_of_digits order_item_id))].

(** The keys of a table are below the next key of its sequence. *)
Definition below_next {T : Type} (key : T -> Z) (t : Table T) : Prop :=
  Forall (fun r => key r < next_id t) (rows t).

(** The listings of a seller as a catalog describes them: product,
    model, quantity, price, recommended price and article, with the
    parameters attached to the listing; the keys of the rows of
    [ProductInfo] and [ProductParameter] themselves are left out. *)
Definition parameters_of (db : Database) (x : ProductInfo)
  : list (Z * string) :=
  map (fun pp => (ProductParameter_parameter_id pp,
                  ProductParameter_value pp))
      (filter (fun pp => ProductParameter_product_info_id pp
                         =? ProductInfo_id x)
              (rows (product_parameters db))).

Definition Listing : Type :=
  (Z * string * Z * Z * Z * Z * list (Z * string))%type.

Definition listing (db : Database) (x : ProductInfo) : Listing :=
  (ProductInfo_product_id x, ProductInfo_name x, ProductInfo_quantity x,
   ProductInfo_price x, ProductInfo_price_rrc x, ProductInfo_article x,
   parameters_of db x).

Definition listed_by (seller_id : Z) (x : ProductInfo) : bool :=
  ProductInfo_seller_id x =? seller_id.

Definition catalog (seller_id : Z) (db : Database) : list Listing :=
  map (listing db) (filter (listed_by seller_id) (rows (product_infos db))).

(** The rows that the lookups of the import select. *)
Definition product_matches (k : string * Z) (r : Product) : bool :=
  String.eqb (fst k) (Product_name r) && (snd k =? Product_category_id r).

Definition parameter_matches (name : string) (r : Parameter_) : bool :=
  String.eqb name (Parameter_name r).

(** A table that grew by rows that no earlier lookup would have found:
    [l'] is [l] followed by rows none of which matches a key that already
    selects a row of [l]. *)
Definition extends {K T : Type} (m : K -> T -> bool) (l l' : list T)
  : Prop :=
  exists added,
    l' = l ++ added
    /\ forall k, filter (m k) l <> [] -> filter (m k) added = [].

(** The parameters of the listings point to listings that were created. *)
Definition parameters_point_back (db : Database) : Prop :=
  Forall (fun pp => ProductParameter_product_info_id pp
                    < next_id (product_infos db))
         (rows (product_parameters db)).

(** A store as the database keeps it for the import: primary keys are
    unique and below the next key of their sequence, and the parameters of
    the listings point to listings that were created. *)
Definition listings_ok (db : Database) : Prop :=
  below_next ProductInfo_id (product_infos db)
  /\ NoDup (map ProductInfo_id (rows (product_infos db)))
  /\ below_next ProductParameter_id (product_parameters db)
  /\ parameters_point_back db.

Definition names_ok (db : Database) : Prop :=
  below_next Product_id (products db)
  /\ below_next Parameter_id (parameters db).

Definition store_ok (db : Database) : Prop :=
  listings_ok db /\ names_ok db.

(** The lines of the orders point to orders that were created. *)
Definition lines_point_back (db : Database) : Prop :=
  Forall (fun x => OrderItem_order_id x < next_id (orders db))
         (rows (order_items db)).

(** Modelled from the spec: [OrderItemSerializer], which [serializers.py]
    defines and the sources do not include.  Following the contract of the
    basket ("for each entry create an OrderItem bound to that basket",
    entries of the form [{product_info, quantity}]), an entry is valid
    when it names the order, a listing that exists and a quantity; saving
    it inserts the line, with the seller of the listing as its shop. *)
Definition OrderItemSerializer_is_valid (d : list (string * JValue))
  (db : Database) : bool :=
  match assoc "order" d, assoc "product_info" d, assoc "quantity" d with
  | Some (JInt _), Some (JInt p), Some (JInt _) =>
      existsb (fun x => ProductInfo_id x =? p) (rows (product_infos db))
  | _, _, _ => false
  end.

Definition OrderItemSerializer_save (d : list (string * JValue))
  (db : Database) : Database * Result unit :=
  match assoc "order" d, assoc "product_info" d, assoc "quantity" d with
  | Some (JInt o), Some (JInt p), Some (JInt q) =>
      match find (fun x => ProductInfo_id x =? p)
                 (rows (product_infos db)) with
      | Some listing =>
          match objects_create OrderItem_objects 0
                  [("order_id", VInt o); ("product_id", VInt p);
                   ("shop_id", VInt (ProductInfo_seller_id listing));
                   ("quantity", VInt q)] db with
          | (db', Ok _) => (db', Ok tt)
          | (db', Raise e) => (db', Raise e)
          end
      | None => (db, Raise (IntegrityError "FOREIGN KEY constraint failed"))
      end
  | _, _, _ => (db, Raise KeyError)
  end.

(** The payload of the examples, two entries for the listings 1 and 2,
    and a stand-in for [ujson.loads] that reads this payload. *)
Definition quoted (s : string) : string :=
  String (ascii_of_nat 34) (String.append s (String (ascii_of_nat 34) "")).

Definition two_entries : string :=
  String.concat ""
    ["[{"; quoted "product_info"; ": 1, "; quoted "quantity"; ": 2}, {";
     quoted "product_info"; ": 2, "; quoted "quantity"; ": 3}]"].

Definition two_entries_parsed : JValue :=
  JList [JDict [("product_info", JInt 1); ("quantity", JInt 2)];
         JDict [("product_info", JInt 2); ("quantity", JInt 3)]].

Definition loads_example (s : string) : option JValue :=
  if String.eqb s two_entries then Some two_entries_parsed else None.

(** A store with two listings of one seller, a basket of user 3 with two
    lines and a basket of user 4 with one line. *)
Definition example_store : Database :=
  mkDatabase
    (mkTable [mkSeller 1 (Some 7) "Acme" true None] 2)
    (mkTable [mkCategory 1 "Tools"] 2)
    empty_table
    (mkTable [mkProduct 1 "Hammer" 1; mkProduct 2 "Saw" 1] 3)
    (mkTable [mkProductInfo 1 "H1" 1 1 5 100 120 10;
              mkProductInfo 2 "S1" 2 1 5 50 60 11] 3)
    empty_table empty_table
    (mkTable [mkOrder 1 3 0 "basket"; mkOrder 2 4 0 "basket"] 3)
    (mkTable [mkOrderItem 1 1 1 1 2; mkOrderItem 2 1 2 1 3;
              mkOrderItem 3 2 2 1 1] 4).

(** A store with the two listings and no order. *)
Definition store_without_orders : Database :=
  set_order_items empty_table (set_orders empty_table example_store).

Definition buyer_request (items : string) : Request :=
  mkRequest (Some a_buyer) [("items", items)] 100.

(** The stores that the insertions of the import lead to. *)
Definition add_product (n : string) (c : Z) (db : Database) : Database :=
  set_products
    (mkTable (rows (products db) ++ [mkProduct (next_id (products db)) n c])
             (next_id (products db) + 1)) db.

Definition add_parameter (n : string) (db : Database) : Database :=
  set_parameters
    (mkTable (rows (parameters db)
              ++ [mkParameter (next_id (parameters db)) n])
             (next_id (parameters db) + 1)) db.

Definition new_product_info (item : Good) (product seller : Z)
  (db : Database) : ProductInfo :=
  mkProductInfo (next_id (product_infos db)) (good_model item) product
                seller (good_quantity item) (good_price item)
                (good_price_rrc item) (good_id item).

Definition add_product_info (item : Good) (product seller : Z)
  (db : Database) : Database :=
  set_product_infos
    (mkTable (rows (product_infos db)
              ++ [new_product_info item product seller db])
             (next_id (product_infos db) + 1)) db.

Definition add_product_parameter (info parameter : Z) (value : string)
  (db : Database) : Database :=
  set_product_parameters
    (mkTable (rows (product_parameters db)
              ++ [mkProductParameter (next_id (product_parameters db)) info
                    parameter value])
             (next_id (product_parameters db) + 1)) db.

(** The catalog after a parameter is attached to its last listing. *)
Definition push_parameter (qv : Z * string) (l : Listing) : Listing :=
  let '(p, n, q, pr, rrc, a, ps) := l in (p, n, q, pr, rrc, a, ps ++ [qv]).

Definition empty_listing : Listing := (0, "", 0, 0, 0, 0, []).

Definition push_to_last (qv : Z * string) (c : list Listing)
  : list Listing :=
  removelast c ++ [push_parameter qv (last c empty_listing)].

(** The listing with key [i] is the last row of the table, it is a
    listing of the seller, and no other row has its key. *)
Definition last_listing (i seller : Z) (db : Database) : Prop :=
  exists R L,
    rows (product_infos db) = R ++ [L]
    /\ ProductInfo_id L = i
    /\ listed_by seller L = true
    /\ Forall (fun x => ProductInfo_id x <> i) R.

(** The store after the listings of a seller are deleted, with their
    parameters and the lines of orders that point to them. *)
Definition without_listings (seller : Z) (db : Database) : Database :=
  fst (delete_product_infos
         (Ok (fun x => ((seller =? ProductInfo_seller_id x) || false)
                       && true)) db).

(** A document without categories, for a seller whose categories are
    in the store already. *)
Definition document_of_goods : Document :=
  mkDocument "Acme" []
    [mkGood 10 1 "Hammer" "H1" 5 1000 1200 [("Weight", "1kg")];
     mkGood 11 1 "Saw" "S2" 3 700 800 [("Weight", "2kg"); ("Length", "50cm")]].

(** ** views.py: the listings of products

    [select_related] follows keys of the model only, and
    [prefetch_related] relations in either direction; a name that is
    none raises when the query set is evaluated. *)

Definition is_forward (s : Step) : bool :=
  match s with SForward _ _ => true | _ => false end.

Definition select_related {T : Type} (m : ModelName)
  (lookups : list string) (qs : Result (T -> bool)) : Result (T -> bool) :=
  match qs with
  | Raise e => Raise e
  | Ok p =>
      if forallb (fun l => match resolve_lookup m l with
                           | Some path => forallb is_forward path
                           | None => false
                           end) lookups
      then Ok p else Raise FieldError
  end.

Definition prefetch_related {T : Type} (m : ModelName)
  (lookups : list string) (qs : Result (T -> bool)) : Result (T -> bool) :=
  match qs with
  | Raise e => Raise e
  | Ok p =>
      if forallb (fun l => match resolve_lookup m l with
                           | Some path => forallb is_relation path
                           | None => false
                           end) lookups
      then Ok p else Raise AttributeError
  end.

Definition ProductInfo_eqb (a b : ProductInfo) : bool :=
  (ProductInfo_id a =? ProductInfo_id b)
  && String.eqb (ProductInfo_name a) (ProductInfo_name b)
  && (ProductInfo_product_id a =? ProductInfo_product_id b)
  && (ProductInfo_seller_id a =? ProductInfo_seller_id b)
  && (ProductInfo_quantity a =? ProductInfo_quantity b)
  && (ProductInfo_price a =? ProductInfo_price b)
  && (ProductInfo_price_rrc a =? ProductInfo_price_rrc b)
  && (ProductInfo_article a =? ProductInfo_article b).

(** [distinct()] on the listings: a row equal to an earlier one goes. *)
Fixpoint distinct_listings (l : list ProductInfo) : list ProductInfo :=
  match l with
  | [] => []
  | x :: l' =>
      x :: filter (fun y => negb (ProductInfo_eqb x y)) (distinct_listings l')
  end.

(** [ProductInfoView.get], with the fields of [request.query_params]:
    the rows handed to [ProductInfoSerializer].  The conjunction of [Q]
    objects is the list of their keywords.  The query set has no
    ordering: the order of the table stands here for the order in which
    the database returns the rows, and the properties of the handler
    are stated for the rows, not for their order. *)
Definition ProductInfoView_get (query_params : list (string * string))
  (db : Database) : Result (list ProductInfo) :=
  let query := [("seller__state", VBool true)] in
  let query :=
    match assoc "seller_id" query_params with
    | Some (String _ _ as seller_id) =>
        query ++ [("seller_id", VStr seller_id)]
    | _ => query
    end in
  let query :=
    match assoc "category_id" query_params with
    | Some (String _ _ as category_id) =>
        query ++ [("product__category_id", VStr category_id)]
    | _ => query
    end in
  let queryset :=
    prefetch_related MProductInfo ["product_parameters__parameter"]
      (select_related MProductInfo ["seller"; "product__category"]
         (filter_kwargs ProductInfo_objects query db)) in
  match queryset with
  | Raise e => Raise e
  | Ok p => Ok (distinct_listings (filter p (rows (product_infos db))))
  end.

(** ** views.py: the state of a seller

    [distutils.util.strtobool]: the text is lowered, and 1 or 0 is
    returned for the words it knows; [None] stands for its
    [ValueError]. *)

Definition lower_ascii (c : ascii) : ascii :=
  let n := nat_of_ascii c in
  if (65 <=? n)%nat && (n <=? 90)%nat then ascii_of_nat (n + 32) else c.

Fixpoint lower (s : string) : string :=
  match s with
  | EmptyString => EmptyString
  | String c s' => String (lower_ascii c) (lower s')
  end.

Definition strtobool (val : string) : option Z :=
  let val := lower val in
  if existsb (String.eqb val) ["y"; "yes"; "t"; "true"; "on"; "1"]
  then Some 1
  else if existsb (String.eqb val) ["n"; "no"; "f"; "false"; "off"; "0"]
  then Some 0
  else None.

(** [BooleanField.to_python]: 1 and 0 are stored as [True] and
    [False]. *)
Definition to_python_bool (n : Z) : Value := VBool (n =? 1).

(** [request.user.sellers] is an attribute of the account: a relation
    that a key of [Seller] follows back to [User] under this name. *)
Definition SellerStateView_get (request : Request) (db : Database)
  : Result (Response + list Seller) :=
  match user request with
  | None => Ok (inl log_in_required)
  | Some u =>
      if negb (String.eqb (User_type u) "seller")
      then Ok (inl only_for_sellers)
      else
        match resolve_name MUser "sellers" with
        | Some (SReverse MSeller c) =>
            Ok (inr (filter (fun r => Value_eqb
                                        (col_value (grow Seller_objects r) c)
                                        (VInt (User_id u)))
                            (rows (sellers db))))
        | _ => Raise AttributeError
        end
  end.

Section SellerState.
(** [repr] of a text, and the text of a [ValueError] of the mapper. *)
Variable repr : string -> string.
Variable mapper_error : string.

Definition SellerStateView_post (request : Request) (db : Database)
  : Database * Result Response :=
  match user request with
  | None => (db, Ok log_in_required)
  | Some u =>
      if negb (String.eqb (User_type u) "seller")
      then (db, Ok only_for_sellers)
      else
        match assoc "state" (data request) with
        | Some (String _ _ as state) =>
            let errors (text : string) :=
              JsonResponse [("Status", JBool false); ("Errors", JStr text)]
                           200 in
            match filter_kwargs Seller_objects
                    [("user_id", VInt (User_id u))] db with
            | Raise ValueError => (db, Ok (errors mapper_error))
            | Raise e => (db, Raise e)
            | Ok queryset =>
                match strtobool state with
                | None =>
                    (db, Ok (errors (String.append "invalid truth value "
                                       (repr (lower state)))))
                | Some n =>
                    match update Seller_objects (Ok queryset)
                            [("state", to_python_bool n)] db with
                    | (db', Raise ValueError) =>
                        (db', Ok (errors mapper_error))
                    | (db', Raise e) => (db', Raise e)
                    | (db', Ok _) =>
                        (db', Ok (JsonResponse [("Status", JBool true)]
                                               200))
                    end
                end
            end
        | _ => (db, Ok not_specified)
        end
  end.
End SellerState.

(** The listings that [ProductInfoView.get] selects: the seller of the
    listing takes orders, and the seller and the category of the product
    are the ones asked for, if any. *)
Definition takes_orders (db : Database) (x : ProductInfo) : bool :=
  existsb (fun s => (Seller_id s =? ProductInfo_seller_id x)
                    && Seller_state s)
          (rows (sellers db)).

Definition in_category (db : Database) (c : Z) (x : ProductInfo) : bool :=
  existsb (fun p => (Product_id p =? ProductInfo_product_id x)
                    && (c =? Product_category_id p))
          (rows (products db)).

Definition asked_for (query_params : list (string * string))
  (db : Database) (x : ProductInfo) : bool :=
  takes_orders db x
  && match assoc "seller_id" query_params with
     | Some (String _ _ as s) => int_of_digits s =? ProductInfo_seller_id x
     | _ => true
     end
  && match assoc "category_id" query_params with
     | Some (String _ _ as c) => in_category db (int_of_digits c) x
     | _ => true
     end.

(** A field of a request that is absent, empty or a string of digits. *)
Definition digits_if_given (field : string) (l : list (string * string))
  : Prop :=
  match assoc field l with
  | Some (String _ _ as s) => isdigit s = true
  | _ => True
  end.

(** Two sellers that differ at most in their state, and differ only if
    the seller belongs to the user [uid]. *)
Definition restated (uid : Z) (x x' : Seller) : Prop :=
  Seller_id x' = Seller_id x
  /\ Seller_user_id x' = Seller_user_id x
  /\ Seller_name x' = Seller_name x
  /\ Seller_url x' = Seller_url x
  /\ (Seller_state x' <> Seller_state x -> Seller_user_id x = Some uid).

(** The sellers that the query of [SellerStateView.post] selects. *)
Definition owned_by (uid : Z) (r : Seller) : bool :=
  (Value_eqb (VInt uid) (opt_int (Seller_user_id r)) || false) && true.

(** A request of the seller of the examples that sets the state. *)
Definition state_request (word : string) : Request :=
  mkRequest (Some a_seller) [("state", word)] 100.

(** [repr] of a text without quotes or escapes. *)
Definition repr_plain (s : string) : string :=
  String.append "'" (String.append s "'").

(** ** models.py and views.py: the contacts

    The rows of [Contact] are kept in a table beside the store.
    [Order.user] is declared as a key to [Contact] with
    [on_delete=CASCADE], and [OrderItem.order] as a key to [Order] with
    the same: with a contact go the orders whose column [user_id] holds
    its key, and the lines of these orders. *)

Record Contact := mkContact {
  Contact_id : Z;
  Contact_user_id : Z;
  Contact_address : string;
  Contact_phone : string
}.

Definition Contact_column (c : string) (r : Contact) : option Value :=
  if String.eqb c "id" then Some (VInt (Contact_id r))
  else if String.eqb c "user_id" then Some (VInt (Contact_user_id r))
  else if String.eqb c "address" then Some (VStr (Contact_address r))
  else if String.eqb c "phone" then Some (VStr (Contact_phone r))
  else None.

(** [Contact.objects.filter(query)]: the lookups of the handlers name
    columns of [Contact] only. *)
Definition filter_contacts (q : Q) (db : Database)
  : Result (Contact -> bool) :=
  match mapM (fun kw => mapM (resolve_condition MContact) kw) q with
  | Raise e => Raise e
  | Ok [] => Ok (fun _ => true)
  | Ok disj =>
      Ok (fun r => existsb (forallb (holds db (fun c => Contact_column c r)))
                           disj)
  end.

(** [queryset.delete()] on [Contact]: the number of rows deleted, of
    the three models, is returned. *)
Definition delete_contacts (qs : Result (Contact -> bool))
  (contacts : Table Contact) (db : Database)
  : (Table Contact * Database) * Result Z :=
  match qs with
  | Raise e => ((contacts, db), Raise e)
  | Ok p =>
      let gone := map Contact_id (filter p (rows contacts)) in
      let dead_order (o : Order) :=
        existsb (Z.eqb (Order_user_id o)) gone in
      let dead_orders :=
        map Order_id (filter dead_order (rows (orders db))) in
      let dead_item (x : OrderItem) :=
        existsb (Z.eqb (OrderItem_order_id x)) dead_orders in
      let n :=
        (List.length (filter p (rows contacts))
         + List.length (filter dead_order (rows (orders db)))
         + List.length (filter dead_item (rows (order_items db))))%nat in
      let db1 :=
        set_order_items
          (mkTable (filter (fun x => negb (dead_item x))
                           (rows (order_items db)))
                   (next_id (order_items db))) db in
      let db2 :=
        set_orders
          (mkTable (filter (fun o => negb (dead_order o)) (rows (orders db1)))
                   (next_id (orders db1))) db1 in
      ((mkTable (filter (fun c => negb (p c)) (rows contacts))
                (next_id contacts), db2),
       Ok (Z.of_nat n))
  end.

(** The loop of [ContactView.delete] builds the disjunction of its
    query. *)
Fixpoint contact_query (u : AuthUser) (items_list : list string)
  (query : Q) (objects_deleted : bool) : Q * bool :=
  match items_list with
  | [] => (query, objects_deleted)
  | contact_id :: rest =>
      if isdigit contact_id
      then contact_query u rest
             (query ++ [[("user_id", VInt (User_id u));
                         ("id", VStr contact_id)]])
             true
      else contact_query u rest query objects_deleted
  end.

Definition ContactView_delete (request : Request)
  (contacts : Table Contact) (db : Database)
  : (Table Contact * Database) * Result Response :=
  match user request with
  | None => ((contacts, db), Ok log_in_required)
  | Some u =>
      match assoc "items" (data request) with
      | Some (String _ _ as items_string) =>
          let items_list := str_split "," items_string in
          let '(query, objects_deleted) :=
            contact_query u items_list [] false in
          if objects_deleted then
            match delete_contacts (filter_contacts query db) contacts db with
            | (s, Raise e) => (s, Raise e)
            | (s, Ok deleted_count) =>
                (s, Ok (JsonResponse
                          [("Status", JBool true);
                           ("Deleted objects", JInt deleted_count)] 200))
            end
          else ((contacts, db), Ok not_specified)
      | _ => ((contacts, db), Ok not_specified)
      end
  end.

(** The contacts that a call of [ContactView.delete] names: those of
    the user whose key is among the numbers of the field [items]. *)
Definition named_contact (uid : Z) (items : string) (c : Contact) : bool :=
  (uid =? Contact_user_id c)
  && existsb (Z.eqb (Contact_id c)) (listed_ids items).

(** The orders that go with the contacts named, and the lines that go
    with these orders. *)
Definition order_of_named (uid : Z) (items : string)
  (contacts : Table Contact) (o : Order) : bool :=
  existsb (fun c => named_contact uid items c
                    && (Contact_id c =? Order_user_id o))
          (rows contacts).

Definition line_of_named (uid : Z) (items : string)
  (contacts : Table Contact) (db : Database) (x : OrderItem) : bool :=
  existsb (fun o => order_of_named uid items contacts o
                    && (Order_id o =? OrderItem_order_id x))
          (rows (orders db)).

Definition contact_keywords (u : AuthUser) (s : string) : kwargs :=
  [("user_id", VInt (User_id u)); ("id", VStr s)].

Definition contact_conditions (u : AuthUser) (s : string)
  : list Condition :=
  [([SColumn "user_id"], VInt (User_id u));
   ([SColumn "id"], VInt (int_of_digits s))].

(** Two contacts of user 3 and one of user 4; the contact 3 of user 4
    carries the key that the orders of user 3 hold in [user_id]. *)
Definition example_contacts : Table Contact :=
  mkTable [mkContact 1 3 "1 Main St" "555-0101";
           mkContact 2 3 "2 Side St" "555-0102";
           mkContact 3 4 "3 Back St" "555-0103"] 4.

(** ** models.py and views.py: accounts and their confirmation

    The rows of [User] and [ConfirmEmailToken], in a store of their
    own; [User] has the columns of [AbstractUser]. *)
Module Accounts.

Record User := mkUser {
  User_id : Z;
  User_password : string;
  User_last_login : option Z;
  User_is_superuser : bool;
  User_username : string;
  User_first_name : string;
  User_last_name : string;
  User_is_staff : bool;
  User_is_active : bool;
  User_date_joined : Z;
  User_email : string;
  User_type : string
}.

Record ConfirmEmailToken := mkConfirmEmailToken {
  ConfirmEmailToken_id : Z;
  ConfirmEmailToken_user_id : Z;
  ConfirmEmailToken_created_at : Z;
  ConfirmEmailToken_key : string
}.

Record Store := mkStore {
  users : Table User;
  confirm_email_tokens : Table ConfirmEmailToken
}.

Definition User_column (c : string) (r : User) : option Value :=
  if String.eqb c "id" then Some (VInt (User_id r))
  else if String.eqb c "password" then Some (VStr (User_password r))
  else if String.eqb c "last_login"
  then Some (opt_int (User_last_login r))
  else if String.eqb c "is_superuser"
  then Some (VBool (User_is_superuser r))
  else if String.eqb c "username" then Some (VStr (User_username r))
  else if String.eqb c "first_name" then Some (VStr (User_first_name r))
  else if String.eqb c "last_name" then Some (VStr (User_last_name r))
  else if String.eqb c "is_staff" then Some (VBool (User_is_staff r))
  else if String.eqb c "is_active" then Some (VBool (User_is_active r))
  else if String.eqb c "date_joined" then Some (VInt (User_date_joined r))
  else if String.eqb c "email" then Some (VStr (User_email r))
  else if String.eqb c "type" then Some (VStr (User_type r))
  else None.

Definition ConfirmEmailToken_column (c : string) (r : ConfirmEmailToken)
  : option Value :=
  if String.eqb c "id" then Some (VInt (ConfirmEmailToken_id r))
  else if String.eqb c "user_id"
  then Some (VInt (ConfirmEmailToken_user_id r))
  else if String.eqb c "created_at"
  then Some (VInt (ConfirmEmailToken_created_at r))
  else if String.eqb c "key" then Some (VStr (ConfirmEmailToken_key r))
  else None.

(** The tables a lookup on the accounts can walk, and the values at the
    end of a path. *)
Definition account_rows (m : ModelName) (s : Store) : list GRow :=
  match m with
  | MUser => map (fun r c => User_column c r) (rows (users s))
  | MConfirmEmailToken =>
      map (fun r c => ConfirmEmailToken_column c r)
          (rows (confirm_email_tokens s))
  | _ => []
  end.

Definition account_step_rows (s : Store) (st : Step) (r : GRow) : list GRow :=
  match st with
  | SColumn _ => []
  | SForward c to =>
      filter (fun r' => Value_eqb (col_value r' "id") (col_value r c))
             (account_rows to s)
  | SReverse src c =>
      filter (fun r' => Value_eqb (col_value r' c) (col_value r "id"))
             (account_rows src s)
  | SManyToMany _ => []
  end.

Fixpoint account_reach (s : Store) (path : list Step) (r : GRow) : list Value :=
  match path with
  | [] => []
  | SColumn c :: _ => [col_value r c]
  | st :: rest =>
      flat_map (account_reach s rest) (account_step_rows s st r)
  end.

Definition account_holds (s : Store) (r : GRow) (c : Condition) : bool :=
  existsb (Value_eqb (snd c)) (account_reach s (fst c) r).

(** [ConfirmEmailToken.objects.filter] with keywords [kw]. *)
Definition filter_tokens (kw : kwargs) (s : Store)
  : Result (ConfirmEmailToken -> bool) :=
  match mapM (resolve_condition MConfirmEmailToken) kw with
  | Raise e => Raise e
  | Ok conds =>
      Ok (fun r => forallb (account_holds s
                            (fun c => ConfirmEmailToken_column c r))
                           conds)
  end.

(** [first()] on a query set without an ordering: the row with the
    least primary key. *)
Definition first (l : list ConfirmEmailToken) : option ConfirmEmailToken :=
  fold_left (fun best r =>
               match best with
               | None => Some r
               | Some b =>
                   if ConfirmEmailToken_id r <? ConfirmEmailToken_id b
                   then Some r else Some b
               end) l None.

(** [token.user]: the row that the key of the token points to. *)
Definition related_user (token : ConfirmEmailToken) (s : Store)
  : Result User :=
  match filter (fun u => User_id u =? ConfirmEmailToken_user_id token)
               (rows (users s)) with
  | [] => Raise DoesNotExist
  | [u] => Ok u
  | _ => Raise MultipleObjectsReturned
  end.

Definition activated (u : User) : User :=
  mkUser (User_id u) (User_password u) (User_last_login u)
         (User_is_superuser u) (User_username u) (User_first_name u)
         (User_last_name u) (User_is_staff u) true (User_date_joined u)
         (User_email u) (User_type u).

(** [user.save()] of a row that is in the table: the row with its key
    is written. *)
Definition save_user (u : User) (s : Store) : Store :=
  mkStore
    (mkTable (map (fun r => if User_id r =? User_id u then u else r)
                  (rows (users s)))
             (next_id (users s)))
    (confirm_email_tokens s).

(** [token.delete()]: no key points to a token. *)
Definition delete_token (token : ConfirmEmailToken) (s : Store) : Store :=
  mkStore
    (users s)
    (mkTable (filter (fun r => negb (ConfirmEmailToken_id r
                                     =? ConfirmEmailToken_id token))
                     (rows (confirm_email_tokens s)))
             (next_id (confirm_email_tokens s))).

Definition ConfirmUserView_post (request : Request) (s : Store)
  : Store * Result Response :=
  match assoc "email" (data request), assoc "token" (data request) with
  | Some email, Some key =>
      match filter_tokens [("user__email", VStr email); ("key", VStr key)]
                          s with
      | Raise e => (s, Raise e)
      | Ok p =>
          match first (filter p (rows (confirm_email_tokens s))) with
          | Some token =>
              match related_user token s with
              | Raise e => (s, Raise e)
              | Ok u =>
                  (delete_token token (save_user (activated u) s),
                   Ok (JsonResponse [("Status", JBool true)] 200))
              end
          | None =>
              (s, Ok (JsonResponse
                        [("Status", JBool false);
                         ("Errors",
                          JStr "The token or email is incorrectly specified")]
                        200))
          end
      end
  | _, _ => (s, Ok not_specified)
  end.

(** The tokens that the query of [ConfirmUserView.post] selects. *)
Definition confirms (email key : string) (s : Store)
  (t : ConfirmEmailToken) : bool :=
  existsb (fun u => (User_id u =? ConfirmEmailToken_user_id t)
                    && String.eqb email (User_email u))
          (rows (users s))
  && String.eqb key (ConfirmEmailToken_key t).

(** A store as the database keeps it: the keys of the users are unique,
    and so are the keys of the tokens and their texts. *)
Definition accounts_ok (s : Store) : Prop :=
  NoDup (map User_id (rows (users s)))
  /\ NoDup (map ConfirmEmailToken_id (rows (confirm_email_tokens s)))
  /\ NoDup (map ConfirmEmailToken_key (rows (confirm_email_tokens s))).

(** Two accounts, the second not yet active, and its token. *)
Definition example_accounts : Store :=
  mkStore
    (mkTable [mkUser 1 "x" None false "ann" "Ann" "A" false true 0
                     "ann@example.org" "buyer";
              mkUser 2 "y" None false "bob" "Bob" "B" false false 5
                     "bob@example.org" "seller"] 3)
    (mkTable [mkConfirmEmailToken 1 2 5 "k2"] 2).

Definition confirm_request (email key : string) : Request :=
  mkRequest None [("email", email); ("token", key)] 100.

End Accounts.

(** A request of user 4 that names contacts. *)
Definition contact_request (items : string) : Request :=
  mkRequest (Some (mkUser 4 "buyer")) [("items", items)] 100.

(** ** views.py on a store that keeps the contacts: the basket

    [Order.user] is declared in models.py as a key to [Contact], and
    the handlers of the basket write the key of the account into it.
    The store refuses an order whose [user_id] is not the key of a
    contact; [get_or_create] then looks the row up once more, finds
    none, and raises the [IntegrityError] of the insertion again. *)
Module WithContacts.
Section Checked.
Variable contacts : Table Contact.
Variable load_json : string -> option JValue.

Definition references_contact (o : Order) : bool :=
  existsb (fun c => Contact_id c =? Order_user_id o) (rows contacts).

Definition get_or_create_basket (request : Request) (u : AuthUser)
  (db : Database) : Database * Result (Order * bool) :=
  match objects_get_or_create Order_objects (now request)
          [("user_id", VInt (User_id u)); ("state", VStr "basket")] db with
  | (db1, Ok (basket, true)) =>
      if references_contact basket then (db1, Ok (basket, true))
      else (db, Raise (IntegrityError "FOREIGN KEY constraint failed"))
  | outcome => outcome
  end.

Definition BasketView_delete (request : Request) (db : Database)
  : Database * Result Response :=
  match user request with
  | None => (db, Ok log_in_required)
  | Some u =>
      match assoc "items" (data request) with
      | Some (String _ _ as items_string) =>
          let items_list := str_split "," items_string in
          match get_or_create_basket request u db with
          | (db1, Raise e) => (db1, Raise e)
          | (db1, Ok (basket, _)) =>
              let '(query, objects_deleted) :=
                delete_query basket items_list [] false in
              if objects_deleted then
                match delete_order_items
                        (filter_Q OrderItem_objects query db1) db1 with
                | (db2, Raise e) => (db2, Raise e)
                | (db2, Ok deleted_count) =>
                    (db2, Ok (JsonResponse
                                [("Status", JBool true);
                                 ("Deleted objects", JInt deleted_count)]
                                200))
                end
              else (db1, Ok not_specified)
          end
      | _ => (db, Ok not_specified)
      end
  end.

Definition BasketView_put (request : Request) (db : Database)
  : Database * Result Response :=
  match user request with
  | None => (db, Ok log_in_required)
  | Some u =>
      match assoc "items" (data request) with
      | Some (String _ _ as items_string) =>
          let items_dict := load_json items_string in
          match get_or_create_basket request u db with
          | (db1, Raise e) => (db1, Raise e)
          | (db1, Ok (basket, _)) =>
              match items_dict with
              | None => (db1, Raise UnboundLocalError)
              | Some v =>
                  match iterate v with
                  | Raise e => (db1, Raise e)
                  | Ok l =>
                      match for_each (put_body basket) l 0 db1 with
                      | (db2, Raise e) => (db2, Raise e)
                      | (db2, Ok (Return r)) => (db2, Ok r)
                      | (db2, Ok (Continue objects_updated)) =>
                          (db2, Ok (JsonResponse
                                      [("Status", JBool true);
                                       ("Updated objects",
                                        JInt objects_updated)] 200))
                      end
                  end
              end
          end
      | _ => (db, Ok not_specified)
      end
  end.
End Checked.
End WithContacts.

(** A user has a contact of its own key. *)
Definition has_contact_of_key (contacts : Table Contact) (u : AuthUser)
  : bool :=
  existsb (fun c => Contact_id c =? User_id u) (rows contacts).

(** ** The inputs on which the model is the code

    A text of ASCII characters: on these [isdigit] is [str.isdigit] and
    [int_of_digits] is [int]; a text with other characters is outside
    the model, for [str.isdigit] accepts digits of other scripts. *)
Fixpoint is_ascii (s : string) : bool :=
  match s with
  | EmptyString => true
  | String c s' => (nat_of_ascii c <? 128)%nat && is_ascii s'
  end.

(** The greatest number that an integer column of the store compares
    with. *)
Definition max_integer : Z := 9223372036854775807.

(** The numbers that a list of keys names are numbers of the store. *)
Definition keys_in_range (items : string) : Prop :=
  Forall (fun i => i <= max_integer) (listed_ids items).

(** A field of a request that is absent, empty, or a string of digits
    that reads as a number of the store. *)
Definition key_if_given (field : string) (l : list (string * string))
  : Prop :=
  match assoc field l with
  | Some (String _ _ as s) =>
      isdigit s = true /\ int_of_digits s <= max_integer
  | _ => True
  end.

(** ** Notions of the further properties *)

(** Two lines that differ at most in their quantity, and differ only if
    the line belongs to the order [basket]. *)
Definition requantified (basket : Z) (x x' : OrderItem) : Prop :=
  OrderItem_id x' = OrderItem_id x
  /\ OrderItem_order_id x' = OrderItem_order_id x
  /\ OrderItem_product_id x' = OrderItem_product_id x
  /\ OrderItem_shop_id x' = OrderItem_shop_id x
  /\ (OrderItem_quantity x' <> OrderItem_quantity x ->
      OrderItem_order_id x = basket).

(** The rows of [Seller] that [get_or_create] finds for a name and a
    user. *)
Definition sellers_named (name : string) (uid : Z) (db : Database)
  : list Seller :=
  filter (fun r => String.eqb name (Seller_name r)
                   && Value_eqb (VInt uid) (opt_int (Seller_user_id r)))
         (rows (sellers db)).

(** No two products share name and category, and no two parameters share
    their name. *)
Definition keys_unique (db : Database) : Prop :=
  (forall k, (List.length (filter (product_matches k) (rows (products db)))
              <= 1)%nat)
  /\ (forall n, (List.length (filter (parameter_matches n)
                                     (rows (parameters db))) <= 1)%nat).

(** The key of the first product of a good and of the first parameter of
    a name in the store, for the proofs: the theorems state with
    [describes] that these rows are there, and the only ones. *)
Definition product_key (db : Database) (item : Good) : Z :=
  match filter (product_matches (good_name item, good_category item))
               (rows (products db)) with
  | r :: _ => Product_id r
  | [] => 0
  end.

Definition parameter_key (db : Database) (name : string) : Z :=
  match filter (parameter_matches name) (rows (parameters db)) with
  | r :: _ => Parameter_id r
  | [] => 0
  end.

(** The listing that a good of a document describes. *)
Definition described (db : Database) (item : Good) : Listing :=
  (product_key db item, good_model item, good_quantity item,
   good_price item, good_price_rrc item, good_id item,
   map (fun nv => (parameter_key db (fst nv), snd nv))
       (good_parameters item)).

(** Goods that the store takes.  The model of the store checks
    primary keys and uniqueness only; the database also checks that a
    [PositiveIntegerField] is not negative and fits its column, that a
    text fits [max_length=64], and that the category of a product
    exists.  The parameters of a good are a mapping: no name comes
    twice.  The imports are stated for such goods. *)
Definition number_fits (n : Z) : Prop := 0 <= n <= 2147483647.

Definition text_fits (s : string) : Prop := (String.length s <= 64)%nat.

Definition good_storable (db : Database) (item : Good) : Prop :=
  number_fits (good_quantity item) /\ number_fits (good_price item)
  /\ number_fits (good_price_rrc item) /\ number_fits (good_id item)
  /\ text_fits (good_name item) /\ text_fits (good_model item)
  /\ Forall (fun nv => text_fits (fst nv) /\ text_fits (snd nv))
            (good_parameters item)
  /\ NoDup (map fst (good_parameters item))
  /\ In (good_category item) (map Category_id (rows (categories db))).

Definition goods_storable (db : Database) (goods : list Good) : Prop :=
  Forall (good_storable db) goods.

(** The rows behind a good: the one product of its name and category,
    and for each of its parameters the one parameter of its name. *)
Definition names_stored (db : Database) (item : Good) : Prop :=
  (exists p,
      filter (product_matches (good_name item, good_category item))
             (rows (products db)) = [p])
  /\ Forall (fun nv => exists q,
                filter (parameter_matches (fst nv)) (rows (parameters db))
                = [q])
            (good_parameters item).

(** The listing [l] describes the good [item]: it carries the key of
    the one product of the name and category of the good, the model,
    quantity, prices and article of the good, and for each parameter of
    the good, in their order, the key of the one parameter of its name
    with the value. *)
Definition describes (db : Database) (item : Good) (l : Listing) : Prop :=
  exists p ps,
    filter (product_matches (good_name item, good_category item))
           (rows (products db)) = [p]
    /\ l = (Product_id p, good_model item, good_quantity item,
            good_price item, good_price_rrc item, good_id item, ps)
    /\ Forall2 (fun nv qv =>
                  exists q,
                    filter (parameter_matches (fst nv))
                           (rows (parameters db)) = [q]
                    /\ qv = (Parameter_id q, snd nv))
               (good_parameters item) ps.

(** The lines of orders that point to a listing of a seller. *)
Definition on_listing_of (seller : Z) (db : Database) (x : OrderItem)
  : bool :=
  existsb (fun l => listed_by seller l
                    && (ProductInfo_id l =? OrderItem_product_id x))
          (rows (product_infos db)).

(** The example store with a second seller, owned by user 8, and a
    listing of it. *)
Definition store_of_two_sellers : Database :=
  set_product_infos
    (mkTable (rows (product_infos example_store)
              ++ [mkProductInfo 3 "H2" 1 2 4 90 95 20]) 4)
    (set_sellers
       (mkTable [mkSeller 1 (Some 7) "Acme" true None;
                 mkSeller 2 (Some 8) "Bolt" true None] 3)
       example_store).

(** A store that holds the category of the examples and nothing else. *)
Definition store_of_categories : Database :=
  set_categories (mkTable [mkCategory 1 "Tools"] 2) empty_database.

(** * Properties *)

(** ** The mapper *)

Lemma objects_create_raise {T : Type} (O : ModelOps T) now kw db db' e :
  objects_create O now kw db = (db', Raise e) -> db' = db.
Proof.
  unfold objects_create.
  destruct (build O kw (blank O) []) as [[obj cols]|e0]; [|congruence].
  destruct (forallb _ _); [|congruence].
  destruct (violates_unique _ _ _); congruence.
Qed.

Lemma objects_create_ok {T : Type} (O : ModelOps T) now kw db db' r :
  objects_create O now kw db = (db', Ok r) ->
  db' = store O (mkTable (rows (table O db) ++ [r])
                         (Z.max (next_id (table O db)) (pk O r + 1))) db
  /\ violates_unique O r (rows (table O db)) = false.
Proof.
  unfold objects_create.
  destruct (build O kw (blank O) []) as [[obj cols]|e0]; [|congruence].
  destruct (forallb _ _); [|congruence].
  destruct (violates_unique _ _ _) eqn:V; [congruence|].
  intros H; inversion H; subst; auto.
Qed.

Lemma objects_get_or_create_raise {T : Type} (O : ModelOps T)
  now kw db db' e :
  objects_get_or_create O now kw db = (db', Raise e) -> db' = db.
Proof.
  unfold objects_get_or_create.
  destruct (objects_get O kw db) as [r|e0]; [congruence|].
  destruct e0; try congruence.
  destruct (objects_create O now kw db) as [db1 [r|e1]]; congruence.
Qed.

Lemma mapM_raise {A B : Type} (f : A -> Result B) l e :
  mapM f l = Raise e -> exists a, In a l /\ f a = Raise e.
Proof.
  induction l as [|a l IH]; cbn; [discriminate|].
  destruct (f a) as [b|e0] eqn:F.
  - destruct (mapM f l) as [bs|e1]; [discriminate|].
    intros H; inversion H; subst.
    destruct (IH eq_refl) as [a' [Hin Ha']]. eauto.
  - intros H; inversion H; subst. eauto.
Qed.

Lemma filter_kwargs_raise {T : Type} (O : ModelOps T) kw db e :
  filter_kwargs O kw db = Raise e -> e = ValueError \/ e = FieldError.
Proof.
  unfold filter_kwargs.
  destruct (mapM (resolve_condition (model O)) kw) as [c|e0] eqn:M;
    [discriminate|].
  intros H; inversion H; subst.
  apply mapM_raise in M. destruct M as [kv [_ Hkv]].
  unfold resolve_condition in Hkv.
  destruct (resolve_path _ _); [|inversion Hkv; auto].
  destruct (final_decl _ _); [|inversion Hkv; auto].
  destruct (prep_value _ _); inversion Hkv; auto.
Qed.

Lemma objects_get_or_create_ok {T : Type} (O : ModelOps T)
  now kw db db' r created :
  objects_get_or_create O now kw db = (db', Ok (r, created)) ->
  (created = false /\ db' = db
   /\ run O (filter_kwargs O kw db) db = Ok [r])
  \/ (created = true
      /\ run O (filter_kwargs O kw db) db = Ok []
      /\ objects_create O now kw db = (db', Ok r)).
Proof.
  unfold objects_get_or_create, objects_get.
  destruct (run O (filter_kwargs O kw db) db) as [l|e0] eqn:R.
  - destruct l as [|r0 [|r1 l]].
    + destruct (objects_create O now kw db) as [db1 [r1|e1]] eqn:C;
        [|congruence].
      intros H; inversion H; subst. right; auto.
    + intros H; inversion H; subst. left; auto.
    + congruence.
  - destruct e0; try congruence.
    destruct (objects_create O now kw db) as [db1 [r1|e1]] eqn:C;
      [|congruence].
    exfalso. unfold run in R.
    destruct (filter_kwargs O kw db) as [p|e2] eqn:F; [discriminate|].
    inversion R; subst.
    destruct (filter_kwargs_raise O kw db _ F); discriminate.
Qed.

(** ** The listings of orders *)

(** C1.  The listings of the basket, of the orders of a buyer and of the
    orders of a seller never list an order with its [total_sum]: for an
    authenticated caller (a seller, for the third) the reference
    [ordered_items__product_info__price] does not resolve on the models,
    [OrderItem] declaring [product] and no [product_info], and the view
    raises [FieldError] whatever the store holds. *)
Theorem listings_raise_FieldError (request : Request) (db : Database) :
  BasketView_get request db
  = match user request with
    | None => Ok log_in_required
    | Some _ => Raise FieldError
    end
  /\ OrderView_get request db
     = match user request with
       | None => Ok log_in_required
       | Some _ => Raise FieldError
       end
  /\ SellerOrdersView_get request db
     = match user request with
       | None => Ok log_in_required
       | Some u =>
           if String.eqb (User_type u) "seller" then Raise FieldError
           else Ok only_for_sellers
       end.
Proof.
  unfold BasketView_get, OrderView_get, SellerOrdersView_get.
  destruct (user request) as [u|]; [|repeat split; reflexivity].
  repeat split; try reflexivity.
  destruct (String.eqb (User_type u) "seller"); reflexivity.
Qed.

(** The basket of user 3 in the store of the examples has two lines,
    2 at 100 and 3 at 50; its listing raises. *)
Example listing_of_example_basket :
  BasketView_get (buyer_request "") example_store = Raise FieldError.
Proof. reflexivity. Qed.

(** The aggregate itself adds up quantity times price over the lines of
    an order when its references resolve, here with the names that
    [OrderItem] declares. *)
Example total_sum_over_declared_names :
  let db :=
    mkDatabase empty_table empty_table empty_table empty_table
      (mkTable [mkProductInfo 1 "a" 1 1 10 100 120 5;
                mkProductInfo 2 "b" 1 1 10 50 60 6] 3)
      empty_table empty_table
      (mkTable [mkOrder 1 3 0 "basket"] 2)
      (mkTable [mkOrderItem 1 1 1 1 2; mkOrderItem 2 1 2 1 3] 3) in
  annotate_total_sum
    (filter_kwargs Order_objects [("user_id", VInt 3)] db) None
    "ordered_items__quantity" "ordered_items__product__price" db
  = Ok [(mkOrder 1 3 0 "basket", VInt 350)].
Proof. reflexivity. Qed.

(** ** Placing an order *)

Lemma update_unknown_column {T : Type} (O : ModelOps T) qs k v kw db :
  column_decl (model O) k = None ->
  (exists e, update O qs ((k, v) :: kw) db = (db, Raise e)).
Proof.
  intros H. unfold update. destruct qs as [p|e]; [|eauto].
  cbn [mapM]. unfold resolve_assignment at 1. cbn [fst]. rewrite H. eauto.
Qed.

(** C5.  Placing an order never moves an order to the state [new], from
    the basket or from any other state: the store is the same after the
    call as before it, and the call never answers with a success.  The
    keyword [contact_id] of the update names no column of [Order], which
    declares [user], [dt] and [state]. *)
Theorem OrderView_post_changes_nothing (request : Request) (db : Database) :
  fst (OrderView_post request db) = db
  /\ snd (OrderView_post request db)
     <> Ok (JsonResponse [("Status", JBool true)] 200).
Proof.
  unfold OrderView_post.
  destruct (user request) as [u|]; [|split; [reflexivity|discriminate]].
  destruct (assoc "id" (data request)) as [id|];
    [|split; [reflexivity|discriminate]].
  destruct (assoc "contact" (data request)) as [contact|];
    [|split; [reflexivity|discriminate]].
  destruct (isdigit id); [|split; [reflexivity|discriminate]].
  destruct (update_unknown_column Order_objects
              (filter_kwargs Order_objects
                 [("user_id", VInt (User_id u)); ("id", VStr id)] db)
              "contact_id" (VStr contact) [("state", VStr "new")] db
              eq_refl) as [e ->].
  destruct e; split; try reflexivity; discriminate.
Qed.

(** C6.  A call that gives an order id made of digits and a contact id,
    valid or not, ends in the exception [FieldDoesNotExist], which the
    handler does not catch, its [except] naming [IntegrityError] only: the
    caller gets no response that names the arguments as wrong.  The store
    is left as it was. *)
Theorem OrderView_post_raises_FieldDoesNotExist
  (u : AuthUser) (id contact : string) (now : Z) (db : Database) :
  OrderView_post (mkRequest (Some u) [("id", id); ("contact", contact)] now)
                 db
  = (db, if isdigit id then Raise FieldDoesNotExist else Ok not_specified).
Proof.
  unfold OrderView_post.
  cbn [user data assoc String.eqb Ascii.eqb Bool.eqb].
  destruct (isdigit id) eqn:E; [|reflexivity].
  unfold filter_kwargs. cbn. rewrite E. reflexivity.
Qed.

(** The rows that the update of the placement selects are those of the
    caller with the given id, in whatever state they are. *)
Lemma placement_selects_any_state (u : AuthUser) (id : string)
  (db : Database) :
  isdigit id = true ->
  exists p,
    filter_kwargs Order_objects
      [("user_id", VInt (User_id u)); ("id", VStr id)] db = Ok p
    /\ forall o state,
        p (mkOrder (Order_id o) (Order_user_id o) (Order_dt o) state) = p o.
Proof.
  intros E. unfold filter_kwargs. cbn [mapM model Order_objects].
  change (resolve_condition MOrder ("user_id", VInt (User_id u)))
    with (Ok ([SColumn "user_id"], VInt (User_id u)) : Result Condition).
  change (resolve_condition MOrder ("id", VStr id))
    with (match (if isdigit id then Some (VInt (int_of_digits id))
                 else None) with
          | Some v => Ok ([SColumn "id"], v)
          | None => Raise ValueError
          end : Result Condition).
  rewrite E. eexists. split; [reflexivity|]. intros o state. reflexivity.
Qed.

Example order_placement_with_unknown_contact :
  OrderView_post (mkRequest (Some a_buyer) [("id", "1"); ("contact", "999")]
                            100) example_store
  = (example_store, Raise FieldDoesNotExist).
Proof. reflexivity. Qed.

(** ** The import of a catalog: the categories *)

Lemma objects_get_or_create_store {T : Type} (O : ModelOps T) now kw db :
  fst (objects_get_or_create O now kw db) = db
  \/ exists t, fst (objects_get_or_create O now kw db) = store O t db.
Proof.
  destruct (objects_get_or_create O now kw db) as [db' [[r c]|e]] eqn:G;
    cbn [fst].
  - apply objects_get_or_create_ok in G.
    destruct G as [(_ & -> & _)|(_ & _ & C)]; [left; reflexivity|].
    apply objects_create_ok in C. destruct C as [-> _]. right; eauto.
  - apply objects_get_or_create_raise in G. subst. left; reflexivity.
Qed.

Lemma import_categories_first now seller_id category entries db :
  import_categories now seller_id (category :: entries) db
  = match objects_get_or_create Category_objects now
            [("id", VInt (category_id category));
             ("name", VStr (category_name category))] db with
    | (db1, Ok _) => (db1, Raise AttributeError)
    | (db1, Raise e) => (db1, Raise e)
    end.
Proof.
  cbn [import_categories].
  destruct (objects_get_or_create Category_objects now _ db)
    as [db1 [[c b]|e]]; reflexivity.
Qed.

(** C9.  The loop over the categories of a document stops in its first
    round: the category is looked up or created by its id and name, and
    the access to [category_object.sellers] raises [AttributeError], the
    relation of [Category] being declared under the name [shops].  No
    seller is linked to any category, and the entries after the first are
    not read. *)
Theorem import_categories_links_no_seller
  (now seller_id : Z) (category : CategoryEntry)
  (entries : list CategoryEntry) (db : Database) :
  let r := import_categories now seller_id (category :: entries) db in
  (exists e, snd r = Raise e)
  /\ category_shops (fst r) = category_shops db
  /\ fst r
     = fst (objects_get_or_create Category_objects now
              [("id", VInt (category_id category));
               ("name", VStr (category_name category))] db).
Proof.
  cbv zeta. rewrite import_categories_first.
  pose proof (objects_get_or_create_store Category_objects now
                [("id", VInt (category_id category));
                 ("name", VStr (category_name category))] db) as S.
  destruct (objects_get_or_create Category_objects now _ db)
    as [db1 [[c b]|e]]; cbn [fst snd] in *;
    (split; [eauto|]); (split; [|reflexivity]);
    destruct S as [->|[t ->]]; reflexivity.
Qed.

Lemma import_categories_keeps_listings now seller_id category entries db :
  let r := import_categories now seller_id (category :: entries) db in
  (exists e, snd r = Raise e)
  /\ product_infos (fst r) = product_infos db
  /\ product_parameters (fst r) = product_parameters db.
Proof.
  cbv zeta. rewrite import_categories_first.
  pose proof (objects_get_or_create_store Category_objects now
                [("id", VInt (category_id category));
                 ("name", VStr (category_name category))] db) as S.
  destruct (objects_get_or_create Category_objects now _ db)
    as [db1 [[c b]|e]]; cbn [fst snd] in *;
    (split; [eauto|]); destruct S as [->|[t ->]]; split; reflexivity.
Qed.

Lemma import_document_with_categories request u name category entries
  goods db :
  let r := import_document request u
             (mkDocument name (category :: entries) goods) db in
  (exists e, snd r = Raise e)
  /\ product_infos (fst r) = product_infos db
  /\ product_parameters (fst r) = product_parameters db.
Proof.
  cbv zeta. unfold import_document.
  cbn [document_seller document_categories document_goods].
  pose proof (objects_get_or_create_store Seller_objects (now request)
                [("name", VStr name); ("user_id", VInt (User_id u))] db)
    as S.
  destruct (objects_get_or_create Seller_objects (now request) _ db)
    as [db1 [[seller b]|e]]; cbn [fst snd] in *.
  - pose proof (import_categories_keeps_listings (now request)
                  (Seller_id seller) category entries db1) as C.
    cbv zeta in C. destruct C as ([e He] & C1 & C2).
    destruct (import_categories (now request) (Seller_id seller)
                (category :: entries) db1) as [db2 [[]|e2]];
      cbn [fst snd] in *; [discriminate|].
    split; [eauto|]. rewrite C1, C2.
    destruct S as [->|[t' ->]]; split; reflexivity.
  - split; [eauto|]. destruct S as [->|[t ->]]; split; reflexivity.
Qed.

(** C3.  The import of the document of the example scenario, whatever the
    store holds, ends in an exception, and the listings of products are
    those of before: no listing of the seller is deleted, and no listing
    with quantity 5 and price 1000 nor any parameter is created.  The
    document has a category, and the loop over the categories raises
    [AttributeError] when it reads [category_object.sellers]. *)
Theorem import_of_example_document_fails
  (request : Request) (u : AuthUser) (db : Database) :
  let r := import_document request u example_document db in
  (exists e, snd r = Raise e)
  /\ product_infos (fst r) = product_infos db
  /\ product_parameters (fst r) = product_parameters db.
Proof.
  exact (import_document_with_categories request u "Acme"
           (mkCategoryEntry 1 "Tools") []
           [mkGood 10 1 "Hammer" "H1" 5 1000 1200 [("Weight", "1kg")]] db).
Qed.

Example import_of_example_document_into_empty_store :
  CatalogView_post (fun _ => None) (fun _ => Ok example_document)
                   import_request empty_database
  = (mkDatabase (mkTable [mkSeller 1 (Some 7) "Acme" true None] 2)
                (mkTable [mkCategory 1 "Tools"] 2)
                empty_table empty_table empty_table empty_table
                empty_table empty_table empty_table,
     Raise AttributeError).
Proof. reflexivity. Qed.

(** ** The basket: get-or-create *)

Lemma basket_filter uid db :
  filter_kwargs Order_objects
    [("user_id", VInt uid); ("state", VStr "basket")] db
  = Ok (fun r => ((uid =? Order_user_id r) || false)
                 && ((String.eqb "basket" (Order_state r) || false)
                     && true)).
Proof. reflexivity. Qed.

Lemma basket_create now uid db :
  objects_create Order_objects now
    [("user_id", VInt uid); ("state", VStr "basket")] db
  = if existsb (fun r => next_id (orders db) =? Order_id r)
               (rows (orders db)) || false
    then (db, Raise (IntegrityError "UNIQUE constraint failed"))
    else (set_orders
            (mkTable (rows (orders db)
                      ++ [mkOrder (next_id (orders db)) uid now "basket"])
                     (Z.max (next_id (orders db))
                            (next_id (orders db) + 1))) db,
          Ok (mkOrder (next_id (orders db)) uid now "basket")).
Proof. reflexivity. Qed.

Lemma get_or_create_basket_eq request u db :
  get_or_create_basket request u db
  = match baskets_of (User_id u) db with
    | [] =>
        if existsb (fun r => next_id (orders db) =? Order_id r)
                   (rows (orders db))
        then (db, Raise (IntegrityError "UNIQUE constraint failed"))
        else (with_new_basket request u db,
              Ok (new_basket request u db, true))
    | [o] => (db, Ok (o, false))
    | _ => (db, Raise MultipleObjectsReturned)
    end.
Proof.
  unfold get_or_create_basket, objects_get_or_create, objects_get, run.
  rewrite basket_filter, basket_create. unfold baskets_of.
  rewrite (filter_ext _ (is_basket_of (User_id u))).
  2:{ intros r. unfold is_basket_of.
      now rewrite !orb_false_r, andb_true_r. }
  cbn [table Order_objects].
  destruct (filter (is_basket_of (User_id u)) (rows (orders db)))
    as [|o [|o' l]]; try reflexivity.
  rewrite orb_false_r, Z.max_r by lia.
  destruct (existsb _ _); reflexivity.
Qed.

Lemma below_next_no_clash {T : Type} (key : T -> Z) (t : Table T) :
  below_next key t ->
  existsb (fun r => next_id t =? key r) (rows t) = false.
Proof.
  unfold below_next. intros H.
  induction (rows t) as [|r l IH]; [reflexivity|].
  inversion H; subst. cbn. rewrite IH by assumption.
  rewrite orb_false_r. apply Z.eqb_neq. lia.
Qed.

Lemma baskets_of_with_new_basket request u db uid :
  baskets_of uid (with_new_basket request u db)
  = baskets_of uid db
    ++ (if uid =? User_id u then [new_basket request u db] else []).
Proof.
  unfold baskets_of, with_new_basket. cbn [orders set_orders rows].
  rewrite filter_app. f_equal. cbn [filter].
  unfold is_basket_of, new_basket. cbn [Order_user_id Order_state].
  rewrite String.eqb_refl, andb_true_r. reflexivity.
Qed.

(** What [get_or_create] does to the store: nothing, or it adds the
    basket of a user who has none. *)
Lemma get_or_create_basket_store request u db :
  fst (get_or_create_basket request u db) = db
  \/ (baskets_of (User_id u) db = []
      /\ fst (get_or_create_basket request u db)
         = with_new_basket request u db).
Proof.
  rewrite get_or_create_basket_eq.
  destruct (baskets_of (User_id u) db) as [|o [|o' l]]; auto.
  destruct (existsb _ _); auto.
Qed.

Lemma at_most_one_basket_get_or_create request u db :
  at_most_one_basket db ->
  at_most_one_basket (fst (get_or_create_basket request u db)).
Proof.
  intros H.
  destruct (get_or_create_basket_store request u db) as [->|[E ->]];
    [assumption|].
  intros uid. rewrite baskets_of_with_new_basket.
  destruct (uid =? User_id u) eqn:Q.
  - apply Z.eqb_eq in Q. subst. rewrite E. cbn. lia.
  - rewrite app_nil_r. apply H.
Qed.

(** ** The basket: the loops *)

Lemma for_each_preserves {A S : Type} (P : Database -> Prop)
  (body : A -> S -> Database -> Database * Result (Flow S)) :
  (forall a s db, P db -> P (fst (body a s db))) ->
  forall l s db, P db -> P (fst (for_each body l s db)).
Proof.
  intros Hbody l. induction l as [|a l IH]; intros s db Hdb; cbn; auto.
  pose proof (Hbody a s db Hdb) as H1.
  destruct (body a s db) as [db' [[s'|r]|e]]; cbn [fst] in *; auto.
Qed.

Lemma update_store {T : Type} (O : ModelOps T) qs kw db :
  fst (update O qs kw db) = db
  \/ exists (p : T -> bool) asg,
      fst (update O qs kw db)
      = store O (mkTable (map (fun r => if p r then assign_all O asg r
                                        else r) (rows (table O db)))
                         (next_id (table O db))) db
      /\ qs = Ok p.
Proof.
  unfold update. destruct qs as [p|e]; [|left; reflexivity].
  destruct (mapM (resolve_assignment O) kw) as [asg|e];
    [|left; reflexivity].
  right. exists p, asg. split; reflexivity.
Qed.

Lemma put_body_orders basket order_item n db :
  orders (fst (put_body basket order_item n db)) = orders db.
Proof.
  unfold put_body.
  destruct (subscript order_item "id") as [id|e]; [|reflexivity].
  destruct (is_int id) as [i|]; [|reflexivity].
  destruct (subscript order_item "quantity") as [q|e]; [|reflexivity].
  destruct (is_int q) as [q'|]; [|reflexivity].
  pose proof (update_store OrderItem_objects
                (filter_kwargs OrderItem_objects
                   [("order_id", VInt (Order_id basket)); ("id", VInt i)]
                   db)
                [("quantity", VInt q')] db) as U.
  destruct (update OrderItem_objects _ _ db) as [db' [k|e]];
    cbn [fst] in *; destruct U as [->|(p & asg & -> & _)]; reflexivity.
Qed.

Lemma delete_order_items_orders qs db :
  orders (fst (delete_order_items qs db)) = orders db.
Proof. unfold delete_order_items. destruct qs; reflexivity. Qed.

Section BasketProperties.
Variable load_json : string -> option JValue.
Variable is_valid : list (string * JValue) -> Database -> bool.
Variable save :
  list (string * JValue) -> Database -> Database * Result unit.

(** The serializer writes lines of orders; it leaves the orders as
    they are. *)
Hypothesis save_keeps_orders :
  forall d db, orders (fst (save d db)) = orders db.

Lemma post_body_orders basket order_item n db :
  orders (fst (post_body is_valid save basket order_item n db))
  = orders db.
Proof.
  unfold post_body. destruct order_item; try reflexivity.
  destruct (is_valid _ db); [|reflexivity].
  pose proof (save_keeps_orders
                (dict_update d "order" (JInt (Order_id basket))) db) as H.
  destruct (save _ db) as [db' [[]|e]]; cbn [fst] in *;
    [assumption|destruct e; assumption].
Qed.

Lemma BasketView_post_orders request db :
  orders (fst (BasketView_post load_json is_valid save request db))
  = orders (match user request with
            | Some u =>
                match assoc "items" (data request) with
                | Some (String _ _) =>
                    fst (get_or_create_basket request u db)
                | _ => db
                end
            | None => db
            end).
Proof.
  unfold BasketView_post.
  destruct (user request) as [u|]; [|reflexivity].
  destruct (assoc "items" (data request)) as [[|c s]|]; try reflexivity.
  destruct (get_or_create_basket request u db) as [db1 [[basket b]|e]];
    [|reflexivity].
  cbn [fst].
  destruct (load_json (String c s)) as [v|]; [|reflexivity].
  destruct (iterate v) as [l|e]; [|reflexivity].
  pose proof (for_each_preserves (fun d => orders d = orders db1)
                (post_body is_valid save basket)) as F.
  specialize (F (fun a s0 d H =>
                   eq_trans (post_body_orders basket a s0 d) H)
                l 0 db1 eq_refl).
  destruct (for_each _ l 0 db1) as [db2 [[k|r]|e]]; exact F.
Qed.

Lemma BasketView_put_orders request db :
  orders (fst (BasketView_put load_json request db))
  = orders (match user request with
            | Some u =>
                match assoc "items" (data request) with
                | Some (String _ _) =>
                    fst (get_or_create_basket request u db)
                | _ => db
                end
            | None => db
            end).
Proof.
  unfold BasketView_put.
  destruct (user request) as [u|]; [|reflexivity].
  destruct (assoc "items" (data request)) as [[|c s]|]; try reflexivity.
  destruct (get_or_create_basket request u db) as [db1 [[basket b]|e]];
    [|reflexivity].
  cbn [fst].
  destruct (load_json (String c s)) as [v|]; [|reflexivity].
  destruct (iterate v) as [l|e]; [|reflexivity].
  pose proof (for_each_preserves (fun d => orders d = orders db1)
                (put_body basket)) as F.
  specialize (F (fun a s0 d H =>
                   eq_trans (put_body_orders basket a s0 d) H)
                l 0 db1 eq_refl).
  destruct (for_each _ l 0 db1) as [db2 [[k|r]|e]]; exact F.
Qed.

Lemma BasketView_delete_orders request db :
  orders (fst (BasketView_delete request db))
  = orders (match user request with
            | Some u =>
                match assoc "items" (data request) with
                | Some (String _ _) =>
                    fst (get_or_create_basket request u db)
                | _ => db
                end
            | None => db
            end).
Proof.
  unfold BasketView_delete.
  destruct (user request) as [u|]; [|reflexivity].
  destruct (assoc "items" (data request)) as [[|c s]|]; try reflexivity.
  destruct (get_or_create_basket request u db) as [db1 [[basket b]|e]];
    [|reflexivity].
  cbn [fst].
  destruct (delete_query basket _ [] false) as [query [|]];
    [|reflexivity].
  pose proof (delete_order_items_orders
                (filter_Q OrderItem_objects query db1) db1) as D.
  destruct (delete_order_items _ db1) as [db2 [k|e]]; exact D.
Qed.

Lemma at_most_one_basket_orders db db' :
  orders db' = orders db -> at_most_one_basket db ->
  at_most_one_basket db'.
Proof.
  intros E H uid. unfold baskets_of. rewrite E. apply H.
Qed.

Lemma at_most_one_basket_perform op db :
  at_most_one_basket db ->
  at_most_one_basket (perform load_json is_valid save op db).
Proof.
  intros H.
  assert (K : forall request,
             at_most_one_basket
               match user request with
               | Some u =>
                   match assoc "items" (data request) with
                   | Some (String _ _) =>
                       fst (get_or_create_basket request u db)
                   | _ => db
                   end
               | None => db
               end).
  { intros request. destruct (user request) as [u|]; [|assumption].
    destruct (assoc "items" (data request)) as [[|c s]|];
      try assumption.
    now apply at_most_one_basket_get_or_create. }
  destruct op as [request|request|request]; cbn [perform];
    eapply at_most_one_basket_orders; try apply (K request).
  - apply BasketView_post_orders.
  - apply BasketView_put_orders.
  - apply BasketView_delete_orders.
Qed.

(** C4.  Whatever basket operations are performed, by whatever users and
    in whatever order, a store in which every user has at most one order
    in the state [basket] stays such a store.  The serializer of the
    lines is any that leaves the orders as they are. *)
Theorem at_most_one_basket_perform_all
  (ops : list BasketOperation) (db : Database) :
  at_most_one_basket db ->
  at_most_one_basket (perform_all load_json is_valid save ops db).
Proof.
  revert db. unfold perform_all.
  induction ops as [|op ops IH]; intros db H; cbn [fold_left];
    [assumption|].
  apply IH. now apply at_most_one_basket_perform.
Qed.
End BasketProperties.

Lemma OrderItemSerializer_save_keeps_orders d db :
  orders (fst (OrderItemSerializer_save d db)) = orders db.
Proof.
  unfold OrderItemSerializer_save.
  destruct (assoc "order" d) as [[| |o| | |]|]; try reflexivity.
  destruct (assoc "product_info" d) as [[| |p| | |]|]; try reflexivity.
  destruct (assoc "quantity" d) as [[| |q| | |]|]; try reflexivity.
  destruct (find _ _) as [listing|]; [|reflexivity].
  destruct (objects_create OrderItem_objects 0 _ db) as [db' [r|e]] eqn:C;
    cbn [fst].
  - apply objects_create_ok in C. destruct C as [-> _]. reflexivity.
  - apply objects_create_raise in C. now subst.
Qed.

Lemma at_most_one_basket_witness :
  at_most_one_basket store_without_orders
  /\ at_most_one_basket
       (perform_all loads_example OrderItemSerializer_is_valid
          OrderItemSerializer_save
          [Add (buyer_request two_entries);
           UpdateQuantity (buyer_request two_entries);
           DeleteItems (buyer_request "1,x");
           Add (buyer_request two_entries)]
          store_without_orders).
Proof.
  assert (H : at_most_one_basket store_without_orders)
    by (intros uid; simpl; lia).
  split; [exact H|].
  apply (at_most_one_basket_perform_all loads_example
           OrderItemSerializer_is_valid OrderItemSerializer_save
           OrderItemSerializer_save_keeps_orders _ store_without_orders H).
Defined.

(** ** The basket: adding lines *)

Lemma for_each_post_body is_valid save basket a l n db :
  for_each (post_body is_valid save basket) (a :: l) n db
  = post_body is_valid save basket a n db.
Proof.
  cbn [for_each]. unfold post_body. destruct a; try reflexivity.
  destruct (is_valid _ db); [|reflexivity].
  destruct (save _ db) as [db' [[]|e]]; [reflexivity|].
  destruct e; reflexivity.
Qed.

(** C7.  [BasketView.post] saves at most one line, whatever the length of
    the list it is given: the [return] that reports the number of created
    objects is the last statement of the body of the loop, so the loop
    ends in its first round.  The number reported is 0 or 1, and the store
    after the call is the store with the basket, or that store after one
    [save]. *)
Theorem BasketView_post_saves_at_most_once
  (load_json : string -> option JValue)
  (is_valid : list (string * JValue) -> Database -> bool)
  (save : list (string * JValue) -> Database -> Database * Result unit)
  (request : Request) (db : Database) :
  let r := BasketView_post load_json is_valid save request db in
  created_objects (snd r) <= 1
  /\ (fst r = db
      \/ exists u,
          user request = Some u
          /\ (fst r = fst (get_or_create_basket request u db)
              \/ exists d,
                  fst r
                  = fst (save d (fst (get_or_create_basket request u db))))).
Proof.
  cbv zeta. unfold BasketView_post.
  destruct (user request) as [u|]; [|split; [cbn; lia|left; reflexivity]].
  destruct (assoc "items" (data request)) as [[|c s]|];
    try (split; [cbn; lia|left; reflexivity]).
  destruct (get_or_create_basket request u db) as [db1 [[basket b]|e]]
    eqn:G; cbn [fst];
    [|split; [cbn; lia|right; exists u; rewrite G; auto]].
  destruct (load_json (String c s)) as [v|];
    [|split; [cbn; lia|right; exists u; rewrite G; auto]].
  destruct (iterate v) as [[|a l]|e];
    try (split; [cbn; lia|right; exists u; rewrite G; auto]).
  rewrite for_each_post_body. unfold post_body.
  destruct a; try (split; [cbn; lia|right; exists u; rewrite G; auto]).
  destruct (is_valid _ db1);
    [|split; [cbn; lia|right; exists u; rewrite G; auto]].
  pose (d' := dict_update d "order" (JInt (Order_id basket))).
  fold d'.
  assert (S : exists d0, fst (save d' db1) = fst (save d0 db1))
    by (exists d'; reflexivity).
  destruct (save d' db1) as [db2 [[]|e]]; cbn [fst] in *.
  - split; [cbn; lia|right; exists u; rewrite G; auto].
  - destruct e; (split; [cbn; lia|right; exists u; rewrite G; auto]).
Qed.

(** The call with two valid entries, on a store that holds their
    listings: one line is created and the response says so. *)
Example two_entries_one_line :
  let r := BasketView_post loads_example OrderItemSerializer_is_valid
             OrderItemSerializer_save (buyer_request two_entries)
             store_without_orders in
  rows (order_items (fst r)) = [mkOrderItem 1 1 1 1 2]
  /\ snd r = Ok (JsonResponse [("Status", JBool true);
                               ("Created objects", JInt 1)] 200).
Proof. split; reflexivity. Qed.

(** ** The basket: deleting lines *)

Lemma delete_query_eq basket l q b :
  delete_query basket l q b
  = (q ++ map (line_keywords basket) (filter isdigit l),
     b || existsb isdigit l).
Proof.
  revert q b. induction l as [|s l IH]; intros q b; cbn [delete_query].
  - cbn. now rewrite app_nil_r, orb_false_r.
  - cbn [filter existsb]. destruct (isdigit s).
    + rewrite IH. cbn [map]. rewrite <- app_assoc. cbn [app].
      now rewrite orb_true_r.
    + rewrite IH. reflexivity.
Qed.

Lemma resolve_line_keywords basket s :
  isdigit s = true ->
  mapM (resolve_condition MOrderItem) (line_keywords basket s)
  = Ok (line_conditions basket s).
Proof.
  intros E. unfold line_keywords, line_conditions. cbn [mapM].
  change (resolve_condition MOrderItem
            ("order_id", VInt (Order_id basket)))
    with (Ok ([SColumn "order_id"], VInt (Order_id basket))
          : Result Condition).
  change (resolve_condition MOrderItem ("id", VStr s))
    with (match (if isdigit s then Some (VInt (int_of_digits s))
                 else None) with
          | Some v => Ok ([SColumn "id"], v)
          | None => Raise ValueError
          end : Result Condition).
  rewrite E. reflexivity.
Qed.

Lemma resolve_query basket ds :
  Forall (fun s => isdigit s = true) ds ->
  mapM (fun kw => mapM (resolve_condition MOrderItem) kw)
       (map (line_keywords basket) ds)
  = Ok (map (line_conditions basket) ds).
Proof.
  induction 1 as [|s ds Hs _ IH]; [reflexivity|].
  cbn [map mapM]. rewrite (resolve_line_keywords basket s Hs), IH.
  reflexivity.
Qed.

Lemma line_conditions_hold db basket s x :
  forallb (holds db (grow OrderItem_objects x)) (line_conditions basket s)
  = (Order_id basket =? OrderItem_order_id x)
    && (int_of_digits s =? OrderItem_id x).
Proof.
  change (forallb (holds db (grow OrderItem_objects x))
                  (line_conditions basket s))
    with (((Order_id basket =? OrderItem_order_id x) || false)
          && (((int_of_digits s =? OrderItem_id x) || false) && true)).
  now rewrite !orb_false_r, andb_true_r.
Qed.

(** The lines that the query of [delete] selects. *)
Lemma filter_Q_lines basket ds db :
  Forall (fun s => isdigit s = true) ds -> ds <> [] ->
  exists p,
    filter_Q OrderItem_objects (map (line_keywords basket) ds) db = Ok p
    /\ forall x,
        p x = (Order_id basket =? OrderItem_order_id x)
              && existsb (fun s => int_of_digits s =? OrderItem_id x) ds.
Proof.
  intros Hd Hne. unfold filter_Q.
  change (model OrderItem_objects) with MOrderItem.
  rewrite (resolve_query basket ds Hd).
  destruct ds as [|s ds]; [congruence|]. cbn [map].
  eexists. split; [reflexivity|]. intros x.
  change (line_conditions basket s :: map (line_conditions basket) ds)
    with (map (line_conditions basket) (s :: ds)).
  clear Hd Hne. generalize (s :: ds). clear s ds.
  intros l. induction l as [|s' l IH]; cbn [map existsb].
  - now rewrite andb_false_r.
  - rewrite IH, line_conditions_hold.
    destruct (Order_id basket =? OrderItem_order_id x); reflexivity.
Qed.

Lemma filter_isdigit_Forall l :
  Forall (fun s => isdigit s = true) (filter isdigit l).
Proof.
  apply Forall_forall. intros s H. apply filter_In in H. tauto.
Qed.

Lemma existsb_isdigit_filter l :
  existsb isdigit l = true <-> filter isdigit l <> [].
Proof.
  induction l as [|s l IH]; cbn.
  - split; [discriminate|congruence].
  - destruct (isdigit s); cbn; [split; [discriminate|reflexivity]|].
    exact IH.
Qed.


Lemma get_or_create_basket_ok request u db db1 basket b :
  get_or_create_basket request u db = (db1, Ok (basket, b)) ->
  In basket (rows (orders db1))
  /\ is_basket_of (User_id u) basket = true
  /\ rows (order_items db1) = rows (order_items db)
  /\ (db1 = db
      \/ (baskets_of (User_id u) db = []
          /\ db1 = with_new_basket request u db
          /\ basket = new_basket request u db)).
Proof.
  rewrite get_or_create_basket_eq.
  destruct (baskets_of (User_id u) db) as [|o [|o' l]] eqn:B.
  - destruct (existsb _ _); [discriminate|].
    intros H. injection H as <- <- <-.
    split; [unfold with_new_basket; cbn; apply in_or_app; right;
            now left|].
    split; [unfold is_basket_of, new_basket; cbn;
            now rewrite Z.eqb_refl|].
    split; [reflexivity|]. right. auto.
  - intros H. injection H as <- <- <-.
    assert (I : In o (baskets_of (User_id u) db)) by (rewrite B; now left).
    apply filter_In in I. destruct I. auto.
  - discriminate.
Qed.

Lemma get_or_create_basket_raise request u db db1 e :
  get_or_create_basket request u db = (db1, Raise e) -> db1 = db.
Proof. apply objects_get_or_create_raise. Qed.




(** The line 3 belongs to the basket of user 4; user 3 names it, and it
    stays, while the lines 1 of the own basket goes. *)
Example cross_user_delete_keeps_line :
  rows (order_items
          (fst (BasketView_delete (buyer_request "1,x,3") example_store)))
  = [mkOrderItem 2 1 2 1 3; mkOrderItem 3 2 2 1 1].
Proof. reflexivity. Qed.

(** ** The basket: the side effect of [put] and [delete] *)

Lemma item_filter b i db :
  filter_kwargs OrderItem_objects [("order_id", VInt b); ("id", VInt i)] db
  = Ok (fun r => ((b =? OrderItem_order_id r) || false)
                 && (((i =? OrderItem_id r) || false) && true)).
Proof. reflexivity. Qed.

Lemma put_body_lines basket order_item n db :
  Forall (fun x => OrderItem_order_id x <> Order_id basket)
         (rows (order_items db)) ->
  rows (order_items (fst (put_body basket order_item n db)))
  = rows (order_items db).
Proof.
  intros H. unfold put_body.
  destruct (subscript order_item "id") as [id|e]; [|reflexivity].
  destruct (is_int id) as [i|]; [|reflexivity].
  destruct (subscript order_item "quantity") as [q|e]; [|reflexivity].
  destruct (is_int q) as [q'|]; [|reflexivity].
  rewrite item_filter.
  pose proof (update_store OrderItem_objects
                (Ok (fun r => ((Order_id basket =? OrderItem_order_id r)
                               || false)
                              && (((i =? OrderItem_id r) || false)
                                  && true)))
                [("quantity", VInt q')] db) as U.
  destruct (update OrderItem_objects _ _ db) as [db' [k|e]];
    cbn [fst] in *; destruct U as [->|(p & asg & -> & Hp)];
    try reflexivity;
    injection Hp as <-; cbn [store table OrderItem_objects order_items
                             set_order_items rows];
    rewrite <- (map_id (rows (order_items db))) at 2;
    apply map_ext_in; intros x Hx;
    rewrite Forall_forall in H; specialize (H x Hx);
    (replace (Order_id basket =? OrderItem_order_id x) with false
      by (symmetry; apply Z.eqb_neq; congruence));
    reflexivity.
Qed.

Lemma get_or_create_basket_new request u db :
  baskets_of (User_id u) db = [] ->
  below_next Order_id (orders db) ->
  get_or_create_basket request u db
  = (with_new_basket request u db, Ok (new_basket request u db, true)).
Proof.
  intros B F. rewrite get_or_create_basket_eq, B.
  now rewrite (below_next_no_clash Order_id (orders db) F).
Qed.

Lemma lines_miss_new_basket request u db :
  lines_point_back db ->
  Forall (fun x => OrderItem_order_id x
                   <> Order_id (new_basket request u db))
         (rows (order_items (with_new_basket request u db))).
Proof.
  unfold lines_point_back. cbn. apply Forall_impl. intros x H. lia.
Qed.

Lemma BasketView_put_lines load_json request u c items db :
  user request = Some u ->
  assoc "items" (data request) = Some (String c items) ->
  baskets_of (User_id u) db = [] ->
  below_next Order_id (orders db) ->
  lines_point_back db ->
  rows (order_items (fst (BasketView_put load_json request db)))
  = rows (order_items db).
Proof.
  intros Hu Hi Hb Hf Hl. unfold BasketView_put. rewrite Hu, Hi.
  rewrite (get_or_create_basket_new request u db Hb Hf).
  destruct (load_json (String c items)) as [v|]; [|reflexivity].
  destruct (iterate v) as [l|e]; [|reflexivity].
  pose proof (for_each_preserves
                (fun d => rows (order_items d) = rows (order_items db))
                (put_body (new_basket request u db))) as F.
  cbv beta in F.
  assert (K : rows (order_items (fst (for_each
                (put_body (new_basket request u db)) l 0
                (with_new_basket request u db))))
              = rows (order_items db)).
  { apply F; [|reflexivity]. intros a s0 d Hd.
    rewrite put_body_lines; [assumption|]. rewrite Hd.
    apply (lines_miss_new_basket request u db Hl). }
  destruct (for_each _ l 0 _) as [db2 [[k|r]|e]]; exact K.
Qed.

Lemma BasketView_delete_lines_kept request u c items db :
  user request = Some u ->
  assoc "items" (data request) = Some (String c items) ->
  baskets_of (User_id u) db = [] ->
  below_next Order_id (orders db) ->
  lines_point_back db ->
  rows (order_items (fst (BasketView_delete request db)))
  = rows (order_items db).
Proof.
  intros Hu Hi Hb Hf Hl. unfold BasketView_delete. rewrite Hu, Hi.
  rewrite (get_or_create_basket_new request u db Hb Hf).
  rewrite delete_query_eq. cbn [app orb].
  destruct (existsb isdigit (str_split "," (String c items))) eqn:E;
    [|reflexivity].
  apply existsb_isdigit_filter in E.
  destruct (filter_Q_lines (new_basket request u db) _
              (with_new_basket request u db)
              (filter_isdigit_Forall (str_split "," (String c items))) E)
    as [p [Hp Hpx]].
  rewrite Hp. cbn [delete_order_items fst order_items set_order_items rows].
  pose proof (lines_miss_new_basket request u db Hl) as M.
  cbn [with_new_basket order_items set_orders] in *.
  induction (rows (order_items db)) as [|x l IH]; [reflexivity|].
  inversion M; subst. cbn [filter]. rewrite Hpx.
  replace (Order_id (new_basket request u db) =? OrderItem_order_id x)
    with false by (symmetry; apply Z.eqb_neq; congruence).
  cbn. now rewrite IH.
Qed.

(** On a store that takes the new order: when a user who has no order
    in the state [basket] calls [BasketView.put] or [BasketView.delete]
    with a non-empty [items], the store gets a new order of this user in
    the state [basket], whatever [items] holds; the lines of the orders
    stay as they are, and none of them belongs to the new order. *)
Lemma put_and_delete_insert_a_basket
  (load_json : string -> option JValue) (request : Request) (u : AuthUser)
  (c : ascii) (items : string) (db db' : Database) :
  user request = Some u ->
  assoc "items" (data request) = Some (String c items) ->
  baskets_of (User_id u) db = [] ->
  below_next Order_id (orders db) ->
  lines_point_back db ->
  db' = fst (BasketView_put load_json request db)
  \/ db' = fst (BasketView_delete request db) ->
  rows (orders db') = rows (orders db) ++ [new_basket request u db]
  /\ baskets_of (User_id u) db' = [new_basket request u db]
  /\ rows (order_items db') = rows (order_items db)
  /\ Forall (fun x => OrderItem_order_id x
                      <> Order_id (new_basket request u db))
            (rows (order_items db')).
Proof.
  intros Hu Hi Hb Hf Hl Hdb'.
  assert (HO : orders db' = orders (with_new_basket request u db)).
  { destruct Hdb' as [->| ->].
    - rewrite (BasketView_put_orders load_json request db), Hu, Hi.
      now rewrite (get_or_create_basket_new request u db Hb Hf).
    - rewrite (BasketView_delete_orders request db), Hu, Hi.
      now rewrite (get_or_create_basket_new request u db Hb Hf). }
  assert (HL : rows (order_items db') = rows (order_items db)).
  { destruct Hdb' as [->| ->].
    - now apply (BasketView_put_lines load_json request u c items db).
    - now apply (BasketView_delete_lines_kept request u c items db). }
  split; [rewrite HO; reflexivity|].
  split.
  { unfold baskets_of at 1. rewrite HO.
    change (baskets_of (User_id u) (with_new_basket request u db)
            = [new_basket request u db]).
    now rewrite baskets_of_with_new_basket, Hb, Z.eqb_refl. }
  split; [exact HL|].
  rewrite HL. exact (lines_miss_new_basket request u db Hl).
Qed.

(** ** The basket on a store that keeps the contacts *)

Lemma WithContacts_get_or_create_basket_new contacts request u db :
  baskets_of (User_id u) db = [] ->
  below_next Order_id (orders db) ->
  WithContacts.get_or_create_basket contacts request u db
  = if has_contact_of_key contacts u
    then (with_new_basket request u db, Ok (new_basket request u db, true))
    else (db, Raise (IntegrityError "FOREIGN KEY constraint failed")).
Proof.
  intros B F. unfold WithContacts.get_or_create_basket.
  change (objects_get_or_create Order_objects (now request)
            [("user_id", VInt (User_id u)); ("state", VStr "basket")] db)
    with (get_or_create_basket request u db).
  rewrite (get_or_create_basket_new request u db B F).
  reflexivity.
Qed.

(** C10.  A user who has no order in the state [basket] calls
    [BasketView.put] or [BasketView.delete] with a non-empty [items].
    The new order is created only if a contact row carries the key of
    the account, [Order.user] being declared as a key to [Contact]:
    then the store gets a new order of this user in the state [basket],
    whatever [items] holds, the lines stay as they are and none belongs
    to the new order.  Otherwise both handlers raise [IntegrityError]
    and the store is as before: no order is created. *)
Theorem basket_creation_needs_a_contact
  (contacts : Table Contact) (load_json : string -> option JValue)
  (request : Request) (u : AuthUser) (c : ascii) (items : string)
  (db : Database) :
  user request = Some u ->
  assoc "items" (data request) = Some (String c items) ->
  baskets_of (User_id u) db = [] ->
  below_next Order_id (orders db) ->
  lines_point_back db ->
  let put := WithContacts.BasketView_put contacts load_json request db in
  let delete := WithContacts.BasketView_delete contacts request db in
  if has_contact_of_key contacts u
  then forall db', db' = fst put \/ db' = fst delete ->
         rows (orders db') = rows (orders db) ++ [new_basket request u db]
         /\ baskets_of (User_id u) db' = [new_basket request u db]
         /\ rows (order_items db') = rows (order_items db)
         /\ Forall (fun x => OrderItem_order_id x
                             <> Order_id (new_basket request u db))
                   (rows (order_items db'))
  else put = (db, Raise (IntegrityError "FOREIGN KEY constraint failed"))
       /\ delete
          = (db, Raise (IntegrityError "FOREIGN KEY constraint failed")).
Proof.
  intros Hu Hi Hb Hf Hl. cbv zeta.
  pose proof (WithContacts_get_or_create_basket_new contacts request u db
                Hb Hf) as G.
  destruct (has_contact_of_key contacts u).
  - assert (P : WithContacts.BasketView_put contacts load_json request db
                = BasketView_put load_json request db).
    { unfold WithContacts.BasketView_put, BasketView_put.
      rewrite Hu, Hi, G, (get_or_create_basket_new request u db Hb Hf).
      reflexivity. }
    assert (D : WithContacts.BasketView_delete contacts request db
                = BasketView_delete request db).
    { unfold WithContacts.BasketView_delete, BasketView_delete.
      rewrite Hu, Hi, G, (get_or_create_basket_new request u db Hb Hf).
      reflexivity. }
    rewrite P, D. intros db' Hdb'.
    exact (put_and_delete_insert_a_basket load_json request u c items db
             db' Hu Hi Hb Hf Hl Hdb').
  - unfold WithContacts.BasketView_put, WithContacts.BasketView_delete.
    rewrite Hu, Hi, G. split; reflexivity.
Qed.

(** User 9 has no contact of key 9 and gets no basket; user 3 has one,
    in a store without orders, and gets a basket. *)
Lemma basket_creation_needs_a_contact_witness :
  let request := mkRequest (Some (mkUser 9 "buyer")) [("items", "1")] 100 in
  has_contact_of_key example_contacts (mkUser 9 "buyer") = false
  /\ (WithContacts.BasketView_put example_contacts loads_example request
        example_store
      = (example_store,
         Raise (IntegrityError "FOREIGN KEY constraint failed"))
      /\ WithContacts.BasketView_delete example_contacts request
           example_store
         = (example_store,
            Raise (IntegrityError "FOREIGN KEY constraint failed")))
  /\ has_contact_of_key example_contacts a_buyer = true
  /\ rows (orders (fst (WithContacts.BasketView_delete example_contacts
                          (buyer_request "1") store_without_orders)))
     = [mkOrder 1 3 100 "basket"].
Proof.
  cbv zeta. split; [reflexivity|].
  split; [|split; [reflexivity|vm_compute; reflexivity]].
  apply (basket_creation_needs_a_contact example_contacts loads_example
           (mkRequest (Some (mkUser 9 "buyer")) [("items", "1")] 100)
           (mkUser 9 "buyer") "1" "" example_store).
  - reflexivity.
  - reflexivity.
  - reflexivity.
  - unfold below_next. simpl. repeat constructor.
  - unfold lines_point_back. simpl. repeat constructor.
Defined.

(** ** The import of a catalog: the calls of the mapper *)

Lemma Product_filter n c db :
  filter_kwargs Product_objects
    [("name", VStr n); ("category_id", VInt c)] db
  = Ok (fun r => ((String.eqb n (Product_name r)) || false)
                 && (((c =? Product_category_id r) || false) && true)).
Proof. reflexivity. Qed.

Lemma Product_create now n c db :
  objects_create Product_objects now
    [("name", VStr n); ("category_id", VInt c)] db
  = if existsb (fun r => next_id (products db) =? Product_id r)
               (rows (products db)) || false
    then (db, Raise (IntegrityError "UNIQUE constraint failed"))
    else (set_products
            (mkTable (rows (products db)
                      ++ [mkProduct (next_id (products db)) n c])
                     (Z.max (next_id (products db))
                            (next_id (products db) + 1))) db,
          Ok (mkProduct (next_id (products db)) n c)).
Proof. reflexivity. Qed.

Lemma Parameter_filter n db :
  filter_kwargs Parameter_objects [("name", VStr n)] db
  = Ok (fun r => ((String.eqb n (Parameter_name r)) || false) && true).
Proof. reflexivity. Qed.

Lemma Parameter_create now n db :
  objects_create Parameter_objects now [("name", VStr n)] db
  = if existsb (fun r => next_id (parameters db) =? Parameter_id r)
               (rows (parameters db)) || false
    then (db, Raise (IntegrityError "UNIQUE constraint failed"))
    else (set_parameters
            (mkTable (rows (parameters db)
                      ++ [mkParameter (next_id (parameters db)) n])
                     (Z.max (next_id (parameters db))
                            (next_id (parameters db) + 1))) db,
          Ok (mkParameter (next_id (parameters db)) n)).
Proof. reflexivity. Qed.

Lemma ProductInfo_create now model product seller quantity price rrc
  article db :
  objects_create ProductInfo_objects now
    [("name", VStr model); ("product_id", VInt product);
     ("seller_id", VInt seller); ("quantity", VInt quantity);
     ("price", VInt price); ("price_rrc", VInt rrc);
     ("article", VInt article)] db
  = if existsb (fun r => next_id (product_infos db) =? ProductInfo_id r)
               (rows (product_infos db)) || false
    then (db, Raise (IntegrityError "UNIQUE constraint failed"))
    else (set_product_infos
            (mkTable (rows (product_infos db)
                      ++ [mkProductInfo (next_id (product_infos db)) model
                            product seller quantity price rrc article])
                     (Z.max (next_id (product_infos db))
                            (next_id (product_infos db) + 1))) db,
          Ok (mkProductInfo (next_id (product_infos db)) model product
                seller quantity price rrc article)).
Proof. reflexivity. Qed.

Lemma ProductParameter_create now info parameter value db :
  objects_create ProductParameter_objects now
    [("product_info_id", VInt info); ("parameter_id", VInt parameter);
     ("value", VStr value)] db
  = if existsb (fun r => next_id (product_parameters db)
                         =? ProductParameter_id r)
               (rows (product_parameters db)) || false
    then (db, Raise (IntegrityError "UNIQUE constraint failed"))
    else (set_product_parameters
            (mkTable (rows (product_parameters db)
                      ++ [mkProductParameter
                            (next_id (product_parameters db)) info
                            parameter value])
                     (Z.max (next_id (product_parameters db))
                            (next_id (product_parameters db) + 1))) db,
          Ok (mkProductParameter (next_id (product_parameters db)) info
                parameter value)).
Proof. reflexivity. Qed.

Lemma Seller_filter n uid db :
  filter_kwargs Seller_objects [("name", VStr n); ("user_id", VInt uid)] db
  = Ok (fun r => ((String.eqb n (Seller_name r)) || false)
                 && ((Value_eqb (VInt uid) (opt_int (Seller_user_id r))
                      || false) && true)).
Proof. reflexivity. Qed.

Lemma ProductInfo_filter sid db :
  filter_kwargs ProductInfo_objects [("seller_id", VInt sid)] db
  = Ok (fun r => ((sid =? ProductInfo_seller_id r) || false) && true).
Proof. reflexivity. Qed.

Lemma Product_get_or_create_eq now n c db :
  objects_get_or_create Product_objects now
    [("name", VStr n); ("category_id", VInt c)] db
  = match filter (product_matches (n, c)) (rows (products db)) with
    | [] =>
        if existsb (fun r => next_id (products db) =? Product_id r)
                   (rows (products db))
        then (db, Raise (IntegrityError "UNIQUE constraint failed"))
        else (set_products
                (mkTable (rows (products db)
                          ++ [mkProduct (next_id (products db)) n c])
                         (next_id (products db) + 1)) db,
              Ok (mkProduct (next_id (products db)) n c, true))
    | [r] => (db, Ok (r, false))
    | _ => (db, Raise MultipleObjectsReturned)
    end.
Proof.
  unfold objects_get_or_create, objects_get, run.
  rewrite Product_filter, Product_create.
  rewrite (filter_ext _ (product_matches (n, c))).
  2:{ intros r. unfold product_matches. cbn [fst snd].
      now rewrite !orb_false_r, andb_true_r. }
  cbn [table Product_objects].
  destruct (filter (product_matches (n, c)) (rows (products db)))
    as [|r [|r' l]]; try reflexivity.
  rewrite orb_false_r, Z.max_r by lia.
  destruct (existsb _ _); reflexivity.
Qed.

Lemma Parameter_get_or_create_eq now n db :
  objects_get_or_create Parameter_objects now [("name", VStr n)] db
  = match filter (parameter_matches n) (rows (parameters db)) with
    | [] =>
        if existsb (fun r => next_id (parameters db) =? Parameter_id r)
                   (rows (parameters db))
        then (db, Raise (IntegrityError "UNIQUE constraint failed"))
        else (set_parameters
                (mkTable (rows (parameters db)
                          ++ [mkParameter (next_id (parameters db)) n])
                         (next_id (parameters db) + 1)) db,
              Ok (mkParameter (next_id (parameters db)) n, true))
    | [r] => (db, Ok (r, false))
    | _ => (db, Raise MultipleObjectsReturned)
    end.
Proof.
  unfold objects_get_or_create, objects_get, run.
  rewrite Parameter_filter, Parameter_create.
  rewrite (filter_ext _ (parameter_matches n)).
  2:{ intros r. unfold parameter_matches.
      now rewrite !orb_false_r, andb_true_r. }
  cbn [table Parameter_objects].
  destruct (filter (parameter_matches n) (rows (parameters db)))
    as [|r [|r' l]]; try reflexivity.
  rewrite orb_false_r, Z.max_r by lia.
  destruct (existsb _ _); reflexivity.
Qed.

(** ** Tables that grow by new keys *)

Lemma extends_refl {K T : Type} (m : K -> T -> bool) l : extends m l l.
Proof. exists []. split; [now rewrite app_nil_r|reflexivity]. Qed.

Lemma extends_filter {K T : Type} (m : K -> T -> bool) l l' k :
  extends m l l' -> filter (m k) l <> [] ->
  filter (m k) l' = filter (m k) l.
Proof.
  intros (added & -> & H) Hk. rewrite filter_app, (H k Hk).
  apply app_nil_r.
Qed.

Lemma extends_trans {K T : Type} (m : K -> T -> bool) l1 l2 l3 :
  extends m l1 l2 -> extends m l2 l3 -> extends m l1 l3.
Proof.
  intros (a1 & -> & H1) (a2 & -> & H2). exists (a1 ++ a2).
  split; [now rewrite app_assoc|].
  intros k Hk. rewrite filter_app, (H1 k Hk). cbn. apply H2.
  rewrite filter_app, (H1 k Hk), app_nil_r. exact Hk.
Qed.

(** A lookup that found nothing is followed by the insertion of a row
    with the key looked up, which no other key selects. *)
Lemma extends_new {K T : Type} (m : K -> T -> bool) l k x :
  filter (m k) l = [] ->
  (forall k', m k' x = true -> forall r, m k' r = m k r) ->
  extends m l (l ++ [x]).
Proof.
  intros Hk Hx. exists [x]. split; [reflexivity|].
  intros k' Hk'. cbn. destruct (m k' x) eqn:E; [|reflexivity].
  exfalso. apply Hk'. rewrite (filter_ext _ _ (Hx k' E)). exact Hk.
Qed.

Lemma product_matches_key k x :
  product_matches k x = true ->
  forall k' r, product_matches k' x = true ->
               product_matches k' r = product_matches k r.
Proof.
  unfold product_matches. intros H k' r H'.
  apply andb_true_iff in H, H'. destruct H as [H1 H2], H' as [H1' H2'].
  apply String.eqb_eq in H1, H1'. apply Z.eqb_eq in H2, H2'.
  destruct k as [n c], k' as [n' c']. cbn [fst snd] in *. congruence.
Qed.

Lemma parameter_matches_key k x :
  parameter_matches k x = true ->
  forall k' r, parameter_matches k' x = true ->
               parameter_matches k' r = parameter_matches k r.
Proof.
  unfold parameter_matches. intros H k' r H'.
  apply String.eqb_eq in H, H'. congruence.
Qed.


(** ** The import of a catalog: one insertion *)

Lemma Parameter_get_or_create_ok now n db :
  names_ok db ->
  objects_get_or_create Parameter_objects now [("name", VStr n)] db
  = match filter (parameter_matches n) (rows (parameters db)) with
    | [] => (add_parameter n db,
             Ok (mkParameter (next_id (parameters db)) n, true))
    | [r] => (db, Ok (r, false))
    | _ => (db, Raise MultipleObjectsReturned)
    end.
Proof.
  intros [_ H]. rewrite Parameter_get_or_create_eq.
  now rewrite (below_next_no_clash Parameter_id (parameters db) H).
Qed.

Lemma Product_get_or_create_ok now n c db :
  names_ok db ->
  objects_get_or_create Product_objects now
    [("name", VStr n); ("category_id", VInt c)] db
  = match filter (product_matches (n, c)) (rows (products db)) with
    | [] => (add_product n c db,
             Ok (mkProduct (next_id (products db)) n c, true))
    | [r] => (db, Ok (r, false))
    | _ => (db, Raise MultipleObjectsReturned)
    end.
Proof.
  intros [H _]. rewrite Product_get_or_create_eq.
  now rewrite (below_next_no_clash Product_id (products db) H).
Qed.

Lemma ProductInfo_create_ok now item product seller db :
  listings_ok db ->
  objects_create ProductInfo_objects now
    [("name", VStr (good_model item)); ("product_id", VInt product);
     ("seller_id", VInt seller); ("quantity", VInt (good_quantity item));
     ("price", VInt (good_price item));
     ("price_rrc", VInt (good_price_rrc item));
     ("article", VInt (good_id item))] db
  = (add_product_info item product seller db,
     Ok (new_product_info item product seller db)).
Proof.
  intros [H _]. rewrite ProductInfo_create.
  rewrite (below_next_no_clash ProductInfo_id (product_infos db) H).
  cbn [orb]. now rewrite Z.max_r by lia.
Qed.

Lemma ProductParameter_create_ok now info parameter value db :
  listings_ok db ->
  objects_create ProductParameter_objects now
    [("product_info_id", VInt info); ("parameter_id", VInt parameter);
     ("value", VStr value)] db
  = (add_product_parameter info parameter value db,
     Ok (mkProductParameter (next_id (product_parameters db)) info
           parameter value)).
Proof.
  intros (_ & _ & H & _). rewrite ProductParameter_create.
  rewrite (below_next_no_clash ProductParameter_id
             (product_parameters db) H).
  cbn [orb]. now rewrite Z.max_r by lia.
Qed.

(** ** The import of a catalog: the store stays well formed *)

Lemma below_next_add {T : Type} (key : T -> Z) (t : Table T) x :
  below_next key t -> key x = next_id t ->
  below_next key (mkTable (rows t ++ [x]) (next_id t + 1)).
Proof.
  unfold below_next. cbn. intros H E. apply Forall_app. split.
  - eapply Forall_impl; [|exact H]. cbn. intros; lia.
  - constructor; [lia|constructor].
Qed.

Lemma store_ok_add_parameter n db :
  store_ok db -> store_ok (add_parameter n db).
Proof.
  intros [L [P Q]]. split; [exact L|]. split; [exact P|].
  apply (below_next_add Parameter_id (parameters db)); [exact Q|reflexivity].
Qed.

Lemma store_ok_add_product n c db :
  store_ok db -> store_ok (add_product n c db).
Proof.
  intros [L [P Q]]. split; [exact L|]. split; [|exact Q].
  apply (below_next_add Product_id (products db)); [exact P|reflexivity].
Qed.

Lemma store_ok_add_product_parameter i q v db :
  store_ok db -> i < next_id (product_infos db) ->
  store_ok (add_product_parameter i q v db).
Proof.
  intros [(A & B & C & D) N] Hi. split; [|exact N].
  split; [exact A|]. split; [exact B|]. split.
  - apply (below_next_add ProductParameter_id (product_parameters db));
      [exact C|reflexivity].
  - unfold parameters_point_back in *. cbn. apply Forall_app. split;
      [exact D|]. constructor; [exact Hi|constructor].
Qed.

Lemma store_ok_add_product_info item p s db :
  store_ok db -> store_ok (add_product_info item p s db).
Proof.
  intros [(A & B & C & D) N]. split; [|exact N]. split; [|split; [|split]].
  - apply (below_next_add ProductInfo_id (product_infos db));
      [exact A|reflexivity].
  - cbn. rewrite map_app. apply NoDup_app; [exact B|repeat constructor; auto|].
    intros a Ha [<-|[]]. apply in_map_iff in Ha.
    destruct Ha as [x [Hx Hin]]. unfold below_next in A.
    rewrite Forall_forall in A. specialize (A x Hin). cbn in Hx. lia.
  - exact C.
  - unfold parameters_point_back in *. cbn.
    eapply Forall_impl; [|exact D]. cbn. intros; lia.
Qed.

(** ** The import of a catalog: the loops, unfolded *)

Lemma import_parameters_cons now i n v items db :
  store_ok db ->
  import_parameters now i ((n, v) :: items) db
  = match filter (parameter_matches n) (rows (parameters db)) with
    | [] =>
        import_parameters now i items
          (add_product_parameter i (next_id (parameters db)) v
             (add_parameter n db))
    | [r] =>
        import_parameters now i items
          (add_product_parameter i (Parameter_id r) v db)
    | _ => (db, Raise MultipleObjectsReturned)
    end.
Proof.
  intros H. cbn [import_parameters].
  rewrite (Parameter_get_or_create_ok now n db (proj2 H)).
  destruct (filter (parameter_matches n) (rows (parameters db)))
    as [|r [|r' l]]; [| |reflexivity].
  - rewrite ProductParameter_create_ok
      by (apply (store_ok_add_parameter n db H)).
    reflexivity.
  - rewrite ProductParameter_create_ok by (apply H). reflexivity.
Qed.

Lemma import_goods_cons now s item goods db :
  store_ok db ->
  import_goods now s (item :: goods) db
  = let continue (p : Z) (db1 : Database) :=
      match import_parameters now (next_id (product_infos db1))
              (good_parameters item) (add_product_info item p s db1) with
      | (db3, Raise e) => (db3, Raise e)
      | (db3, Ok _) => import_goods now s goods db3
      end in
    match filter (product_matches (good_name item, good_category item))
                 (rows (products db)) with
    | [] => continue (next_id (products db))
              (add_product (good_name item) (good_category item) db)
    | [r] => continue (Product_id r) db
    | _ => (db, Raise MultipleObjectsReturned)
    end.
Proof.
  intros H. cbn [import_goods].
  rewrite (Product_get_or_create_ok now (good_name item)
             (good_category item) db (proj2 H)).
  destruct (filter _ (rows (products db))) as [|r [|r' l]];
    [| |reflexivity]; cbv zeta.
  - rewrite ProductInfo_create_ok
      by (apply (store_ok_add_product _ _ db H)).
    reflexivity.
  - rewrite ProductInfo_create_ok by (apply H). reflexivity.
Qed.

(** ** The import of a catalog: the catalog after one insertion *)

Lemma catalog_same s db db' :
  product_infos db' = product_infos db ->
  product_parameters db' = product_parameters db ->
  catalog s db' = catalog s db.
Proof.
  intros E1 E2. unfold catalog, listing, parameters_of.
  now rewrite E1, E2.
Qed.

Lemma parameters_of_add_product_parameter i q v db x :
  parameters_of (add_product_parameter i q v db) x
  = parameters_of db x ++ (if i =? ProductInfo_id x then [(q, v)] else []).
Proof.
  unfold parameters_of. cbn [add_product_parameter product_parameters
                             set_product_parameters rows].
  rewrite filter_app, map_app. f_equal. cbn.
  destruct (i =? ProductInfo_id x); reflexivity.
Qed.

Lemma listing_add_product_parameter_other i q v db x :
  ProductInfo_id x <> i ->
  listing (add_product_parameter i q v db) x = listing db x.
Proof.
  intros H. unfold listing. rewrite parameters_of_add_product_parameter.
  replace (i =? ProductInfo_id x) with false
    by (symmetry; apply Z.eqb_neq; congruence).
  now rewrite app_nil_r.
Qed.

Lemma catalog_add_product_parameter_other s i q v db :
  Forall (fun x => listed_by s x = true -> ProductInfo_id x <> i)
         (rows (product_infos db)) ->
  catalog s (add_product_parameter i q v db) = catalog s db.
Proof.
  intros H. unfold catalog.
  cbn [add_product_parameter product_infos set_product_parameters].
  apply map_ext_in. intros x Hx. apply filter_In in Hx.
  destruct Hx as [Hin Hs]. rewrite Forall_forall in H.
  apply listing_add_product_parameter_other. now apply H.
Qed.

Lemma catalog_add_product_parameter_last s i q v db :
  last_listing i s db ->
  catalog s (add_product_parameter i q v db)
  = push_to_last (q, v) (catalog s db).
Proof.
  intros (R & L & HR & Hi & Hs & Hne). unfold catalog.
  cbn [add_product_parameter product_infos set_product_parameters].
  rewrite HR, filter_app, !map_app. cbn [filter]. rewrite Hs. cbn [map].
  unfold push_to_last. rewrite removelast_last, last_last. f_equal.
  - apply map_ext_in. intros x Hx. apply filter_In in Hx.
    destruct Hx as [Hin _]. rewrite Forall_forall in Hne.
    apply listing_add_product_parameter_other. now apply Hne.
  - f_equal. unfold listing. rewrite parameters_of_add_product_parameter.
    rewrite Hi, Z.eqb_refl. reflexivity.
Qed.

Lemma parameters_of_new_product_info item p s db :
  parameters_point_back db ->
  parameters_of (add_product_info item p s db)
                (new_product_info item p s db) = [].
Proof.
  unfold parameters_point_back, parameters_of. intros H.
  cbn [add_product_info product_parameters set_product_infos
       new_product_info ProductInfo_id].
  induction (rows (product_parameters db)) as [|pp l IH]; [reflexivity|].
  inversion H; subst. cbn [filter].
  replace (ProductParameter_product_info_id pp
           =? next_id (product_infos db)) with false
    by (symmetry; apply Z.eqb_neq; lia).
  now apply IH.
Qed.

Lemma catalog_add_product_info s item p s0 db :
  parameters_point_back db ->
  catalog s (add_product_info item p s0 db)
  = catalog s db
    ++ (if s0 =? s
        then [(p, good_model item, good_quantity item, good_price item,
               good_price_rrc item, good_id item, [])]
        else []).
Proof.
  intros H. unfold catalog at 1.
  cbn [add_product_info product_infos set_product_infos rows].
  rewrite filter_app, map_app. f_equal.
  cbn [filter]. unfold listed_by at 1.
  cbn [new_product_info ProductInfo_seller_id].
  destruct (s0 =? s); [|reflexivity]. cbn [map]. unfold listing at 1.
  rewrite (parameters_of_new_product_info item p s0 db H). reflexivity.
Qed.

Lemma last_listing_add_product_info item p s db :
  below_next ProductInfo_id (product_infos db) ->
  last_listing (next_id (product_infos db)) s
               (add_product_info item p s db).
Proof.
  intros H. exists (rows (product_infos db)), (new_product_info item p s db).
  split; [reflexivity|]. split; [reflexivity|].
  split; [apply Z.eqb_refl|].
  eapply Forall_impl; [|exact H]. cbn. intros; lia.
Qed.

Lemma last_listing_same i s db db' :
  product_infos db' = product_infos db ->
  last_listing i s db -> last_listing i s db'.
Proof. unfold last_listing. now intros ->. Qed.

(** ** The import of a catalog: one run of the loops *)

(** What the loop over the parameters of a listing leaves as it is, and
    how the table of parameters grows. *)
Lemma import_parameters_run now i items :
  forall db,
    store_ok db -> i < next_id (product_infos db) ->
    let db' := fst (import_parameters now i items db) in
    store_ok db'
    /\ products db' = products db
    /\ product_infos db' = product_infos db
    /\ sellers db' = sellers db
    /\ extends parameter_matches (rows (parameters db))
                                 (rows (parameters db'))
    /\ forall s,
        Forall (fun x => listed_by s x = true -> ProductInfo_id x <> i)
               (rows (product_infos db)) ->
        catalog s db' = catalog s db.
Proof.
  induction items as [|[n v] items IH]; intros db Hok Hi; cbv zeta.
  - cbn [import_parameters fst]. split; [exact Hok|].
    do 3 (split; [reflexivity|]). split; [apply extends_refl|].
    reflexivity.
  - rewrite (import_parameters_cons now i n v items db Hok).
    destruct (filter (parameter_matches n) (rows (parameters db)))
      as [|r [|r' l]] eqn:F.
    + pose proof (store_ok_add_parameter n db Hok) as Hok1.
      pose proof (store_ok_add_product_parameter i
                    (next_id (parameters db)) v _ Hok1 Hi) as Hok2.
      specialize (IH _ Hok2 Hi). cbv zeta in IH.
      destruct IH as (A & B & C & D & E & G).
      split; [exact A|]. split; [exact B|]. split; [exact C|].
      split; [exact D|]. split.
      * eapply extends_trans; [|exact E].
        apply (extends_new parameter_matches _ n); [exact F|].
        intros k' Hk' r.
        apply (parameter_matches_key n
                 (mkParameter (next_id (parameters db)) n)
                 (String.eqb_refl n) k' r Hk').
      * intros s Hs. rewrite (G s Hs).
        now rewrite catalog_add_product_parameter_other.
    + specialize (IH _ (store_ok_add_product_parameter i (Parameter_id r)
                          v db Hok Hi) Hi).
      cbv zeta in IH. destruct IH as (A & B & C & D & E & G).
      repeat (split; [assumption|]). intros s Hs. rewrite (G s Hs).
      now rewrite catalog_add_product_parameter_other.
    + cbn [fst]. split; [exact Hok|].
      do 3 (split; [reflexivity|]). split; [apply extends_refl|].
      reflexivity.
Qed.

Lemma others_miss_new_product_info item p s s' db :
  below_next ProductInfo_id (product_infos db) -> s' <> s ->
  Forall (fun x => listed_by s' x = true
                   -> ProductInfo_id x <> next_id (product_infos db))
         (rows (product_infos (add_product_info item p s db))).
Proof.
  intros H Hs. cbn. apply Forall_app. split.
  - eapply Forall_impl; [|exact H]. cbn. intros; lia.
  - constructor; [|constructor]. unfold listed_by. cbn.
    intros E. apply Z.eqb_eq in E. congruence.
Qed.

(** The round of the loop over the goods, once the product is known. *)
Lemma import_goods_round now s item p db :
  store_ok db ->
  let db' := fst (import_parameters now (next_id (product_infos db))
                    (good_parameters item) (add_product_info item p s db)) in
  store_ok db'
  /\ products db' = products db
  /\ sellers db' = sellers db
  /\ extends parameter_matches (rows (parameters db))
                               (rows (parameters db'))
  /\ forall s', s' <> s -> catalog s' db' = catalog s' db.
Proof.
  intros Hok. cbv zeta.
  pose proof (store_ok_add_product_info item p s db Hok) as Hok1.
  assert (Hi : next_id (product_infos db)
               < next_id (product_infos (add_product_info item p s db)))
    by (cbn; lia).
  destruct (import_parameters_run now (next_id (product_infos db))
              (good_parameters item) _ Hok1 Hi) as (A & B & C & D & E & G).
  split; [exact A|]. split; [exact B|]. split; [exact D|].
  split; [exact E|]. intros s' Hs'. rewrite G.
  - rewrite catalog_add_product_info by apply Hok.
    replace (s =? s') with false
      by (symmetry; apply Z.eqb_neq; congruence).
    apply app_nil_r.
  - apply others_miss_new_product_info; [apply Hok|exact Hs'].
Qed.

Lemma import_goods_run now s goods :
  forall db,
    store_ok db ->
    let db' := fst (import_goods now s goods db) in
    store_ok db'
    /\ sellers db' = sellers db
    /\ extends product_matches (rows (products db)) (rows (products db'))
    /\ extends parameter_matches (rows (parameters db))
                                 (rows (parameters db'))
    /\ forall s', s' <> s -> catalog s' db' = catalog s' db.
Proof.
  induction goods as [|item goods IH]; intros db Hok; cbv zeta.
  - cbn [import_goods fst]. split; [exact Hok|]. split; [reflexivity|].
    split; [apply extends_refl|]. split; [apply extends_refl|].
    reflexivity.
  - rewrite (import_goods_cons now s item goods db Hok). cbv zeta.
    assert (K : forall p db1,
               store_ok db1 -> sellers db1 = sellers db ->
               extends product_matches (rows (products db))
                                       (rows (products db1)) ->
               parameters db1 = parameters db ->
               (forall s', catalog s' db1 = catalog s' db) ->
               let db' :=
                 fst (match import_parameters now
                              (next_id (product_infos db1))
                              (good_parameters item)
                              (add_product_info item p s db1) with
                      | (db3, Raise e) => (db3, Raise e)
                      | (db3, Ok _) => import_goods now s goods db3
                      end) in
               store_ok db'
               /\ sellers db' = sellers db
               /\ extends product_matches (rows (products db))
                                          (rows (products db'))
               /\ extends parameter_matches (rows (parameters db))
                                            (rows (parameters db'))
               /\ forall s', s' <> s -> catalog s' db' = catalog s' db).
    { intros p db1 Hok1 Hs1 Hp1 Hq1 Hc1. cbv zeta.
      destruct (import_goods_round now s item p db1 Hok1)
        as (A & B & C & D & E).
      destruct (import_parameters now (next_id (product_infos db1))
                  (good_parameters item) (add_product_info item p s db1))
        as [db3 [[]|e]]; cbn [fst] in *.
      - destruct (IH db3 A) as (A' & B' & C' & D' & E').
        split; [exact A'|]. split; [congruence|].
        split; [eapply extends_trans; [exact Hp1|]; now rewrite <- B|].
        split; [eapply extends_trans; [|exact D']; now rewrite <- Hq1|].
        intros s' Hs'. now rewrite E', E, Hc1.
      - split; [exact A|]. split; [congruence|].
        split; [now rewrite B|].
        split; [now rewrite <- Hq1|].
        intros s' Hs'. now rewrite E, Hc1. }
    destruct (filter _ (rows (products db))) as [|r [|r' l]] eqn:F.
    + apply K.
      * now apply store_ok_add_product.
      * reflexivity.
      * apply (extends_new product_matches _
                 (good_name item, good_category item)); [exact F|].
        intros k' Hk' r.
        apply (product_matches_key (good_name item, good_category item)
                 (mkProduct (next_id (products db)) (good_name item)
                    (good_category item))); [|exact Hk'].
        unfold product_matches. cbn.
        now rewrite String.eqb_refl, Z.eqb_refl.
      * reflexivity.
      * reflexivity.
    + apply K; [exact Hok|reflexivity|apply extends_refl|reflexivity
                |reflexivity].
    + cbn [fst]. split; [exact Hok|]. split; [reflexivity|].
      split; [apply extends_refl|]. split; [apply extends_refl|].
      reflexivity.
Qed.

(** ** The import of a catalog: two runs side by side

    [X] is a store of the first run and [Y] the store of the second run at
    the same point of the loop; [F] is a store whose tables of products
    and parameters extend those the first run ends with, and the second
    run reads these tables as [F] has them. *)

Lemma import_parameters_twice now s items :
  forall X Y F iX iY,
    store_ok X -> store_ok Y ->
    iX < next_id (product_infos X) -> iY < next_id (product_infos Y) ->
    last_listing iX s X -> last_listing iY s Y ->
    catalog s Y = catalog s X ->
    parameters Y = parameters F ->
    extends parameter_matches
      (rows (parameters (fst (import_parameters now iX items X))))
      (rows (parameters F)) ->
    snd (import_parameters now iY items Y)
    = snd (import_parameters now iX items X)
    /\ catalog s (fst (import_parameters now iY items Y))
       = catalog s (fst (import_parameters now iX items X))
    /\ parameters (fst (import_parameters now iY items Y)) = parameters F.
Proof.
  induction items as [|[n v] items IH];
    intros X Y F iX iY HX HY HiX HiY LX LY HC HQ HE.
  - cbn [import_parameters fst snd]. auto.
  - rewrite (import_parameters_cons now iX n v items X HX) in HE |- *.
    rewrite (import_parameters_cons now iY n v items Y HY).
    assert (step : forall q X1,
               store_ok X1 -> product_infos X1 = product_infos X ->
               product_parameters X1 = product_parameters X ->
               filter (parameter_matches n) (rows (parameters X1)) <> [] ->
               extends parameter_matches
                 (rows (parameters
                          (fst (import_parameters now iX items
                                  (add_product_parameter iX q v X1)))))
                 (rows (parameters F)) ->
               filter (parameter_matches n) (rows (parameters Y))
               = filter (parameter_matches n) (rows (parameters X1))
               /\ (snd (import_parameters now iY items
                          (add_product_parameter iY q v Y))
                   = snd (import_parameters now iX items
                            (add_product_parameter iX q v X1))
                   /\ catalog s (fst (import_parameters now iY items
                                        (add_product_parameter iY q v Y)))
                      = catalog s (fst (import_parameters now iX items
                                          (add_product_parameter iX q v X1)))
                   /\ parameters (fst (import_parameters now iY items
                                         (add_product_parameter iY q v Y)))
                      = parameters F)).
    { intros q X1 HX1 EI EP NE HE1.
      assert (HiX1 : iX < next_id (product_infos X1)) by now rewrite EI.
      pose proof (store_ok_add_product_parameter iX q v X1 HX1 HiX1)
        as HX2.
      assert (HiX2 : iX < next_id (product_infos
                                     (add_product_parameter iX q v X1)))
        by exact HiX1.
      destruct (import_parameters_run now iX items _ HX2 HiX2)
        as (_ & _ & _ & _ & E2 & _).
      split.
      - rewrite HQ. apply extends_filter; [|exact NE].
        eapply extends_trans; [exact E2|exact HE1].
      - apply IH;
          [exact HX2
          |now apply store_ok_add_product_parameter
          |exact HiX2
          |exact HiY
          |apply (last_listing_same iX s X); [exact EI|exact LX]
          |exact LY
          |
          |exact HQ
          |exact HE1].
        rewrite (catalog_add_product_parameter_last s iY q v Y LY).
        rewrite (catalog_add_product_parameter_last s iX q v X1
                   (last_listing_same iX s X X1 EI LX)).
        now rewrite HC, (catalog_same s X X1 EI EP). }
    destruct (filter (parameter_matches n) (rows (parameters X)))
      as [|r [|r' l]] eqn:FX.
    + assert (M : filter (parameter_matches n)
                         (rows (parameters (add_parameter n X)))
                  = [mkParameter (next_id (parameters X)) n]).
      { cbn [add_parameter parameters set_parameters rows].
        rewrite filter_app, FX. cbn [app filter].
        unfold parameter_matches. cbn [Parameter_name].
        now rewrite String.eqb_refl. }
      destruct (step (next_id (parameters X)) (add_parameter n X))
        as [FY R];
        [now apply store_ok_add_parameter|reflexivity|reflexivity
        |rewrite M; discriminate|exact HE|].
      rewrite FY, M. exact R.
    + destruct (step (Parameter_id r) X) as [FY R]; try reflexivity;
        try assumption.
      * rewrite FX. discriminate.
      * rewrite FY, FX. exact R.
    + cbn [fst snd] in *.
      rewrite HQ, (extends_filter parameter_matches _ _ n HE), FX
        by (rewrite FX; discriminate).
      cbn [fst snd]. auto.
Qed.

Lemma catalog_add_product s n c db :
  catalog s (add_product n c db) = catalog s db.
Proof. reflexivity. Qed.

Lemma import_goods_twice now s goods :
  forall X Y F,
    store_ok X -> store_ok Y ->
    catalog s Y = catalog s X ->
    products Y = products F ->
    parameters Y = parameters F ->
    extends product_matches
      (rows (products (fst (import_goods now s goods X))))
      (rows (products F)) ->
    extends parameter_matches
      (rows (parameters (fst (import_goods now s goods X))))
      (rows (parameters F)) ->
    snd (import_goods now s goods Y) = snd (import_goods now s goods X)
    /\ catalog s (fst (import_goods now s goods Y))
       = catalog s (fst (import_goods now s goods X)).
Proof.
  induction goods as [|item goods IH]; intros X Y F HX HY HC HP HQ EP EQ.
  - cbn [import_goods fst snd]. auto.
  - rewrite (import_goods_cons now s item goods X HX) in EP, EQ |- *.
    rewrite (import_goods_cons now s item goods Y HY).
    cbv zeta in *.
    set (k := (good_name item, good_category item)) in *.
    assert (step : forall p X1,
               store_ok X1 -> product_infos X1 = product_infos X ->
               product_parameters X1 = product_parameters X ->
               parameters X1 = parameters X ->
               filter (product_matches k) (rows (products X1)) <> [] ->
               let runX :=
                 match import_parameters now (next_id (product_infos X1))
                         (good_parameters item)
                         (add_product_info item p s X1) with
                 | (db3, Raise e) => (db3, Raise e)
                 | (db3, Ok _) => import_goods now s goods db3
                 end in
               let runY :=
                 match import_parameters now (next_id (product_infos Y))
                         (good_parameters item)
                         (add_product_info item p s Y) with
                 | (db3, Raise e) => (db3, Raise e)
                 | (db3, Ok _) => import_goods now s goods db3
                 end in
               extends product_matches (rows (products (fst runX)))
                                       (rows (products F)) ->
               extends parameter_matches (rows (parameters (fst runX)))
                                         (rows (parameters F)) ->
               filter (product_matches k) (rows (products Y))
               = filter (product_matches k) (rows (products X1))
               /\ snd runY = snd runX
               /\ catalog s (fst runY) = catalog s (fst runX)).
    { intros p X1 HX1 EI EPP EQ1 NE. cbv zeta. intros EP1 EQ2.
      pose proof (store_ok_add_product_info item p s X1 HX1) as HX2.
      pose proof (store_ok_add_product_info item p s Y HY) as HY2.
      assert (HiX : next_id (product_infos X1)
                    < next_id (product_infos
                                 (add_product_info item p s X1)))
        by (cbn; lia).
      assert (HiY : next_id (product_infos Y)
                    < next_id (product_infos (add_product_info item p s Y)))
        by (cbn; lia).
      destruct (import_parameters_run now (next_id (product_infos X1))
                  (good_parameters item) _ HX2 HiX)
        as (HX3 & PX3 & _ & _ & QX3 & _).
      destruct (import_parameters_run now (next_id (product_infos Y))
                  (good_parameters item) _ HY2 HiY)
        as (HY3 & PY3 & _ & _ & _ & _).
      assert (EXT : extends product_matches (rows (products X1))
                                            (rows (products F))
                    /\ extends parameter_matches
                         (rows (parameters
                                  (fst (import_parameters now
                                          (next_id (product_infos X1))
                                          (good_parameters item)
                                          (add_product_info item p s X1)))))
                         (rows (parameters F))).
      { destruct (import_parameters now (next_id (product_infos X1))
                    (good_parameters item) (add_product_info item p s X1))
          as [X3 [[]|e]]; cbn [fst] in *.
        - destruct (import_goods_run now s goods X3 HX3)
            as (_ & _ & G1 & G2 & _).
          split.
          + change (products X1)
              with (products (add_product_info item p s X1)).
            rewrite <- PX3. eapply extends_trans; [exact G1|exact EP1].
          + eapply extends_trans; [exact G2|exact EQ2].
        - split; [|exact EQ2].
          change (products X1)
            with (products (add_product_info item p s X1)).
          now rewrite <- PX3. }
      destruct EXT as [EXT1 EXT2].
      split; [rewrite HP; now apply extends_filter|].
      destruct (import_parameters_twice now s (good_parameters item)
                  (add_product_info item p s X1)
                  (add_product_info item p s Y) F
                  (next_id (product_infos X1)) (next_id (product_infos Y))
                  HX2 HY2 HiX HiY
                  (last_listing_add_product_info item p s X1
                     (proj1 (proj1 HX1)))
                  (last_listing_add_product_info item p s Y
                     (proj1 (proj1 HY))))
        as (R1 & R2 & R3); [|exact HQ|exact EXT2|].
      { rewrite !catalog_add_product_info
          by (first [apply HX1|apply HY]).
        now rewrite HC, (catalog_same s X X1 EI EPP). }
      destruct (import_parameters now (next_id (product_infos X1))
                  (good_parameters item) (add_product_info item p s X1))
        as [X3 [[]|e]];
        destruct (import_parameters now (next_id (product_infos Y))
                    (good_parameters item) (add_product_info item p s Y))
        as [Y3 [[]|e']]; cbn [fst snd] in *; try discriminate.
      - apply (IH X3 Y3 F); try assumption.
        rewrite PY3. exact HP.
      - split; [exact R1|exact R2]. }
    destruct (filter (product_matches k) (rows (products X)))
      as [|r [|r' l]] eqn:FX.
    + assert (M : filter (product_matches k)
                         (rows (products (add_product (good_name item)
                                            (good_category item) X)))
                  = [mkProduct (next_id (products X)) (good_name item)
                       (good_category item)]).
      { cbn [add_product products set_products rows].
        rewrite filter_app, FX. cbn [app filter].
        unfold product_matches, k. cbn [fst snd Product_name
                                        Product_category_id].
        now rewrite String.eqb_refl, Z.eqb_refl. }
      destruct (step (next_id (products X))
                  (add_product (good_name item) (good_category item) X))
        as (FY & R);
        [now apply store_ok_add_product|reflexivity|reflexivity
        |reflexivity|rewrite M; discriminate|exact EP|exact EQ|].
      rewrite FY, M. exact R.
    + destruct (step (Product_id r) X) as (FY & R);
        [exact HX|reflexivity|reflexivity|reflexivity
        |rewrite FX; discriminate|exact EP|exact EQ|].
      rewrite FY, FX. exact R.
    + cbn [fst snd] in *.
      rewrite HP, (extends_filter product_matches _ _ k EP), FX
        by (rewrite FX; discriminate).
      cbn [fst snd]. auto.
Qed.

(** ** The import of a catalog: the deletion of the old listings *)

Lemma listed_by_filter s x :
  ((s =? ProductInfo_seller_id x) || false) && true = listed_by s x.
Proof.
  unfold listed_by. now rewrite orb_false_r, andb_true_r, Z.eqb_sym.
Qed.

Lemma delete_listings_eq s db :
  delete_product_infos
    (filter_kwargs ProductInfo_objects [("seller_id", VInt s)] db) db
  = (without_listings s db, snd (delete_product_infos
         (Ok (fun x => ((s =? ProductInfo_seller_id x) || false) && true))
         db)).
Proof. rewrite ProductInfo_filter. reflexivity. Qed.

Lemma rows_without_listings s db :
  rows (product_infos (without_listings s db))
  = filter (fun x => negb (listed_by s x)) (rows (product_infos db)).
Proof.
  cbn. apply filter_ext. intros x. now rewrite listed_by_filter.
Qed.

Lemma below_next_filter {T : Type} (key : T -> Z) (t : Table T) f :
  below_next key t -> below_next key (mkTable (filter f (rows t)) (next_id t)).
Proof.
  unfold below_next. cbn. intros H. apply Forall_forall. intros x Hx.
  apply filter_In in Hx. rewrite Forall_forall in H. now apply H.
Qed.

Lemma NoDup_map_filter {A B : Type} (g : A -> B) (f : A -> bool) l :
  NoDup (map g l) -> NoDup (map g (filter f l)).
Proof.
  induction l as [|a l IH]; cbn; [auto|]. intros H. inversion H; subst.
  destruct (f a); [|auto]. cbn. constructor; [|auto].
  intros Hin. apply H2. apply in_map_iff in Hin.
  destruct Hin as [x [E Hx]]. apply filter_In in Hx.
  apply in_map_iff. exists x. tauto.
Qed.

Lemma store_ok_without_listings s db :
  store_ok db -> store_ok (without_listings s db).
Proof.
  intros [(A & B & C & D) N]. split; [|exact N].
  split; [|split; [|split]].
  - apply (below_next_filter ProductInfo_id (product_infos db)). exact A.
  - cbn. now apply NoDup_map_filter.
  - apply (below_next_filter ProductParameter_id (product_parameters db)).
    exact C.
  - unfold parameters_point_back in *. cbn. apply Forall_forall.
    intros x Hx. apply filter_In in Hx. rewrite Forall_forall in D.
    now apply D.
Qed.

Lemma catalog_without_listings_own s db :
  catalog s (without_listings s db) = [].
Proof.
  unfold catalog. rewrite rows_without_listings.
  induction (rows (product_infos db)) as [|x l IH]; [reflexivity|].
  cbn [filter]. destruct (listed_by s x) eqn:E; cbn [negb]; [exact IH|].
  cbn [filter]. rewrite E. exact IH.
Qed.

Lemma filter_other_seller s s' (l : list ProductInfo) :
  s' <> s ->
  filter (listed_by s') (filter (fun x => negb (listed_by s x)) l)
  = filter (listed_by s') l.
Proof.
  intros Hs. induction l as [|x l IH]; [reflexivity|].
  cbn [filter]. destruct (listed_by s x) eqn:A; cbn [negb filter].
  - destruct (listed_by s' x) eqn:A'; [|exact IH].
    unfold listed_by in *. apply Z.eqb_eq in A, A'. congruence.
  - now rewrite IH.
Qed.

Lemma NoDup_same_key {A B : Type} (g : A -> B) (l : list A) x y :
  NoDup (map g l) -> In x l -> In y l -> g x = g y -> x = y.
Proof.
  induction l as [|z l IH]; cbn; [contradiction|].
  intros ND Hx Hy E. inversion ND; subst.
  destruct Hx as [->|Hx], Hy as [->|Hy]; auto.
  - exfalso. apply H1. rewrite E. now apply in_map.
  - exfalso. apply H1. rewrite <- E. now apply in_map.
Qed.

Lemma catalog_without_listings_other s s' db :
  NoDup (map ProductInfo_id (rows (product_infos db))) -> s' <> s ->
  catalog s' (without_listings s db) = catalog s' db.
Proof.
  intros ND Hs. unfold catalog.
  rewrite rows_without_listings, (filter_other_seller s s' _ Hs).
  apply map_ext_in. intros x Hx. apply filter_In in Hx.
  destruct Hx as [Hin Hx]. unfold listing. f_equal.
  unfold parameters_of. f_equal. cbn.
  induction (rows (product_parameters db)) as [|pp l IH]; [reflexivity|].
  cbn [filter].
  destruct (existsb (Z.eqb (ProductParameter_product_info_id pp))
              (map ProductInfo_id
                 (filter (fun x0 => ((s =? ProductInfo_seller_id x0)
                                     || false) && true)
                         (rows (product_infos db))))) eqn:G;
    cbn [negb filter].
  - destruct (ProductParameter_product_info_id pp =? ProductInfo_id x)
      eqn:P; [|exact IH]. exfalso.
    apply existsb_exists in G. destruct G as [i [Hi Hi']].
    apply Z.eqb_eq in Hi', P. apply in_map_iff in Hi.
    destruct Hi as [y [Ey Hy]]. apply filter_In in Hy.
    destruct Hy as [Hy Sy]. rewrite listed_by_filter in Sy.
    assert (x = y)
      by (apply (NoDup_same_key ProductInfo_id _ x y ND Hin Hy);
          congruence).
    subst y. unfold listed_by in *. apply Z.eqb_eq in Hx, Sy. congruence.
  - now rewrite IH.
Qed.

Lemma without_listings_frame s db :
  products (without_listings s db) = products db
  /\ parameters (without_listings s db) = parameters db
  /\ sellers (without_listings s db) = sellers db.
Proof. repeat split. Qed.

(** ** The import of a catalog: the listings are replaced, twice *)

Lemma replace_listings_twice now s goods db :
  store_ok db ->
  let A := fst (import_goods now s goods (without_listings s db)) in
  let B := fst (import_goods now s goods (without_listings s A)) in
  (forall s', catalog s' B = catalog s' A)
  /\ snd (import_goods now s goods (without_listings s A))
     = snd (import_goods now s goods (without_listings s db))
  /\ store_ok A
  /\ sellers A = sellers db.
Proof.
  intros H. cbv zeta.
  pose proof (store_ok_without_listings s db H) as HX.
  destruct (import_goods_run now s goods _ HX) as (HA & SA & _ & _ & _).
  set (A := fst (import_goods now s goods (without_listings s db))) in *.
  pose proof (store_ok_without_listings s A HA) as HY.
  destruct (import_goods_twice now s goods (without_listings s db)
              (without_listings s A) A HX HY) as [R1 R2].
  - now rewrite !catalog_without_listings_own.
  - reflexivity.
  - reflexivity.
  - apply extends_refl.
  - apply extends_refl.
  - split; [|split; [exact R1|split; [exact HA|exact SA]]].
    intros s'. destruct (Z.eq_dec s' s) as [->|Hs]; [exact R2|].
    destruct (import_goods_run now s goods _ HY) as (_ & _ & _ & _ & Fr).
    rewrite (Fr s' Hs).
    apply catalog_without_listings_other; [apply HA|exact Hs].
Qed.

(** ** The import of a catalog: the seller *)

Lemma Seller_create now n uid db :
  objects_create Seller_objects now
    [("name", VStr n); ("user_id", VInt uid)] db
  = if violates_unique Seller_objects
         (mkSeller (next_id (sellers db)) (Some uid) n true None)
         (rows (sellers db))
    then (db, Raise (IntegrityError "UNIQUE constraint failed"))
    else (set_sellers
            (mkTable (rows (sellers db)
                      ++ [mkSeller (next_id (sellers db)) (Some uid) n true
                            None])
                     (Z.max (next_id (sellers db))
                            (next_id (sellers db) + 1))) db,
          Ok (mkSeller (next_id (sellers db)) (Some uid) n true None)).
Proof. reflexivity. Qed.

(** The seller that a first import found or created is the one a second
    import finds, in any store with the same table of sellers. *)
Lemma seller_found_again now n uid db db1 seller created :
  objects_get_or_create Seller_objects now
    [("name", VStr n); ("user_id", VInt uid)] db
  = (db1, Ok (seller, created)) ->
  forall db', sellers db' = sellers db1 ->
    objects_get_or_create Seller_objects now
      [("name", VStr n); ("user_id", VInt uid)] db'
    = (db', Ok (seller, false)).
Proof.
  intros G db' E. apply objects_get_or_create_ok in G.
  set (p := fun r => ((String.eqb n (Seller_name r)) || false)
                     && ((Value_eqb (VInt uid) (opt_int (Seller_user_id r))
                          || false) && true)).
  assert (P : forall d,
             run Seller_objects
               (filter_kwargs Seller_objects
                  [("name", VStr n); ("user_id", VInt uid)] d) d
             = Ok (filter p (rows (sellers d)))) by reflexivity.
  assert (K : filter p (rows (sellers db1)) = [seller]).
  { destruct G as [(_ & -> & R)|(_ & R & C)].
    - rewrite P in R. congruence.
    - rewrite P in R. rewrite Seller_create in C.
      destruct (violates_unique _ _ _); [discriminate|].
      injection C as <- <-. cbn [sellers set_sellers rows].
      rewrite filter_app.
      replace (filter p (rows (sellers db))) with (@nil Seller)
        by congruence.
      cbn [app filter]. unfold p at 1.
      cbn [Seller_name Seller_user_id opt_int Value_eqb].
      now rewrite String.eqb_refl, Z.eqb_refl. }
  unfold objects_get_or_create, objects_get. rewrite P, E, K.
  reflexivity.
Qed.

Lemma seller_step_frame now kw db :
  let db1 := fst (objects_get_or_create Seller_objects now kw db) in
  product_infos db1 = product_infos db
  /\ product_parameters db1 = product_parameters db
  /\ products db1 = products db
  /\ parameters db1 = parameters db.
Proof.
  cbv zeta.
  destruct (objects_get_or_create_store Seller_objects now kw db)
    as [->|[t ->]]; repeat split.
Qed.

Lemma store_ok_same db db' :
  product_infos db' = product_infos db ->
  product_parameters db' = product_parameters db ->
  products db' = products db ->
  parameters db' = parameters db ->
  store_ok db -> store_ok db'.
Proof.
  unfold store_ok, listings_ok, names_ok, parameters_point_back.
  now intros -> -> -> ->.
Qed.

(** ** The import of a catalog: the document, twice *)

Lemma import_document_without_categories request u name goods db :
  import_document request u (mkDocument name [] goods) db
  = match objects_get_or_create Seller_objects (now request)
            [("name", VStr name); ("user_id", VInt (User_id u))] db with
    | (db1, Raise e) => (db1, Raise e)
    | (db1, Ok (seller, _)) =>
        match import_goods (now request) (Seller_id seller) goods
                (without_listings (Seller_id seller) db1) with
        | (db4, Raise e) => (db4, Raise e)
        | (db4, Ok _) =>
            (db4, Ok (JsonResponse [("Status", JBool true)] 200))
        end
    end.
Proof.
  unfold import_document.
  cbn [document_seller document_categories document_goods
       import_categories].
  destruct (objects_get_or_create Seller_objects (now request) _ db)
    as [db1 [[seller c]|e]]; [|reflexivity].
  now rewrite delete_listings_eq.
Qed.

Lemma import_document_twice request u data db :
  store_ok db ->
  forall s,
    catalog s (fst (import_document request u data
                      (fst (import_document request u data db))))
    = catalog s (fst (import_document request u data db)).
Proof.
  intros H s. destruct data as [name [|category entries] goods].
  - rewrite !import_document_without_categories.
    destruct (objects_get_or_create Seller_objects (now request)
                [("name", VStr name); ("user_id", VInt (User_id u))] db)
      as [db1 [[seller c]|e]] eqn:G.
    + pose proof (seller_step_frame (now request)
                    [("name", VStr name); ("user_id", VInt (User_id u))]
                    db) as Fr.
      cbv zeta in Fr. rewrite G in Fr. cbn [fst] in Fr.
      destruct Fr as (F1 & F2 & F3 & F4).
      pose proof (store_ok_same db db1 F1 F2 F3 F4 H) as H1.
      destruct (replace_listings_twice (now request) (Seller_id seller)
                  goods db1 H1) as (R & _ & _ & S).
      cbv zeta in R, S.
      set (A := fst (import_goods (now request) (Seller_id seller) goods
                       (without_listings (Seller_id seller) db1))) in *.
      assert (EA : fst (match import_goods (now request) (Seller_id seller)
                                goods
                                (without_listings (Seller_id seller) db1)
                        with
                        | (db4, Raise e) => (db4, Raise e)
                        | (db4, Ok _) =>
                            (db4, Ok (JsonResponse [("Status", JBool true)]
                                                   200))
                        end) = A).
      { unfold A. destruct (import_goods _ _ goods _) as [db4 [[]|e]];
          reflexivity. }
      rewrite EA.
      rewrite (seller_found_again _ _ _ _ _ _ _ G A S).
      specialize (R s).
      destruct (import_goods (now request) (Seller_id seller) goods
                  (without_listings (Seller_id seller) A))
        as [db4 [[]|e]]; exact R.
    + pose proof (objects_get_or_create_raise _ _ _ _ _ _ G) as E.
      subst db1. cbn [fst]. now rewrite G.
  - pose proof (import_document_with_categories request u name category
                  entries goods db) as [_ [A B]].
    pose proof (import_document_with_categories request u name category
                  entries goods
                  (fst (import_document request u
                          (mkDocument name (category :: entries) goods) db)))
      as [_ [A' B']].
    apply catalog_same; assumption.
Qed.

(** C2.  Importing a document twice in succession leaves every seller
    with the listings that importing it once leaves: the same products,
    models, quantities, prices, recommended prices and articles, with the
    same parameters attached, in the same order.  The store is one whose
    primary keys are unique and below the next key of their sequence and
    whose parameters point to listings that were created; the validator
    of the address and the retrieval of the document are any. *)
Theorem catalog_import_idempotent
  (validate_url : string -> option string)
  (load_url : string -> Result Document)
  (request : Request) (db : Database) (seller : Z) :
  store_ok db ->
  let once := fst (CatalogView_post validate_url load_url request db) in
  let twice := fst (CatalogView_post validate_url load_url request once) in
  catalog seller twice = catalog seller once.
Proof.
  intros H. cbv zeta. unfold CatalogView_post.
  destruct (user request) as [u|]; [|reflexivity].
  destruct (negb (String.eqb (User_type u) "seller")); [reflexivity|].
  destruct (assoc "url" (data request)) as [[|c url]|]; try reflexivity.
  destruct (validate_url (String c url)); [reflexivity|].
  destruct (load_url (String c url)) as [data|e]; [|reflexivity].
  now apply import_document_twice.
Qed.

Lemma example_store_ok : store_ok example_store.
Proof.
  unfold store_ok, listings_ok, names_ok, below_next, parameters_point_back.
  simpl. repeat split; repeat constructor; simpl; intuition lia.
Defined.

Lemma catalog_import_idempotent_witness :
  let import := CatalogView_post (fun _ => None)
                  (fun _ => Ok document_of_goods) import_request in
  store_ok example_store
  /\ catalog 1 (fst (import (fst (import example_store))))
     = catalog 1 (fst (import example_store)).
Proof.
  cbv zeta. split; [exact example_store_ok|].
  apply (catalog_import_idempotent (fun _ => None)
           (fun _ => Ok document_of_goods) import_request example_store 1
           example_store_ok).
Defined.

Example catalog_after_import :
  catalog 1 (fst (CatalogView_post (fun _ => None)
                    (fun _ => Ok document_of_goods) import_request
                    example_store))
  = [(1, "H1", 5, 1000, 1200, 10, [(1, "1kg")]);
     (2, "S2", 3, 700, 800, 11, [(1, "2kg"); (2, "50cm")])].
Proof. reflexivity. Qed.

(** ** Further properties of the basket *)

Lemma requantified_refl basket x : requantified basket x x.
Proof. unfold requantified. repeat split; congruence. Qed.

Lemma requantified_trans basket x y z :
  requantified basket x y -> requantified basket y z ->
  requantified basket x z.
Proof.
  unfold requantified. intros (A1 & A2 & A3 & A4 & A5) (B1 & B2 & B3 & B4 & B5).
  repeat split; try congruence. intros H.
  destruct (Z.eq_dec (OrderItem_quantity y) (OrderItem_quantity x)) as [E|E].
  - rewrite <- A2. apply B5. congruence.
  - now apply A5.
Qed.

Lemma Forall2_requantified_refl basket l :
  Forall2 (requantified basket) l l.
Proof. induction l; constructor; auto using requantified_refl. Qed.

Lemma Forall2_requantified_trans basket l1 l2 l3 :
  Forall2 (requantified basket) l1 l2 ->
  Forall2 (requantified basket) l2 l3 ->
  Forall2 (requantified basket) l1 l3.
Proof.
  intros H. revert l3. induction H; intros l3 H3; inversion H3; subst;
    constructor; eauto using requantified_trans.
Qed.

Lemma put_body_requantifies basket order_item n db :
  Forall2 (requantified (Order_id basket))
          (rows (order_items db))
          (rows (order_items (fst (put_body basket order_item n db)))).
Proof.
  unfold put_body.
  destruct (subscript order_item "id") as [id|e];
    [|apply Forall2_requantified_refl].
  destruct (is_int id) as [i|]; [|apply Forall2_requantified_refl].
  destruct (subscript order_item "quantity") as [q|e];
    [|apply Forall2_requantified_refl].
  destruct (is_int q) as [q'|]; [|apply Forall2_requantified_refl].
  rewrite item_filter.
  change (update OrderItem_objects
            (Ok (fun r => ((Order_id basket =? OrderItem_order_id r) || false)
                          && (((i =? OrderItem_id r) || false) && true)))
            [("quantity", VInt q')] db)
    with (set_order_items
            (mkTable
               (map (fun r =>
                       if ((Order_id basket =? OrderItem_order_id r) || false)
                          && (((i =? OrderItem_id r) || false) && true)
                       then match OrderItem_assign "quantity" (VInt q') r with
                            | Some r' => r'
                            | None => r
                            end
                       else r) (rows (order_items db)))
               (next_id (order_items db))) db,
          Ok (Z.of_nat (List.length
                          (filter (fun r =>
                                     ((Order_id basket =? OrderItem_order_id r)
                                      || false)
                                     && (((i =? OrderItem_id r) || false)
                                         && true))
                                  (rows (order_items db)))))
          : Result Z).
  cbn [fst order_items set_order_items rows].
  induction (rows (order_items db)) as [|x l IH]; cbn [map];
    constructor; [|exact IH].
  destruct ((Order_id basket =? OrderItem_order_id x) || false) eqn:E;
    cbn [andb]; [|apply requantified_refl].
  destruct (((i =? OrderItem_id x) || false) && true);
    [|apply requantified_refl].
  rewrite orb_false_r in E. apply Z.eqb_eq in E.
  destruct x as [xi xo xp xs xq]. cbn in *.
  unfold requantified. cbn. repeat split. intros _. congruence.
Qed.

(** X1.  [BasketView.put] creates and removes no line, and the lines
    after the call are the lines of before in the same order, with the
    same id, order, listing and shop; a line whose quantity changed
    belongs to an order of the caller that is in the state [basket]. *)
Theorem BasketView_put_changes_own_quantities
  (load_json : string -> option JValue) (request : Request)
  (db : Database) :
  let db' := fst (BasketView_put load_json request db) in
  exists basket,
    Forall2 (requantified basket) (rows (order_items db))
            (rows (order_items db'))
    /\ (rows (order_items db') = rows (order_items db)
        \/ exists u o,
            user request = Some u
            /\ In o (rows (orders db'))
            /\ is_basket_of (User_id u) o = true
            /\ Order_id o = basket).
Proof.
  cbv zeta.
  pose proof (BasketView_put_orders load_json request db) as HO.
  unfold BasketView_put in *.
  destruct (user request) as [u|];
    [|exists 0; split; [apply Forall2_requantified_refl|now left]].
  destruct (assoc "items" (data request)) as [[|c s]|];
    try (exists 0; split; [apply Forall2_requantified_refl|now left]).
  destruct (get_or_create_basket request u db) as [db1 [[basket b]|e]]
    eqn:G; cbn [fst] in *.
  2:{ apply get_or_create_basket_raise in G. subst.
      exists 0; split; [apply Forall2_requantified_refl|now left]. }
  apply get_or_create_basket_ok in G. destruct G as (Hin & Hb & Hitems & _).
  exists (Order_id basket).
  assert (K : forall v,
             Forall2 (requantified (Order_id basket))
               (rows (order_items db))
               (rows (order_items
                  (fst (match iterate v with
                        | Raise e => (db1, Raise e)
                        | Ok l =>
                            match for_each (put_body basket) l 0 db1 with
                            | (db2, Raise e) => (db2, Raise e)
                            | (db2, Ok (Return r)) => (db2, Ok r)
                            | (db2, Ok (Continue objects_updated)) =>
                                (db2, Ok (JsonResponse
                                            [("Status", JBool true);
                                             ("Updated objects",
                                              JInt objects_updated)] 200))
                            end
                        end))))).
  { intros v. destruct (iterate v) as [l|e]; cbn [fst];
      [|rewrite Hitems; apply Forall2_requantified_refl].
    pose proof (for_each_preserves
                  (fun d => Forall2 (requantified (Order_id basket))
                              (rows (order_items db)) (rows (order_items d)))
                  (put_body basket)) as F.
    cbv beta in F.
    assert (P : Forall2 (requantified (Order_id basket))
                  (rows (order_items db))
                  (rows (order_items (fst (for_each (put_body basket) l 0
                                             db1))))).
    { apply F; [|rewrite Hitems; apply Forall2_requantified_refl].
      intros a s0 d Hd.
      eapply Forall2_requantified_trans; [exact Hd|].
      apply put_body_requantifies. }
    destruct (for_each _ l 0 db1) as [db2 [[k|r]|e]]; exact P. }
  destruct (load_json (String c s)) as [v|]; cbn [fst] in *.
  - split; [apply K|]. right. exists u, basket.
    split; [reflexivity|]. split; [|split; [exact Hb|reflexivity]].
    rewrite HO. exact Hin.
  - split; [rewrite Hitems; apply Forall2_requantified_refl|].
    left. exact Hitems.
Qed.

(** X2.  The number that [BasketView.delete] reports is the number of
    lines that left the store. *)
Theorem BasketView_delete_reports_removed_lines
  (request : Request) (db : Database) (n : Z) :
  snd (BasketView_delete request db)
  = Ok (JsonResponse [("Status", JBool true); ("Deleted objects", JInt n)]
                     200) ->
  Z.of_nat (List.length (rows (order_items db)))
  = Z.of_nat (List.length
                (rows (order_items (fst (BasketView_delete request db)))))
    + n.
Proof.
  unfold BasketView_delete.
  destruct (user request) as [u|]; [|discriminate].
  destruct (assoc "items" (data request)) as [[|c s]|]; try discriminate.
  destruct (get_or_create_basket request u db) as [db1 [[basket b]|e]]
    eqn:G; [|discriminate].
  apply get_or_create_basket_ok in G. destruct G as (_ & _ & Hitems & _).
  destruct (delete_query basket (str_split "," (String c s)) [] false)
    as [query [|]]; [|discriminate].
  destruct (filter_Q OrderItem_objects query db1) as [p|e];
    [|discriminate].
  cbn [delete_order_items fst snd order_items set_order_items rows].
  intros H. injection H as <-.
  rewrite Hitems, <- (filter_length p (rows (order_items db))).
  lia.
Qed.

(** The call of user 3 that names the lines 1 and 3 removes line 1 only
    and reports one deleted object. *)
Lemma BasketView_delete_reports_removed_lines_witness :
  snd (BasketView_delete (buyer_request "1,3") example_store)
  = Ok (JsonResponse [("Status", JBool true); ("Deleted objects", JInt 1)]
                     200)
  /\ Z.of_nat (List.length (rows (order_items example_store)))
     = Z.of_nat (List.length
                   (rows (order_items
                            (fst (BasketView_delete (buyer_request "1,3")
                                    example_store)))))
       + 1.
Proof.
  split; [reflexivity|].
  apply (BasketView_delete_reports_removed_lines
           (buyer_request "1,3") example_store 1).
  reflexivity.
Defined.

(** X3.  A payload that [ujson.loads] rejects is answered by no response
    at all: [post] and [put] look the basket up (or create it), as for a
    payload that parses, and then raise [UnboundLocalError], or the
    exception of the lookup. *)
Theorem unparsable_items_raise
  (load_json : string -> option JValue)
  (is_valid : list (string * JValue) -> Database -> bool)
  (save : list (string * JValue) -> Database -> Database * Result unit)
  (request : Request) (u : AuthUser) (c : ascii) (s : string)
  (db : Database) :
  user request = Some u ->
  assoc "items" (data request) = Some (String c s) ->
  load_json (String c s) = None ->
  exists e,
    BasketView_post load_json is_valid save request db
    = (fst (get_or_create_basket request u db), Raise e)
    /\ BasketView_put load_json request db
       = (fst (get_or_create_basket request u db), Raise e)
    /\ (e = UnboundLocalError
        \/ snd (get_or_create_basket request u db) = Raise e).
Proof.
  intros U A L. unfold BasketView_post, BasketView_put.
  rewrite U, A, L.
  destruct (get_or_create_basket request u db) as [db1 [[basket b]|e]];
    cbn [fst snd].
  - exists UnboundLocalError. auto.
  - exists e. auto.
Qed.

(** Without a basket in the store, the payload [oops] of user 3 leaves a
    new basket behind and raises. *)
Lemma unparsable_items_raise_witness :
  exists e,
    BasketView_post loads_example OrderItemSerializer_is_valid
      OrderItemSerializer_save (buyer_request "oops") store_without_orders
    = (fst (get_or_create_basket (buyer_request "oops") a_buyer
              store_without_orders), Raise e)
    /\ BasketView_put loads_example (buyer_request "oops")
         store_without_orders
       = (fst (get_or_create_basket (buyer_request "oops") a_buyer
                 store_without_orders), Raise e)
    /\ (e = UnboundLocalError
        \/ snd (get_or_create_basket (buyer_request "oops") a_buyer
                  store_without_orders) = Raise e).
Proof.
  apply (unparsable_items_raise loads_example OrderItemSerializer_is_valid
           OrderItemSerializer_save (buyer_request "oops") a_buyer
           "o"%char "ops" store_without_orders); reflexivity.
Defined.

(** ** The import of a catalog: what a successful run leaves *)

Lemma filter_none {A : Type} (f : A -> bool) l :
  (forall x, In x l -> f x = false) -> filter f l = [].
Proof.
  induction l as [|a l IH]; cbn; [reflexivity|]. intros H.
  rewrite (H a) by now left. apply IH. intros x Hx. apply H. now right.
Qed.

Lemma unique_add {K T : Type} (m : K -> T -> bool) l k x :
  filter (m k) l = [] -> m k x = true ->
  (forall k', m k' x = true -> forall r, m k' r = m k r) ->
  (forall k', (List.length (filter (m k') l) <= 1)%nat) ->
  forall k', (List.length (filter (m k') (l ++ [x])) <= 1)%nat.
Proof.
  intros E Hx Hk U k'. rewrite filter_app, length_app. cbn [filter].
  destruct (m k' x) eqn:M; cbn [List.length].
  - rewrite (filter_ext _ _ (Hk k' M)), E. cbn. lia.
  - specialize (U k'). lia.
Qed.

Lemma keys_unique_same db db' :
  products db' = products db -> parameters db' = parameters db ->
  keys_unique db -> keys_unique db'.
Proof. unfold keys_unique. now intros -> ->. Qed.

Lemma keys_unique_add_parameter n db :
  filter (parameter_matches n) (rows (parameters db)) = [] ->
  keys_unique db -> keys_unique (add_parameter n db).
Proof.
  intros E [P Q]. split; [exact P|].
  cbn [add_parameter parameters set_parameters rows].
  apply (unique_add parameter_matches _ n); [exact E| | |exact Q].
  - apply String.eqb_refl.
  - intros k' M r.
    apply (parameter_matches_key n (mkParameter (next_id (parameters db)) n)
             (String.eqb_refl n) k' r M).
Qed.

Lemma keys_unique_add_product n c db :
  filter (product_matches (n, c)) (rows (products db)) = [] ->
  keys_unique db -> keys_unique (add_product n c db).
Proof.
  intros E [P Q]. split; [|exact Q].
  cbn [add_product products set_products rows].
  assert (M0 : product_matches (n, c)
                 (mkProduct (next_id (products db)) n c) = true).
  { unfold product_matches. cbn. now rewrite String.eqb_refl, Z.eqb_refl. }
  apply (unique_add product_matches _ (n, c)); [exact E|exact M0| |exact P].
  intros k' M r. apply (product_matches_key (n, c) _ M0 k' r M).
Qed.

Lemma push_all_last qs :
  forall c p n q pr rrc a ps,
    fold_left (fun c qv => push_to_last qv c) qs
              (c ++ [(p, n, q, pr, rrc, a, ps)])
    = c ++ [(p, n, q, pr, rrc, a, ps ++ qs) : Listing].
Proof.
  induction qs as [|qv qs IH]; intros c p n q pr rrc a ps.
  - cbn. now rewrite app_nil_r.
  - cbn [fold_left]. unfold push_to_last at 2.
    rewrite removelast_last, last_last. cbn [push_parameter].
    rewrite IH, <- app_assoc. reflexivity.
Qed.

Lemma found_in_extension {K T : Type} (m : K -> T -> bool) l l' k r :
  extends m l l' -> filter (m k) l = [r] -> filter (m k) l' = [r].
Proof.
  intros E H. rewrite (extends_filter m l l' k E), H by congruence.
  reflexivity.
Qed.

Lemma parameter_key_found F l n r :
  extends parameter_matches l (rows (parameters F)) ->
  filter (parameter_matches n) l = [r] ->
  parameter_key F n = Parameter_id r.
Proof.
  intros E H. unfold parameter_key.
  rewrite (extends_filter parameter_matches _ _ n E), H by congruence.
  reflexivity.
Qed.

Lemma product_key_found F l item r :
  extends product_matches l (rows (products F)) ->
  filter (product_matches (good_name item, good_category item)) l = [r] ->
  product_key F item = Product_id r.
Proof.
  intros E H. unfold product_key.
  rewrite (extends_filter product_matches _ _ _ E), H by congruence.
  reflexivity.
Qed.

(** The loop over the parameters of a listing, in a store where a name
    selects at most one parameter: it ends without an exception, and the
    last listing got the parameters of the document. *)
Lemma import_parameters_described now s i items :
  forall db,
    store_ok db -> keys_unique db -> i < next_id (product_infos db) ->
    last_listing i s db ->
    let r := import_parameters now i items db in
    snd r = Ok tt
    /\ keys_unique (fst r)
    /\ order_items (fst r) = order_items db
    /\ forall F,
        extends parameter_matches (rows (parameters (fst r)))
                                  (rows (parameters F)) ->
        catalog s (fst r)
        = fold_left (fun c qv => push_to_last qv c)
            (map (fun nv => (parameter_key F (fst nv), snd nv)) items)
            (catalog s db)
        /\ Forall (fun nv => exists q,
                      filter (parameter_matches (fst nv))
                             (rows (parameters F)) = [q])
                  items.
Proof.
  induction items as [|[n v] items IH]; intros db Hok Hu Hi Hl; cbv zeta.
  - cbn [import_parameters fst snd map fold_left].
    split; [reflexivity|]. split; [exact Hu|]. split; [reflexivity|].
    intros F _. split; [reflexivity|constructor].
  - rewrite (import_parameters_cons now i n v items db Hok).
    destruct (filter (parameter_matches n) (rows (parameters db)))
      as [|r [|r' l]] eqn:E.
    + pose proof (store_ok_add_parameter n db Hok) as Hok1.
      pose proof (store_ok_add_product_parameter i
                    (next_id (parameters db)) v _ Hok1 Hi) as Hok2.
      pose proof (keys_unique_add_parameter n db E Hu) as Hu1.
      set (db2 := add_product_parameter i (next_id (parameters db)) v
                    (add_parameter n db)) in *.
      assert (Hu2 : keys_unique db2) by exact Hu1.
      assert (Hl2 : last_listing i s db2) by exact Hl.
      destruct (IH db2 Hok2 Hu2 Hi Hl2) as (A & B & C & D).
      destruct (import_parameters_run now i items db2 Hok2 Hi)
        as (_ & _ & _ & _ & X & _).
      split; [exact A|]. split; [exact B|]. split; [exact C|].
      intros F EF. destruct (D F EF) as [D1 D2].
      assert (EX : extends parameter_matches (rows (parameters db2))
                                             (rows (parameters F)))
        by (eapply extends_trans; [exact X|exact EF]).
      assert (E2 : filter (parameter_matches n) (rows (parameters db2))
                   = [mkParameter (next_id (parameters db)) n]).
      { unfold db2. cbn [add_product_parameter add_parameter parameters
                         set_product_parameters set_parameters rows].
        rewrite filter_app, E. cbn [app filter].
        unfold parameter_matches at 1. cbn [Parameter_name].
        now rewrite String.eqb_refl. }
      split.
      * rewrite D1. cbn [map fold_left fst snd]. f_equal. unfold db2.
        rewrite (catalog_add_product_parameter_last s i _ v
                   (add_parameter n db) Hl).
        rewrite (catalog_same s db (add_parameter n db) eq_refl eq_refl).
        f_equal. f_equal. symmetry.
        exact (parameter_key_found F _ n _ EX E2).
      * constructor; [|exact D2]. cbn [fst].
        exists (mkParameter (next_id (parameters db)) n).
        exact (found_in_extension parameter_matches _ _ n _ EX E2).
    + pose proof (store_ok_add_product_parameter i (Parameter_id r) v db
                    Hok Hi) as Hok2.
      set (db2 := add_product_parameter i (Parameter_id r) v db) in *.
      assert (Hu2 : keys_unique db2) by exact Hu.
      assert (Hl2 : last_listing i s db2) by exact Hl.
      destruct (IH db2 Hok2 Hu2 Hi Hl2) as (A & B & C & D).
      destruct (import_parameters_run now i items db2 Hok2 Hi)
        as (_ & _ & _ & _ & X & _).
      split; [exact A|]. split; [exact B|]. split; [exact C|].
      intros F EF. destruct (D F EF) as [D1 D2].
      assert (EX : extends parameter_matches (rows (parameters db2))
                                             (rows (parameters F)))
        by (eapply extends_trans; [exact X|exact EF]).
      split.
      * rewrite D1. cbn [map fold_left fst snd]. f_equal. unfold db2.
        rewrite (catalog_add_product_parameter_last s i _ v db Hl).
        f_equal. f_equal. symmetry.
        exact (parameter_key_found F _ n r EX E).
      * constructor; [|exact D2]. cbn [fst]. exists r.
        exact (found_in_extension parameter_matches _ _ n r EX E).
    + exfalso. destruct Hu as [_ Q]. specialize (Q n). rewrite E in Q.
      cbn in Q. lia.
Qed.

(** The loop over the goods, in a store where a name and a category
    select at most one product and a name at most one parameter: it ends
    without an exception, and the seller got one listing for each good,
    after the listings it had. *)
Lemma import_goods_described now s goods :
  forall db,
    store_ok db -> keys_unique db ->
    let r := import_goods now s goods db in
    snd r = Ok tt
    /\ keys_unique (fst r)
    /\ order_items (fst r) = order_items db
    /\ forall F,
        extends product_matches (rows (products (fst r)))
                                (rows (products F)) ->
        extends parameter_matches (rows (parameters (fst r)))
                                  (rows (parameters F)) ->
        catalog s (fst r) = catalog s db ++ map (described F) goods
        /\ Forall (names_stored F) goods.
Proof.
  induction goods as [|item goods IH]; intros db Hok Hu; cbv zeta.
  - cbn [import_goods fst snd map]. split; [reflexivity|].
    split; [exact Hu|]. split; [reflexivity|].
    intros F _ _. split; [now rewrite app_nil_r|constructor].
  - rewrite (import_goods_cons now s item goods db Hok). cbv zeta.
    set (k := (good_name item, good_category item)).
    assert (K : forall row db1,
               store_ok db1 -> keys_unique db1 ->
               order_items db1 = order_items db ->
               catalog s db1 = catalog s db ->
               filter (product_matches k) (rows (products db1)) = [row] ->
               let r :=
                 match import_parameters now (next_id (product_infos db1))
                         (good_parameters item)
                         (add_product_info item (Product_id row) s db1) with
                 | (db3, Raise e) => (db3, Raise e)
                 | (db3, Ok _) => import_goods now s goods db3
                 end in
               snd r = Ok tt
               /\ keys_unique (fst r)
               /\ order_items (fst r) = order_items db
               /\ forall F,
                   extends product_matches (rows (products (fst r)))
                                           (rows (products F)) ->
                   extends parameter_matches (rows (parameters (fst r)))
                                             (rows (parameters F)) ->
                   catalog s (fst r)
                   = catalog s db ++ map (described F) (item :: goods)
                   /\ Forall (names_stored F) (item :: goods)).
    { intros row db1 Hok1 Hu1 Ho1 Hc1 Hk1. cbv zeta.
      pose proof (store_ok_add_product_info item (Product_id row) s db1
                    Hok1) as Hok2.
      set (db2 := add_product_info item (Product_id row) s db1) in *.
      assert (Hu2 : keys_unique db2) by exact Hu1.
      assert (Hi : next_id (product_infos db1) < next_id (product_infos db2))
        by (cbn; lia).
      pose proof (last_listing_add_product_info item (Product_id row) s db1
                    (proj1 (proj1 Hok1))) as Hl.
      fold db2 in Hl.
      destruct (import_parameters_described now s
                  (next_id (product_infos db1)) (good_parameters item) db2
                  Hok2 Hu2 Hi Hl) as (A & B & C & D).
      destruct (import_parameters_run now (next_id (product_infos db1))
                  (good_parameters item) db2 Hok2 Hi)
        as (Hok3 & P3 & _ & _ & _ & _).
      destruct (import_parameters now (next_id (product_infos db1))
                  (good_parameters item) db2) as [db3 [[]|e]];
        cbn [fst snd] in *; [|discriminate].
      destruct (IH db3 Hok3 B) as (A' & B' & C' & D').
      destruct (import_goods_run now s goods db3 Hok3)
        as (_ & _ & XP & XQ & _).
      split; [exact A'|]. split; [exact B'|].
      split; [now rewrite C', C|].
      intros F EP EQ. destruct (D' F EP EQ) as [D1' D2'].
      assert (EQ3 : extends parameter_matches (rows (parameters db3))
                                              (rows (parameters F)))
        by (eapply extends_trans; [exact XQ|exact EQ]).
      destruct (D F EQ3) as [D1 D2].
      assert (EP1 : extends product_matches (rows (products db1))
                                            (rows (products F))).
      { eapply extends_trans; [|exact EP]. rewrite P3 in XP. exact XP. }
      split.
      - rewrite D1', D1. unfold db2 at 1.
        rewrite (catalog_add_product_info s item (Product_id row) s db1)
          by apply Hok1.
        rewrite Z.eqb_refl, Hc1, push_all_last, <- app_assoc.
        assert (PK : product_key F item = Product_id row)
          by exact (product_key_found F _ item row EP1 Hk1).
        cbn [app map]. unfold described. now rewrite PK.
      - constructor; [|exact D2']. split; [|exact D2]. exists row.
        exact (found_in_extension product_matches _ _ k row EP1 Hk1). }
    destruct (filter (product_matches k) (rows (products db)))
      as [|row [|row' l]] eqn:E.
    + apply (K (mkProduct (next_id (products db)) (good_name item)
                  (good_category item))
               (add_product (good_name item) (good_category item) db)).
      * now apply store_ok_add_product.
      * now apply keys_unique_add_product.
      * reflexivity.
      * now apply catalog_same.
      * cbn [add_product products set_products rows].
        rewrite filter_app, E. cbn [app filter].
        unfold product_matches at 1, k. cbn.
        now rewrite String.eqb_refl, Z.eqb_refl.
    + apply (K row db); auto.
    + exfalso. destruct Hu as [P _]. specialize (P k). rewrite E in P.
      cbn in P. lia.
Qed.

Lemma described_describes db goods :
  Forall (names_stored db) goods ->
  Forall2 (describes db) goods (map (described db) goods).
Proof.
  induction 1 as [|item goods [[p Hp] Hq] _ IH]; cbn [map];
    constructor; [|exact IH].
  exists p, (map (fun nv => (parameter_key db (fst nv), snd nv))
                 (good_parameters item)).
  split; [exact Hp|]. split.
  - unfold described, product_key. now rewrite Hp.
  - clear Hp. induction Hq as [|nv l [q Hq] _ IHq]; cbn [map];
      constructor; [|exact IHq].
    exists q. split; [exact Hq|]. unfold parameter_key. now rewrite Hq.
Qed.

(** The seller of an import, found. *)
Lemma sellers_named_filter n uid (d : Database) :
  run Seller_objects
    (filter_kwargs Seller_objects
       [("name", VStr n); ("user_id", VInt uid)] d) d
  = Ok (sellers_named n uid d).
Proof.
  rewrite Seller_filter. unfold run, sellers_named.
  cbn [table Seller_objects]. f_equal. apply filter_ext. intros r.
  now rewrite !orb_false_r, andb_true_r.
Qed.

Lemma seller_found now n uid db seller :
  sellers_named n uid db = [seller] ->
  objects_get_or_create Seller_objects now
    [("name", VStr n); ("user_id", VInt uid)] db
  = (db, Ok (seller, false)).
Proof.
  intros H. unfold objects_get_or_create, objects_get.
  rewrite sellers_named_filter, H. reflexivity.
Qed.

(** X4.  The import of a document without categories, for a seller
    that the caller owns under the name of the document, into a
    well-formed store where no two products share name and category and
    no two parameters share their name, of goods that the store takes
    (numbers between 0 and 2147483647, texts of at most 64 characters,
    parameters of distinct names, categories of the store): the import
    succeeds, and the catalog of the seller is then the list of the
    goods of the document, in their order.  Every good has its one
    product row of its name and category, every parameter its one row
    of its name, and the listing of the good carries the key of this
    product, the model, quantity, prices and article of the good, and
    its parameters with the keys of their rows, in the order of the
    document.  The listings the seller had are gone. *)
Theorem import_replaces_catalog
  (request : Request) (u : AuthUser) (name : string) (goods : list Good)
  (db : Database) (seller : Seller) :
  store_ok db -> keys_unique db -> goods_storable db goods ->
  sellers_named name (User_id u) db = [seller] ->
  let r := import_document request u (mkDocument name [] goods) db in
  snd r = Ok (JsonResponse [("Status", JBool true)] 200)
  /\ Forall2 (describes (fst r)) goods (catalog (Seller_id seller) (fst r)).
Proof.
  intros Hok Hu _ Hs. cbv zeta.
  rewrite import_document_without_categories.
  rewrite (seller_found (now request) name (User_id u) db seller Hs).
  pose proof (store_ok_without_listings (Seller_id seller) db Hok) as Hok1.
  assert (Hu1 : keys_unique (without_listings (Seller_id seller) db))
    by exact Hu.
  destruct (import_goods_described (now request) (Seller_id seller) goods
              _ Hok1 Hu1) as (A & _ & _ & D).
  specialize (D (fst (import_goods (now request) (Seller_id seller) goods
                        (without_listings (Seller_id seller) db)))
                (extends_refl _ _) (extends_refl _ _)).
  rewrite catalog_without_listings_own in D. cbn [app] in D.
  destruct (import_goods (now request) (Seller_id seller) goods
              (without_listings (Seller_id seller) db))
    as [db4 [[]|e]]; cbn [fst snd] in *; [|discriminate].
  split; [reflexivity|]. destruct D as [D1 D2]. rewrite D1.
  exact (described_describes db4 goods D2).
Qed.

Lemma example_store_keys_unique : keys_unique example_store.
Proof.
  split; intros k; [|cbn; lia].
  change (rows (products example_store))
    with [mkProduct 1 "Hammer" 1; mkProduct 2 "Saw" 1].
  cbn [filter]. unfold product_matches. cbn [Product_name].
  destruct (String.eqb_spec (fst k) "Hammer") as [E|E];
    destruct (String.eqb_spec (fst k) "Saw") as [E'|E'];
    cbn [andb]; try (rewrite E in E'; discriminate);
    repeat match goal with |- context [if ?b then _ else _] =>
                             destruct b end; cbn; lia.
Defined.

Lemma example_goods_storable :
  goods_storable example_store (document_goods document_of_goods).
Proof.
  unfold goods_storable, good_storable, number_fits, text_fits. simpl.
  repeat constructor; simpl; try lia; auto; intuition discriminate.
Defined.

Lemma import_replaces_catalog_witness :
  let r := import_document import_request a_seller document_of_goods
             example_store in
  store_ok example_store
  /\ keys_unique example_store
  /\ goods_storable example_store (document_goods document_of_goods)
  /\ sellers_named "Acme" (User_id a_seller) example_store
     = [mkSeller 1 (Some 7) "Acme" true None]
  /\ catalog 1 (fst r)
     = [(1, "H1", 5, 1000, 1200, 10, [(1, "1kg")]);
        (2, "S2", 3, 700, 800, 11, [(1, "2kg"); (2, "50cm")])]
  /\ snd r = Ok (JsonResponse [("Status", JBool true)] 200)
  /\ Forall2 (describes (fst r)) (document_goods document_of_goods)
             (catalog 1 (fst r)).
Proof.
  cbv zeta. split; [exact example_store_ok|].
  split; [exact example_store_keys_unique|].
  split; [exact example_goods_storable|]. split; [reflexivity|].
  split; [vm_compute; reflexivity|].
  apply (import_replaces_catalog import_request a_seller "Acme"
           (document_goods document_of_goods) example_store
           (mkSeller 1 (Some 7) "Acme" true None)
           example_store_ok example_store_keys_unique
           example_goods_storable eq_refl).
Defined.

(** ** The import of a catalog: the other sellers *)

Lemma seller_step_owner now n uid db db1 seller created :
  objects_get_or_create Seller_objects now
    [("name", VStr n); ("user_id", VInt uid)] db
  = (db1, Ok (seller, created)) ->
  In seller (rows (sellers db1))
  /\ Seller_name seller = n
  /\ Seller_user_id seller = Some uid.
Proof.
  intros G.
  pose proof (seller_found_again now n uid db db1 seller created G db1
                eq_refl) as G1.
  apply objects_get_or_create_ok in G1.
  destruct G1 as [(_ & _ & R)|(C & _)]; [|discriminate].
  rewrite sellers_named_filter in R. injection R as R.
  assert (I : In seller (sellers_named n uid db1)) by (rewrite R; now left).
  apply filter_In in I. destruct I as [I P]. split; [exact I|].
  apply andb_true_iff in P. destruct P as [P1 P2].
  apply String.eqb_eq in P1. split; [now symmetry|].
  destruct (Seller_user_id seller) as [i|]; cbn in P2; [|discriminate].
  apply Z.eqb_eq in P2. now subst.
Qed.

Lemma import_document_sellers request u name goods db :
  store_ok db ->
  forall db1 seller created,
    objects_get_or_create Seller_objects (now request)
      [("name", VStr name); ("user_id", VInt (User_id u))] db
    = (db1, Ok (seller, created)) ->
    let r := import_document request u (mkDocument name [] goods) db in
    sellers (fst r) = sellers db1
    /\ store_ok db1
    /\ fst r = fst (import_goods (now request) (Seller_id seller) goods
                      (without_listings (Seller_id seller) db1))
    /\ forall s, catalog s db1 = catalog s db.
Proof.
  intros Hok db1 seller created G. cbv zeta.
  rewrite import_document_without_categories, G.
  pose proof (seller_step_frame (now request)
                [("name", VStr name); ("user_id", VInt (User_id u))] db)
    as Fr.
  cbv zeta in Fr. rewrite G in Fr. cbn [fst] in Fr.
  destruct Fr as (F1 & F2 & F3 & F4).
  pose proof (store_ok_same db db1 F1 F2 F3 F4 Hok) as Hok1.
  pose proof (store_ok_without_listings (Seller_id seller) db1 Hok1) as HX.
  destruct (import_goods_run (now request) (Seller_id seller) goods _ HX)
    as (_ & S & _ & _ & _).
  assert (E : fst (match import_goods (now request) (Seller_id seller)
                           goods (without_listings (Seller_id seller) db1)
                   with
                   | (db4, Raise e) => (db4, Raise e)
                   | (db4, Ok _) =>
                       (db4, Ok (JsonResponse [("Status", JBool true)] 200))
                   end)
              = fst (import_goods (now request) (Seller_id seller) goods
                       (without_listings (Seller_id seller) db1))).
  { destruct (import_goods _ _ goods _) as [db4 [[]|e]]; reflexivity. }
  rewrite E. split; [exact S|]. split; [exact Hok1|].
  split; [reflexivity|]. intros s. now apply catalog_same.
Qed.

(** X5.  In a well-formed store, the import of a catalog leaves the
    catalog of every seller that the caller does not own as it was: the
    listings of the other sellers, with their parameters, are neither
    deleted nor changed nor added to. *)
Theorem import_keeps_other_catalogs
  (validate_url : string -> option string)
  (load_url : string -> Result Document)
  (request : Request) (db : Database) (other : Z) :
  store_ok db ->
  let db' := fst (CatalogView_post validate_url load_url request db) in
  (forall u x, user request = Some u -> In x (rows (sellers db')) ->
               Seller_user_id x = Some (User_id u) ->
               Seller_id x <> other) ->
  catalog other db' = catalog other db.
Proof.
  intros Hok. cbv zeta. unfold CatalogView_post.
  destruct (user request) as [u|]; [|reflexivity].
  destruct (negb (String.eqb (User_type u) "seller")); [reflexivity|].
  destruct (assoc "url" (data request)) as [[|c url]|]; try reflexivity.
  destruct (validate_url (String c url)); [reflexivity|].
  destruct (load_url (String c url)) as [data|e]; [|reflexivity].
  cbn [fst]. intros Hother. specialize (Hother u).
  destruct data as [name [|category entries] goods].
  - destruct (objects_get_or_create Seller_objects (now request)
                [("name", VStr name); ("user_id", VInt (User_id u))] db)
      as [db1 [[seller created]|e]] eqn:G.
    + destruct (import_document_sellers request u name goods db Hok db1
                  seller created G) as (S & Hok1 & E & C).
      destruct (seller_step_owner _ _ _ _ _ _ _ G) as (I & _ & O).
      rewrite <- S in I.
      pose proof (Hother seller eq_refl I O) as Hne.
      rewrite E.
      pose proof (store_ok_without_listings (Seller_id seller) db1 Hok1)
        as HX.
      destruct (import_goods_run (now request) (Seller_id seller) goods _
                  HX) as (_ & _ & _ & _ & Fr).
      rewrite (Fr other) by congruence.
      rewrite catalog_without_listings_other;
        [apply C|apply Hok1|congruence].
    + rewrite import_document_without_categories, G.
      apply objects_get_or_create_raise in G. now subst.
  - pose proof (import_document_with_categories request u name category
                  entries goods db) as [_ [A B]].
    apply catalog_same; assumption.
Qed.

Lemma store_of_two_sellers_ok : store_ok store_of_two_sellers.
Proof.
  unfold store_ok, listings_ok, names_ok, below_next, parameters_point_back.
  simpl. repeat split; repeat constructor; simpl; intuition lia.
Defined.

Lemma import_keeps_other_catalogs_witness :
  let db' := fst (CatalogView_post (fun _ => None)
                    (fun _ => Ok document_of_goods) import_request
                    store_of_two_sellers) in
  store_ok store_of_two_sellers
  /\ catalog 2 db' = [(1, "H2", 4, 90, 95, 20, [])]
  /\ catalog 2 db' = catalog 2 store_of_two_sellers.
Proof.
  cbv zeta. split; [exact store_of_two_sellers_ok|].
  split; [reflexivity|].
  apply (import_keeps_other_catalogs (fun _ => None)
           (fun _ => Ok document_of_goods) import_request
           store_of_two_sellers 2 store_of_two_sellers_ok).
  intros u x U I O. injection U as <-. vm_compute in I.
  destruct I as [<-|[<-|[]]]; [simpl; lia|discriminate].
Defined.

(** ** The import of a catalog: the lines of orders *)

Lemma objects_create_store {T : Type} (O : ModelOps T) now kw db :
  fst (objects_create O now kw db) = db
  \/ exists t, fst (objects_create O now kw db) = store O t db.
Proof.
  destruct (objects_create O now kw db) as [db' [r|e]] eqn:C; cbn [fst].
  - apply objects_create_ok in C. destruct C as [-> _]. right; eauto.
  - apply objects_create_raise in C. subst. now left.
Qed.

Lemma import_parameters_keeps_lines now i items :
  forall db,
    order_items (fst (import_parameters now i items db)) = order_items db.
Proof.
  induction items as [|[n v] items IH]; intros db; [reflexivity|].
  cbn [import_parameters].
  pose proof (objects_get_or_create_store Parameter_objects now
                [("name", VStr n)] db) as S.
  destruct (objects_get_or_create Parameter_objects now _ db)
    as [db1 [[q b]|e]]; cbn [fst] in S.
  2:{ cbn [fst]. destruct S as [->|[t ->]]; reflexivity. }
  pose proof (objects_create_store ProductParameter_objects now
                [("product_info_id", VInt i);
                 ("parameter_id", VInt (Parameter_id q));
                 ("value", VStr v)] db1) as S2.
  destruct (objects_create ProductParameter_objects now _ db1)
    as [db2 [pp|e]]; cbn [fst] in S2.
  - rewrite IH.
    destruct S2 as [->|[t2 ->]]; destruct S as [->|[t ->]]; reflexivity.
  - cbn [fst].
    destruct S2 as [->|[t2 ->]]; destruct S as [->|[t ->]]; reflexivity.
Qed.

Lemma import_goods_keeps_lines now s goods :
  forall db,
    order_items (fst (import_goods now s goods db)) = order_items db.
Proof.
  induction goods as [|item goods IH]; intros db; [reflexivity|].
  cbn [import_goods].
  pose proof (objects_get_or_create_store Product_objects now
                [("name", VStr (good_name item));
                 ("category_id", VInt (good_category item))] db) as S.
  destruct (objects_get_or_create Product_objects now _ db)
    as [db1 [[p b]|e]]; cbn [fst] in S.
  2:{ cbn [fst]. destruct S as [->|[t ->]]; reflexivity. }
  pose proof (objects_create_store ProductInfo_objects now
                [("name", VStr (good_model item));
                 ("product_id", VInt (Product_id p));
                 ("seller_id", VInt s);
                 ("quantity", VInt (good_quantity item));
                 ("price", VInt (good_price item));
                 ("price_rrc", VInt (good_price_rrc item));
                 ("article", VInt (good_id item))] db1) as S2.
  destruct (objects_create ProductInfo_objects now _ db1)
    as [db2 [x|e]]; cbn [fst] in S2.
  2:{ cbn [fst].
      destruct S2 as [->|[t2 ->]]; destruct S as [->|[t ->]]; reflexivity. }
  pose proof (import_parameters_keeps_lines now (ProductInfo_id x)
                (good_parameters item) db2) as S3.
  destruct (import_parameters now (ProductInfo_id x) (good_parameters item)
              db2) as [db3 [[]|e]]; cbn [fst] in S3.
  - rewrite IH, S3.
    destruct S2 as [->|[t2 ->]]; destruct S as [->|[t ->]]; reflexivity.
  - cbn [fst]. rewrite S3.
    destruct S2 as [->|[t2 ->]]; destruct S as [->|[t ->]]; reflexivity.
Qed.

Lemma import_parameters_keeps_sellers now i items :
  forall db,
    sellers (fst (import_parameters now i items db)) = sellers db.
Proof.
  induction items as [|[n v] items IH]; intros db; [reflexivity|].
  cbn [import_parameters].
  pose proof (objects_get_or_create_store Parameter_objects now
                [("name", VStr n)] db) as S.
  destruct (objects_get_or_create Parameter_objects now _ db)
    as [db1 [[q b]|e]]; cbn [fst] in S.
  2:{ cbn [fst]. destruct S as [->|[t ->]]; reflexivity. }
  pose proof (objects_create_store ProductParameter_objects now
                [("product_info_id", VInt i);
                 ("parameter_id", VInt (Parameter_id q));
                 ("value", VStr v)] db1) as S2.
  destruct (objects_create ProductParameter_objects now _ db1)
    as [db2 [pp|e]]; cbn [fst] in S2.
  - rewrite IH.
    destruct S2 as [->|[t2 ->]]; destruct S as [->|[t ->]]; reflexivity.
  - cbn [fst].
    destruct S2 as [->|[t2 ->]]; destruct S as [->|[t ->]]; reflexivity.
Qed.

Lemma import_goods_keeps_sellers now s goods :
  forall db, sellers (fst (import_goods now s goods db)) = sellers db.
Proof.
  induction goods as [|item goods IH]; intros db; [reflexivity|].
  cbn [import_goods].
  pose proof (objects_get_or_create_store Product_objects now
                [("name", VStr (good_name item));
                 ("category_id", VInt (good_category item))] db) as S.
  destruct (objects_get_or_create Product_objects now _ db)
    as [db1 [[p b]|e]]; cbn [fst] in S.
  2:{ cbn [fst]. destruct S as [->|[t ->]]; reflexivity. }
  pose proof (objects_create_store ProductInfo_objects now
                [("name", VStr (good_model item));
                 ("product_id", VInt (Product_id p));
                 ("seller_id", VInt s);
                 ("quantity", VInt (good_quantity item));
                 ("price", VInt (good_price item));
                 ("price_rrc", VInt (good_price_rrc item));
                 ("article", VInt (good_id item))] db1) as S2.
  destruct (objects_create ProductInfo_objects now _ db1)
    as [db2 [x|e]]; cbn [fst] in S2.
  2:{ cbn [fst].
      destruct S2 as [->|[t2 ->]]; destruct S as [->|[t ->]]; reflexivity. }
  pose proof (import_parameters_keeps_sellers now (ProductInfo_id x)
                (good_parameters item) db2) as S3.
  destruct (import_parameters now (ProductInfo_id x) (good_parameters item)
              db2) as [db3 [[]|e]]; cbn [fst] in S3.
  - rewrite IH, S3.
    destruct S2 as [->|[t2 ->]]; destruct S as [->|[t ->]]; reflexivity.
  - cbn [fst]. rewrite S3.
    destruct S2 as [->|[t2 ->]]; destruct S as [->|[t ->]]; reflexivity.
Qed.

Lemma lines_without_listings s db :
  rows (order_items (without_listings s db))
  = filter (fun x => negb (on_listing_of s db x)) (rows (order_items db)).
Proof.
  cbn. apply filter_ext. intros x. f_equal. unfold on_listing_of.
  induction (rows (product_infos db)) as [|l ls IH]; [reflexivity|].
  cbn [filter existsb]. rewrite listed_by_filter.
  destruct (listed_by s l); cbn [map existsb andb orb].
  - rewrite IH. f_equal. apply Z.eqb_sym.
  - exact IH.
Qed.

(** X6.  A successful import of a document without categories deletes
    the lines of orders, of any user and in any state, that pointed to a
    listing the seller had before, and no other line; it creates and
    changes no line. *)
Theorem import_deletes_lines_on_old_listings
  (request : Request) (u : AuthUser) (name : string) (goods : list Good)
  (db db' : Database) (response : Response) :
  import_document request u (mkDocument name [] goods) db
  = (db', Ok response) ->
  exists seller,
    In seller (rows (sellers db'))
    /\ Seller_name seller = name
    /\ Seller_user_id seller = Some (User_id u)
    /\ rows (order_items db')
       = filter (fun x => negb (on_listing_of (Seller_id seller) db x))
                (rows (order_items db)).
Proof.
  rewrite import_document_without_categories.
  pose proof (objects_get_or_create_store Seller_objects (now request)
                [("name", VStr name); ("user_id", VInt (User_id u))] db)
    as S.
  destruct (objects_get_or_create Seller_objects (now request) _ db)
    as [db1 [[seller created]|e]] eqn:G; [|discriminate].
  cbn [fst] in S.
  destruct (seller_step_owner _ _ _ _ _ _ _ G) as (I & N & O).
  pose proof (import_goods_keeps_lines (now request) (Seller_id seller)
                goods (without_listings (Seller_id seller) db1)) as L.
  pose proof (import_goods_keeps_sellers (now request) (Seller_id seller)
                goods (without_listings (Seller_id seller) db1)) as SS.
  destruct (import_goods (now request) (Seller_id seller) goods
              (without_listings (Seller_id seller) db1))
    as [db4 [[]|e]]; [|discriminate].
  cbn [fst] in L, SS. intros H. injection H as <- _.
  exists seller. split; [now rewrite SS|]. split; [exact N|].
  split; [exact O|]. rewrite L, lines_without_listings.
  destruct S as [->|[t ->]]; reflexivity.
Qed.

(** In the example store all three lines, two of the basket of user 3
    and one of the basket of user 4, point to the listings of the
    seller, and the import deletes them. *)
Lemma import_deletes_lines_on_old_listings_witness :
  let r := import_document import_request a_seller document_of_goods
             example_store in
  r = (fst r, Ok (JsonResponse [("Status", JBool true)] 200))
  /\ rows (order_items (fst r)) = []
  /\ exists seller,
      In seller (rows (sellers (fst r)))
      /\ Seller_name seller = "Acme"
      /\ Seller_user_id seller = Some (User_id a_seller)
      /\ rows (order_items (fst r))
         = filter (fun x => negb (on_listing_of (Seller_id seller)
                                    example_store x))
                  (rows (order_items example_store)).
Proof.
  cbv zeta. split; [vm_compute; reflexivity|].
  split; [vm_compute; reflexivity|].
  apply (import_deletes_lines_on_old_listings import_request a_seller
           "Acme" (document_goods document_of_goods) example_store
           (fst (import_document import_request a_seller document_of_goods
                   example_store))
           (JsonResponse [("Status", JBool true)] 200)).
  vm_compute. reflexivity.
Defined.

(** ** The import of a catalog: one seller for a user *)

Lemma Seller_same_user nid uid n x :
  Seller_user_id x = Some uid ->
  same_in Seller_objects "user_id"
          (mkSeller nid (Some uid) n true None) x = true.
Proof.
  destruct x as [xi xu xn xs xurl]. cbn [Seller_user_id]. intros ->.
  cbn. apply Z.eqb_refl.
Qed.

(** X7.  A user who owns a seller cannot import a catalog under another
    seller name: the lookup by name and user finds nothing, the creation
    of a second seller for the user violates the one-to-one relation,
    and the import raises [IntegrityError] with the store unchanged. *)
Theorem import_under_second_name_fails
  (request : Request) (u : AuthUser) (data : Document) (db : Database)
  (owned : Seller) :
  In owned (rows (sellers db)) ->
  Seller_user_id owned = Some (User_id u) ->
  sellers_named (document_seller data) (User_id u) db = [] ->
  import_document request u data db
  = (db, Raise (IntegrityError "UNIQUE constraint failed")).
Proof.
  intros I O N. unfold import_document, objects_get_or_create, objects_get.
  rewrite sellers_named_filter, N, Seller_create.
  replace (violates_unique Seller_objects
             (mkSeller (next_id (sellers db)) (Some (User_id u))
                (document_seller data) true None) (rows (sellers db)))
    with true; [reflexivity|].
  symmetry. unfold violates_unique.
  change (unique_columns (model Seller_objects)) with ["user_id"].
  cbn [existsb]. apply orb_true_iff. right. apply orb_true_iff. left.
  apply existsb_exists. exists owned. split; [exact I|].
  now apply Seller_same_user.
Qed.

Lemma import_under_second_name_fails_witness :
  In (mkSeller 1 (Some 7) "Acme" true None) (rows (sellers example_store))
  /\ import_document import_request a_seller
       (mkDocument "Apex" [] []) example_store
     = (example_store, Raise (IntegrityError "UNIQUE constraint failed")).
Proof.
  split; [now left|].
  apply (import_under_second_name_fails import_request a_seller
           (mkDocument "Apex" [] []) example_store
           (mkSeller 1 (Some 7) "Acme" true None));
    [now left|reflexivity|reflexivity].
Defined.

(** ** The import of a catalog: the names stay unique *)

Lemma import_document_names request u name category entries goods db :
  let r := import_document request u
             (mkDocument name (category :: entries) goods) db in
  products (fst r) = products db /\ parameters (fst r) = parameters db.
Proof.
  cbv zeta. unfold import_document.
  cbn [document_seller document_categories document_goods].
  pose proof (objects_get_or_create_store Seller_objects (now request)
                [("name", VStr name); ("user_id", VInt (User_id u))] db)
    as S.
  destruct (objects_get_or_create Seller_objects (now request) _ db)
    as [db1 [[seller b]|e]]; cbn [fst snd] in *.
  - rewrite import_categories_first.
    pose proof (objects_get_or_create_store Category_objects (now request)
                  [("id", VInt (category_id category));
                   ("name", VStr (category_name category))] db1) as S1.
    destruct (objects_get_or_create Category_objects (now request) _ db1)
      as [db2 [[c b']|e]]; cbn [fst] in *;
      destruct S1 as [->|[t1 ->]]; destruct S as [->|[t ->]];
      split; reflexivity.
  - destruct S as [->|[t ->]]; split; reflexivity.
Qed.

(** X8.  The import never makes a second product of a name and a
    category, nor a second parameter of a name: in a well-formed store
    where these are unique, they are unique after the call, whatever
    the document and however the call ends. *)
Theorem import_keeps_names_unique
  (validate_url : string -> option string)
  (load_url : string -> Result Document)
  (request : Request) (db : Database) :
  store_ok db -> keys_unique db ->
  keys_unique (fst (CatalogView_post validate_url load_url request db)).
Proof.
  intros Hok Hu. unfold CatalogView_post.
  destruct (user request) as [u|]; [|exact Hu].
  destruct (negb (String.eqb (User_type u) "seller")); [exact Hu|].
  destruct (assoc "url" (data request)) as [[|c url]|]; try exact Hu.
  destruct (validate_url (String c url)); [exact Hu|].
  destruct (load_url (String c url)) as [data|e]; [|exact Hu].
  cbn [fst]. destruct data as [name [|category entries] goods].
  - destruct (objects_get_or_create Seller_objects (now request)
                [("name", VStr name); ("user_id", VInt (User_id u))] db)
      as [db1 [[seller created]|e]] eqn:G.
    + destruct (import_document_sellers request u name goods db Hok db1
                  seller created G) as (_ & Hok1 & E & _).
      rewrite E.
      pose proof (seller_step_frame (now request)
                    [("name", VStr name); ("user_id", VInt (User_id u))]
                    db) as Fr.
      cbv zeta in Fr. rewrite G in Fr. cbn [fst] in Fr.
      destruct Fr as (_ & _ & F3 & F4).
      pose proof (keys_unique_same db db1 F3 F4 Hu) as Hu1.
      assert (Hu2 : keys_unique (without_listings (Seller_id seller) db1))
        by exact Hu1.
      apply (import_goods_described (now request) (Seller_id seller) goods
               _ (store_ok_without_listings _ _ Hok1) Hu2).
    + rewrite import_document_without_categories, G.
      apply objects_get_or_create_raise in G. now subst.
  - destruct (import_document_names request u name category entries goods
                db) as [A B].
    exact (keys_unique_same db _ A B Hu).
Qed.

Lemma import_keeps_names_unique_witness :
  store_ok example_store
  /\ keys_unique example_store
  /\ keys_unique (fst (CatalogView_post (fun _ => None)
                         (fun _ => Ok document_of_goods) import_request
                         example_store)).
Proof.
  split; [exact example_store_ok|].
  split; [exact example_store_keys_unique|].
  apply (import_keeps_names_unique (fun _ => None)
           (fun _ => Ok document_of_goods) import_request example_store
           example_store_ok example_store_keys_unique).
Defined.

(** ** The listings of products *)

Lemma seller_state_joined db k (l : list Seller) :
  existsb (Value_eqb (VBool true))
          (flat_map (reach db [SColumn "state"])
             (filter (fun r' => Value_eqb (col_value r' "id") (VInt k))
                     (map (fun r c => Seller_column c r) l)))
  = existsb (fun s => (Seller_id s =? k) && Seller_state s) l.
Proof.
  induction l as [|a l IH]; [reflexivity|].
  cbn [map filter existsb].
  change (col_value (fun c => Seller_column c a) "id")
    with (VInt (Seller_id a)).
  cbn [Value_eqb]. destruct (Seller_id a =? k); cbn [andb orb]; [|exact IH].
  cbn [flat_map]. 
  change (reach db [SColumn "state"] (fun c => Seller_column c a))
    with [VBool (Seller_state a)].
  cbn [app existsb Value_eqb]. rewrite IH.
  destruct (Seller_state a); reflexivity.
Qed.

Lemma product_category_joined db k v (l : list Product) :
  existsb (Value_eqb (VInt v))
          (flat_map (reach db [SColumn "category_id"])
             (filter (fun r' => Value_eqb (col_value r' "id") (VInt k))
                     (map (fun r c => Product_column c r) l)))
  = existsb (fun p => (Product_id p =? k) && (v =? Product_category_id p)) l.
Proof.
  induction l as [|a l IH]; [reflexivity|].
  cbn [map filter existsb].
  change (col_value (fun c => Product_column c a) "id")
    with (VInt (Product_id a)).
  cbn [Value_eqb]. destruct (Product_id a =? k); cbn [andb orb]; [|exact IH].
  cbn [flat_map].
  change (reach db [SColumn "category_id"] (fun c => Product_column c a))
    with [VInt (Product_category_id a)].
  cbn [app existsb Value_eqb]. now rewrite IH.
Qed.

Lemma holds_seller_state db x :
  holds db (grow ProductInfo_objects x)
        ([SForward "seller_id" MSeller; SColumn "state"], VBool true)
  = takes_orders db x.
Proof.
  unfold takes_orders.
  rewrite <- (seller_state_joined db (ProductInfo_seller_id x)).
  reflexivity.
Qed.

Lemma holds_seller_id db x v :
  holds db (grow ProductInfo_objects x) ([SColumn "seller_id"], VInt v)
  = (v =? ProductInfo_seller_id x).
Proof.
  change (holds db (grow ProductInfo_objects x)
                ([SColumn "seller_id"], VInt v))
    with ((v =? ProductInfo_seller_id x) || false).
  apply orb_false_r.
Qed.

Lemma holds_product_category db x v :
  holds db (grow ProductInfo_objects x)
        ([SForward "product_id" MProduct; SColumn "category_id"], VInt v)
  = in_category db v x.
Proof.
  unfold in_category.
  rewrite <- (product_category_joined db (ProductInfo_product_id x)).
  reflexivity.
Qed.

Lemma resolve_seller_state :
  resolve_condition MProductInfo ("seller__state", VBool true)
  = Ok ([SForward "seller_id" MSeller; SColumn "state"], VBool true).
Proof. reflexivity. Qed.

Lemma resolve_seller_id s :
  resolve_condition MProductInfo ("seller_id", VStr s)
  = if isdigit s then Ok ([SColumn "seller_id"], VInt (int_of_digits s))
    else Raise ValueError.
Proof.
  change (resolve_condition MProductInfo ("seller_id", VStr s))
    with (match (if isdigit s then Some (VInt (int_of_digits s))
                 else None) with
          | Some v => Ok ([SColumn "seller_id"], v)
          | None => Raise ValueError
          end : Result Condition).
  destruct (isdigit s); reflexivity.
Qed.

Lemma resolve_product_category s :
  resolve_condition MProductInfo ("product__category_id", VStr s)
  = if isdigit s
    then Ok ([SForward "product_id" MProduct; SColumn "category_id"],
             VInt (int_of_digits s))
    else Raise ValueError.
Proof.
  change (resolve_condition MProductInfo ("product__category_id", VStr s))
    with (match (if isdigit s then Some (VInt (int_of_digits s))
                 else None) with
          | Some v =>
              Ok ([SForward "product_id" MProduct; SColumn "category_id"], v)
          | None => Raise ValueError
          end : Result Condition).
  destruct (isdigit s); reflexivity.
Qed.

Lemma related_names_resolve {T : Type} (qs : Result (T -> bool)) :
  prefetch_related MProductInfo ["product_parameters__parameter"]
    (select_related MProductInfo ["seller"; "product__category"] qs)
  = qs.
Proof. destruct qs; reflexivity. Qed.

Lemma ProductInfo_eqb_eq a b :
  ProductInfo_eqb a b = true -> a = b.
Proof.
  unfold ProductInfo_eqb. destruct a, b. cbn.
  rewrite !andb_true_iff, !Z.eqb_eq, String.eqb_eq.
  intros [[[[[[[-> ->] ->] ->] ->] ->] ->] ->]. reflexivity.
Qed.

Lemma distinct_listings_NoDup l :
  NoDup (map ProductInfo_id l) -> distinct_listings l = l.
Proof.
  induction l as [|x l IH]; [reflexivity|]. cbn [map distinct_listings].
  intros H. inversion H as [|? ? Hx Hl]; subst. rewrite (IH Hl). f_equal.
  rewrite <- (filter_ext_in (fun _ => true)).
  - clear. induction l; cbn; congruence.
  - intros y Hy. symmetry. apply negb_true_iff.
    destruct (ProductInfo_eqb x y) eqn:E; [|reflexivity].
    apply ProductInfo_eqb_eq in E. subst y. exfalso. apply Hx.
    now apply in_map.
Qed.

Lemma distinct_listings_In l x :
  In x (distinct_listings l) -> In x l.
Proof.
  revert x. induction l as [|a l IH]; intros x; cbn; [auto|].
  intros [->|H]; [now left|]. apply filter_In in H. right. apply IH, H.
Qed.

(** The rows that the model of [ProductInfoView.get] selects, in the
    order of the table, which stands for the order of the database. *)
Lemma ProductInfoView_get_selects
  (query_params : list (string * string)) (db : Database) :
  digits_if_given "seller_id" query_params ->
  digits_if_given "category_id" query_params ->
  NoDup (map ProductInfo_id (rows (product_infos db))) ->
  ProductInfoView_get query_params db
  = Ok (filter (asked_for query_params db) (rows (product_infos db))).
Proof.
  unfold digits_if_given, ProductInfoView_get, asked_for.
  intros Hs Hc ND. cbv zeta. rewrite related_names_resolve.
  unfold filter_kwargs. change (model ProductInfo_objects) with MProductInfo.
  assert (D : forall p,
             distinct_listings (filter p (rows (product_infos db)))
             = filter p (rows (product_infos db))).
  { intros p. apply distinct_listings_NoDup. now apply NoDup_map_filter. }
  destruct (assoc "seller_id" query_params) as [[|a s]|];
    destruct (assoc "category_id" query_params) as [[|b c]|];
    cbn [app mapM];
    rewrite resolve_seller_state;
    rewrite ?resolve_seller_id, ?resolve_product_category, ?Hs, ?Hc;
    cbn [mapM]; rewrite D; f_equal; apply filter_ext; intros x;
    cbn [forallb];
    rewrite holds_seller_state, ?holds_seller_id, ?holds_product_category;
    rewrite ?andb_true_r, ?andb_assoc; reflexivity.
Qed.

Lemma key_if_given_digits field l :
  key_if_given field l -> digits_if_given field l.
Proof.
  unfold key_if_given, digits_if_given.
  destruct (assoc field l) as [[|c s]|]; tauto.
Qed.

(** X9.  [ProductInfoView.get] hands to the serializer, in some order
    and each once, the listings whose seller takes orders, which belong
    to the seller of the field [seller_id] if it is given, and whose
    product is of the category of the field [category_id] if it is
    given; it hands over no other row.  A field that is given is a
    string of ASCII digits that reads as a number of at most
    9223372036854775807, and the keys of the listings are unique. *)
Theorem ProductInfoView_get_lists_offers
  (query_params : list (string * string)) (db : Database) :
  key_if_given "seller_id" query_params ->
  key_if_given "category_id" query_params ->
  NoDup (map ProductInfo_id (rows (product_infos db))) ->
  exists listed,
    ProductInfoView_get query_params db = Ok listed
    /\ NoDup (map ProductInfo_id listed)
    /\ forall x,
        In x listed
        <-> In x (rows (product_infos db))
            /\ asked_for query_params db x = true.
Proof.
  intros Hs Hc ND.
  exists (filter (asked_for query_params db) (rows (product_infos db))).
  split.
  - apply ProductInfoView_get_selects;
      [now apply key_if_given_digits|now apply key_if_given_digits|exact ND].
  - split; [now apply NoDup_map_filter|]. intros x. apply filter_In.
Qed.

Lemma ProductInfoView_get_lists_offers_witness :
  let query_params := [("seller_id", "1"); ("category_id", "1")] in
  key_if_given "seller_id" query_params
  /\ key_if_given "category_id" query_params
  /\ ProductInfoView_get query_params example_store
     = Ok (rows (product_infos example_store))
  /\ exists listed,
      ProductInfoView_get query_params example_store = Ok listed
      /\ NoDup (map ProductInfo_id listed)
      /\ forall x,
          In x listed
          <-> In x (rows (product_infos example_store))
              /\ asked_for query_params example_store x = true.
Proof.
  cbv zeta.
  assert (K : key_if_given "seller_id"
                [("seller_id", "1"); ("category_id", "1")]).
  { unfold key_if_given, max_integer. simpl. split; [reflexivity|].
    vm_compute. discriminate. }
  assert (K' : key_if_given "category_id"
                 [("seller_id", "1"); ("category_id", "1")]).
  { unfold key_if_given, max_integer. simpl. split; [reflexivity|].
    vm_compute. discriminate. }
  split; [exact K|]. split; [exact K'|]. split; [vm_compute; reflexivity|].
  apply (ProductInfoView_get_lists_offers
           [("seller_id", "1"); ("category_id", "1")] example_store K K').
  simpl. repeat constructor; simpl; intuition lia.
Defined.

Lemma filter_seller_state rest db p x :
  filter_kwargs ProductInfo_objects
    (("seller__state", VBool true) :: rest) db = Ok p ->
  p x = true -> takes_orders db x = true.
Proof.
  unfold filter_kwargs. change (model ProductInfo_objects) with MProductInfo.
  cbn [mapM]. rewrite resolve_seller_state.
  destruct (mapM (resolve_condition MProductInfo) rest) as [conds|e];
    [|discriminate].
  intros H. injection H as <-. cbn [forallb].
  rewrite holds_seller_state. intros H. now apply andb_true_iff in H.
Qed.

(** X10.  Whatever the fields of the query, [ProductInfoView.get] never
    lists a listing whose seller does not take orders, nor a row that is
    not in the table of the listings. *)
Theorem ProductInfoView_get_lists_open_sellers_only
  (query_params : list (string * string)) (db : Database)
  (listed : list ProductInfo) (x : ProductInfo) :
  ProductInfoView_get query_params db = Ok listed ->
  In x listed ->
  In x (rows (product_infos db)) /\ takes_orders db x = true.
Proof.
  unfold ProductInfoView_get. cbv zeta. rewrite related_names_resolve.
  set (query :=
         match assoc "category_id" query_params with
         | Some (String _ _ as category_id) =>
             match assoc "seller_id" query_params with
             | Some (String _ _ as seller_id) =>
                 [("seller__state", VBool true)]
                 ++ [("seller_id", VStr seller_id)]
             | _ => [("seller__state", VBool true)]
             end ++ [("product__category_id", VStr category_id)]
         | _ =>
             match assoc "seller_id" query_params with
             | Some (String _ _ as seller_id) =>
                 [("seller__state", VBool true)]
                 ++ [("seller_id", VStr seller_id)]
             | _ => [("seller__state", VBool true)]
             end
         end).
  assert (Q : exists rest, query = ("seller__state", VBool true) :: rest).
  { unfold query.
    destruct (assoc "seller_id" query_params) as [[|a s]|];
      destruct (assoc "category_id" query_params) as [[|b c]|];
      cbn [app]; eauto. }
  destruct Q as [rest ->].
  destruct (filter_kwargs ProductInfo_objects _ db) as [p|e] eqn:F;
    [|discriminate].
  intros H. injection H as <-. intros I.
  apply distinct_listings_In, filter_In in I. destruct I as [I P].
  split; [exact I|]. exact (filter_seller_state rest db p x F P).
Qed.

(** A seller that does not take orders has no listing in the answer. *)
Lemma ProductInfoView_get_lists_open_sellers_only_witness :
  let closed :=
    set_sellers (mkTable [mkSeller 1 (Some 7) "Acme" false None] 2)
                example_store in
  ProductInfoView_get [] example_store
  = Ok (rows (product_infos example_store))
  /\ ProductInfoView_get [] closed = Ok []
  /\ In (mkProductInfo 1 "H1" 1 1 5 100 120 10)
        (rows (product_infos example_store))
  /\ takes_orders example_store (mkProductInfo 1 "H1" 1 1 5 100 120 10)
     = true.
Proof.
  cbv zeta. split; [reflexivity|]. split; [reflexivity|].
  apply (ProductInfoView_get_lists_open_sellers_only [] example_store
           (rows (product_infos example_store))
           (mkProductInfo 1 "H1" 1 1 5 100 120 10));
    [reflexivity|simpl; auto].
Defined.

(** ** The state of a seller *)

Lemma owned_by_eq uid r :
  owned_by uid r = true <-> Seller_user_id r = Some uid.
Proof.
  unfold owned_by. rewrite orb_false_r, andb_true_r.
  destruct (Seller_user_id r) as [i|]; cbn; [|split; discriminate].
  rewrite Z.eqb_eq. split; congruence.
Qed.

Lemma Seller_user_filter uid db :
  filter_kwargs Seller_objects [("user_id", VInt uid)] db
  = Ok (owned_by uid).
Proof. reflexivity. Qed.

Lemma Seller_state_update uid b db :
  update Seller_objects (Ok (owned_by uid)) [("state", VBool b)] db
  = (set_sellers
       (mkTable (map (fun r => if owned_by uid r
                               then mkSeller (Seller_id r) (Seller_user_id r)
                                      (Seller_name r) b (Seller_url r)
                               else r) (rows (sellers db)))
                (next_id (sellers db))) db,
     Ok (Z.of_nat (List.length (filter (owned_by uid)
                                       (rows (sellers db)))))).
Proof. reflexivity. Qed.

Lemma restated_refl uid x : restated uid x x.
Proof. unfold restated. repeat split; congruence. Qed.

Lemma Forall2_restated_refl uid l : Forall2 (restated uid) l l.
Proof. induction l; constructor; auto using restated_refl. Qed.

Lemma restated_update uid b l :
  Forall2 (restated uid) l
    (map (fun r => if owned_by uid r
                   then mkSeller (Seller_id r) (Seller_user_id r)
                          (Seller_name r) b (Seller_url r)
                   else r) l).
Proof.
  induction l as [|x l IH]; cbn [map]; constructor; [|exact IH].
  destruct (owned_by uid x) eqn:E; [|apply restated_refl].
  apply owned_by_eq in E. unfold restated. cbn. auto.
Qed.

(** X11.  A seller who posts a word that [strtobool] knows is answered
    with [Status: True], and every seller row of the caller then has the
    state the word stands for; a caller without a seller row gets the
    same answer. *)
Theorem SellerStateView_post_sets_state
  (repr : string -> string) (mapper_error : string)
  (request : Request) (u : AuthUser) (c : ascii) (s : string) (n : Z)
  (db : Database) :
  user request = Some u -> User_type u = "seller" ->
  assoc "state" (data request) = Some (String c s) ->
  strtobool (String c s) = Some n ->
  let r := SellerStateView_post repr mapper_error request db in
  snd r = Ok (JsonResponse [("Status", JBool true)] 200)
  /\ List.length (rows (sellers (fst r)))
     = List.length (rows (sellers db))
  /\ forall x, In x (rows (sellers (fst r))) ->
               Seller_user_id x = Some (User_id u) ->
               Seller_state x = (n =? 1).
Proof.
  intros U T A S. cbv zeta. unfold SellerStateView_post.
  rewrite U, T, A. cbn [String.eqb Ascii.eqb Bool.eqb negb].
  rewrite Seller_user_filter, S. unfold to_python_bool.
  rewrite Seller_state_update. cbn [fst snd sellers set_sellers rows].
  split; [reflexivity|]. split; [apply length_map|].
  intros x I O. apply in_map_iff in I. destruct I as [y [E I]].
  destruct (owned_by (User_id u) y) eqn:W; subst x; [reflexivity|].
  apply owned_by_eq in O. congruence.
Qed.

Lemma SellerStateView_post_sets_state_witness :
  let r := SellerStateView_post repr_plain "" (state_request "OFF")
             store_of_two_sellers in
  strtobool "OFF" = Some 0
  /\ map Seller_state (rows (sellers (fst r))) = [false; true]
  /\ snd r = Ok (JsonResponse [("Status", JBool true)] 200)
  /\ List.length (rows (sellers (fst r)))
     = List.length (rows (sellers store_of_two_sellers))
  /\ forall x, In x (rows (sellers (fst r))) ->
               Seller_user_id x = Some (User_id a_seller) ->
               Seller_state x = (0 =? 1).
Proof.
  cbv zeta. split; [reflexivity|]. split; [reflexivity|].
  apply (SellerStateView_post_sets_state repr_plain "" (state_request "OFF")
           a_seller "O"%char "FF" 0 store_of_two_sellers);
    reflexivity.
Defined.

(** X12.  Whatever the request, [SellerStateView.post] changes nothing
    but the state of sellers: every table but that of the sellers is as
    before, no seller is added or removed, and a seller whose state
    changed belongs to the caller, who is of the type [seller]. *)
Theorem SellerStateView_post_changes_own_state_only
  (repr : string -> string) (mapper_error : string)
  (request : Request) (db : Database) :
  let db' := fst (SellerStateView_post repr mapper_error request db) in
  db' = set_sellers (sellers db') db
  /\ next_id (sellers db') = next_id (sellers db)
  /\ exists uid,
      Forall2 (restated uid) (rows (sellers db)) (rows (sellers db'))
      /\ (rows (sellers db') = rows (sellers db)
          \/ exists u, user request = Some u /\ User_id u = uid
                       /\ User_type u = "seller").
Proof.
  cbv zeta. unfold SellerStateView_post.
  assert (Same : db = set_sellers (sellers db) db
                 /\ next_id (sellers db) = next_id (sellers db)
                 /\ exists uid,
                     Forall2 (restated uid) (rows (sellers db))
                             (rows (sellers db))
                     /\ (rows (sellers db) = rows (sellers db)
                         \/ exists u, user request = Some u
                                      /\ User_id u = uid
                                      /\ User_type u = "seller")).
  { split; [now destruct db|]. split; [reflexivity|]. exists 0.
    split; [apply Forall2_restated_refl|now left]. }
  destruct (user request) as [u|]; [|exact Same].
  destruct (negb (String.eqb (User_type u) "seller")) eqn:T; [exact Same|].
  apply negb_false_iff, String.eqb_eq in T.
  destruct (assoc "state" (data request)) as [[|c s]|]; try exact Same.
  rewrite Seller_user_filter.
  destruct (strtobool (String c s)) as [n|]; [|exact Same].
  unfold to_python_bool. rewrite Seller_state_update.
  cbn [fst sellers set_sellers rows next_id].
  split; [reflexivity|]. split; [reflexivity|]. exists (User_id u).
  split; [apply restated_update|]. right. eauto.
Qed.

(** X13.  [SellerStateView.get] answers no seller: the account has no
    relation named [sellers], the one-to-one relation of [Seller.user]
    being reachable from the account as [seller], and the handler raises
    [AttributeError] whatever the store holds. *)
Theorem SellerStateView_get_raises_AttributeError
  (request : Request) (db : Database) :
  SellerStateView_get request db
  = match user request with
    | None => Ok (inl log_in_required)
    | Some u =>
        if String.eqb (User_type u) "seller" then Raise AttributeError
        else Ok (inl only_for_sellers)
    end
  /\ resolve_name MUser "sellers" = None
  /\ resolve_name MUser "seller" = Some (SReverse MSeller "user_id").
Proof.
  split; [|split; reflexivity].
  unfold SellerStateView_get. destruct (user request) as [u|]; [|reflexivity].
  destruct (String.eqb (User_type u) "seller"); reflexivity.
Qed.

(** ** The contacts: deleting *)

Lemma contact_query_eq u l q b :
  contact_query u l q b
  = (q ++ map (contact_keywords u) (filter isdigit l),
     b || existsb isdigit l).
Proof.
  revert q b. induction l as [|s l IH]; intros q b; cbn [contact_query].
  - cbn. now rewrite app_nil_r, orb_false_r.
  - cbn [filter existsb]. destruct (isdigit s).
    + rewrite IH. cbn [map]. rewrite <- app_assoc. cbn [app].
      now rewrite orb_true_r.
    + rewrite IH. reflexivity.
Qed.

Lemma resolve_contact_keywords u s :
  isdigit s = true ->
  mapM (resolve_condition MContact) (contact_keywords u s)
  = Ok (contact_conditions u s).
Proof.
  intros E. unfold contact_keywords, contact_conditions. cbn [mapM].
  change (resolve_condition MContact ("user_id", VInt (User_id u)))
    with (Ok ([SColumn "user_id"], VInt (User_id u)) : Result Condition).
  change (resolve_condition MContact ("id", VStr s))
    with (match (if isdigit s then Some (VInt (int_of_digits s))
                 else None) with
          | Some v => Ok ([SColumn "id"], v)
          | None => Raise ValueError
          end : Result Condition).
  rewrite E. reflexivity.
Qed.

Lemma resolve_contact_query u ds :
  Forall (fun s => isdigit s = true) ds ->
  mapM (fun kw => mapM (resolve_condition MContact) kw)
       (map (contact_keywords u) ds)
  = Ok (map (contact_conditions u) ds).
Proof.
  induction 1 as [|s ds Hs _ IH]; [reflexivity|].
  cbn [map mapM]. rewrite (resolve_contact_keywords u s Hs), IH.
  reflexivity.
Qed.

Lemma contact_conditions_hold db u s x :
  forallb (holds db (fun c => Contact_column c x)) (contact_conditions u s)
  = (User_id u =? Contact_user_id x) && (int_of_digits s =? Contact_id x).
Proof.
  change (forallb (holds db (fun c => Contact_column c x))
                  (contact_conditions u s))
    with (((User_id u =? Contact_user_id x) || false)
          && (((int_of_digits s =? Contact_id x) || false) && true)).
  now rewrite !orb_false_r, andb_true_r.
Qed.

Lemma filter_contacts_named u items db :
  existsb isdigit (str_split "," items) = true ->
  exists p,
    filter_contacts
      (map (contact_keywords u) (filter isdigit (str_split "," items))) db
    = Ok p
    /\ forall x, p x = named_contact (User_id u) items x.
Proof.
  intros E. apply existsb_isdigit_filter in E. unfold filter_contacts.
  rewrite (resolve_contact_query u _
             (filter_isdigit_Forall (str_split "," items))).
  unfold named_contact, listed_ids.
  destruct (filter isdigit (str_split "," items)) as [|s ds];
    [congruence|].
  cbn [map]. eexists. split; [reflexivity|]. intros x.
  change (contact_conditions u s :: map (contact_conditions u) ds)
    with (map (contact_conditions u) (s :: ds)).
  change (int_of_digits s :: map int_of_digits ds)
    with (map int_of_digits (s :: ds)).
  generalize (s :: ds). clear. intros l.
  induction l as [|s' l IH]; cbn [map existsb].
  - now rewrite andb_false_r.
  - rewrite IH, contact_conditions_hold, (Z.eqb_sym (Contact_id x)).
    destruct (User_id u =? Contact_user_id x); reflexivity.
Qed.

Lemma dead_order_named uid items contacts p o :
  (forall x, p x = named_contact uid items x) ->
  existsb (Z.eqb (Order_user_id o))
          (map Contact_id (filter p (rows contacts)))
  = order_of_named uid items contacts o.
Proof.
  intros P. unfold order_of_named.
  induction (rows contacts) as [|c l IH]; [reflexivity|].
  cbn [filter existsb]. rewrite P.
  destruct (named_contact uid items c); cbn [map existsb andb orb].
  - rewrite IH. f_equal. apply Z.eqb_sym.
  - exact IH.
Qed.

Lemma dead_item_named uid items contacts db (d : Order -> bool) x :
  (forall o, d o = order_of_named uid items contacts o) ->
  existsb (Z.eqb (OrderItem_order_id x))
          (map Order_id (filter d (rows (orders db))))
  = line_of_named uid items contacts db x.
Proof.
  intros D. unfold line_of_named.
  induction (rows (orders db)) as [|o l IH]; [reflexivity|].
  cbn [filter existsb]. rewrite D.
  destruct (order_of_named uid items contacts o);
    cbn [map existsb andb orb].
  - rewrite IH. f_equal. apply Z.eqb_sym.
  - exact IH.
Qed.

(** The store after [ContactView.delete]. *)
Lemma ContactView_delete_store request contacts db :
  let r := ContactView_delete request contacts db in
  (fst r = (contacts, db)
   /\ forall n, snd r <> Ok (JsonResponse
                               [("Status", JBool true);
                                ("Deleted objects", JInt n)] 200))
  \/ exists u items,
      user request = Some u
      /\ assoc "items" (data request) = Some items
      /\ rows (fst (fst r))
         = filter (fun c => negb (named_contact (User_id u) items c))
                  (rows contacts)
      /\ next_id (fst (fst r)) = next_id contacts
      /\ snd (fst r)
         = set_orders
             (mkTable
                (filter (fun o => negb (order_of_named (User_id u) items
                                          contacts o))
                        (rows (orders db)))
                (next_id (orders db)))
             (set_order_items
                (mkTable
                   (filter (fun x => negb (line_of_named (User_id u) items
                                             contacts db x))
                           (rows (order_items db)))
                   (next_id (order_items db))) db)
      /\ snd r
         = Ok (JsonResponse
                 [("Status", JBool true);
                  ("Deleted objects",
                   JInt (Z.of_nat
                           (List.length
                              (filter (named_contact (User_id u) items)
                                      (rows contacts))
                            + List.length
                                (filter (order_of_named (User_id u) items
                                           contacts)
                                        (rows (orders db)))
                            + List.length
                                (filter (line_of_named (User_id u) items
                                           contacts db)
                                        (rows (order_items db))))))] 200).
Proof.
  cbv zeta. unfold ContactView_delete.
  destruct (user request) as [u|];
    [|left; split; [reflexivity|discriminate]].
  destruct (assoc "items" (data request)) as [[|c s]|] eqn:A;
    try (left; split; [reflexivity|discriminate]).
  rewrite contact_query_eq. cbn [app orb].
  destruct (existsb isdigit (str_split "," (String c s))) eqn:E;
    [|left; split; [reflexivity|discriminate]].
  destruct (filter_contacts_named u (String c s) db E) as [p [Hp Hpx]].
  rewrite Hp. right. exists u, (String c s).
  split; [reflexivity|]. split; [reflexivity|].
  cbn [delete_contacts fst snd rows next_id orders set_order_items].
  assert (DO : forall o,
             existsb (Z.eqb (Order_user_id o))
                     (map Contact_id (filter p (rows contacts)))
             = order_of_named (User_id u) (String c s) contacts o).
  { intros o. apply dead_order_named. exact Hpx. }
  assert (DI : forall x,
             existsb (Z.eqb (OrderItem_order_id x))
               (map Order_id
                  (filter (fun o => existsb (Z.eqb (Order_user_id o))
                                      (map Contact_id
                                         (filter p (rows contacts))))
                          (rows (orders db))))
             = line_of_named (User_id u) (String c s) contacts db x).
  { intros x. apply dead_item_named. exact DO. }
  split; [apply filter_ext; intros x; now rewrite Hpx|].
  split; [reflexivity|].
  split.
  - f_equal.
    + f_equal. apply filter_ext. intros o. now rewrite DO.
    + f_equal. f_equal. apply filter_ext. intros x. now rewrite DI.
  - rewrite (filter_ext _ _ DI), (filter_ext _ _ DO), (filter_ext _ _ Hpx).
    reflexivity.
Qed.

(** X14.  A contact that [ContactView.delete] removes belongs to the
    caller: the contacts of other users stay, whatever the list names.
    For a list of ASCII characters, the key of a removed contact is the
    number of an entry of the list that is made of digits. *)
Theorem ContactView_delete_only_own_listed_contacts
  (request : Request) (contacts : Table Contact) (db : Database)
  (c : Contact) :
  In c (rows contacts) ->
  ~ In c (rows (fst (fst (ContactView_delete request contacts db)))) ->
  exists u items,
    user request = Some u
    /\ assoc "items" (data request) = Some items
    /\ Contact_user_id c = User_id u
    /\ (is_ascii items = true -> In (Contact_id c) (listed_ids items)).
Proof.
  intros Hc Hgone.
  destruct (ContactView_delete_store request contacts db)
    as [[E _]|(u & items & U & A & R & _)].
  - rewrite E in Hgone. contradiction.
  - exists u, items. split; [exact U|]. split; [exact A|].
    rewrite R in Hgone.
    destruct (named_contact (User_id u) items c) eqn:D.
    + apply andb_true_iff in D. destruct D as [D1 D2].
      apply Z.eqb_eq in D1. split; [congruence|]. intros _.
      apply existsb_exists in D2. destruct D2 as [i [Hi1 Hi2]].
      apply Z.eqb_eq in Hi2. now subst.
    + exfalso. apply Hgone. apply filter_In. split; [exact Hc|].
      now rewrite D.
Qed.

(** User 4 names the contacts 1 and 3; contact 1, of user 3, stays. *)
Lemma ContactView_delete_only_own_listed_contacts_witness :
  let r := ContactView_delete (contact_request "1,3") example_contacts
             example_store in
  rows (fst (fst r))
  = [mkContact 1 3 "1 Main St" "555-0101";
     mkContact 2 3 "2 Side St" "555-0102"]
  /\ is_ascii "1,3" = true
  /\ exists u items,
      user (contact_request "1,3") = Some u
      /\ assoc "items" (data (contact_request "1,3")) = Some items
      /\ Contact_user_id (mkContact 3 4 "3 Back St" "555-0103") = User_id u
      /\ (is_ascii items = true ->
          In (Contact_id (mkContact 3 4 "3 Back St" "555-0103"))
             (listed_ids items)).
Proof.
  cbv zeta. split; [vm_compute; reflexivity|]. split; [reflexivity|].
  apply (ContactView_delete_only_own_listed_contacts
           (contact_request "1,3") example_contacts example_store
           (mkContact 3 4 "3 Back St" "555-0103")).
  - simpl. auto.
  - vm_compute. intros [H|[H|[]]]; discriminate.
Defined.

(** X15.  With the contacts it removes, [ContactView.delete] removes
    the orders whose column [user_id] holds the key of one of them, in
    any state, and the lines of these orders; it changes nothing else,
    and the number it reports counts the contacts, the orders and the
    lines removed.  The caller is authenticated, and the list is made
    of ASCII characters and has an entry made of digits; the entries of
    digits read as numbers of at most 9223372036854775807. *)
Theorem ContactView_delete_cascades
  (request : Request) (u : AuthUser) (items : string)
  (contacts : Table Contact) (db : Database) :
  user request = Some u ->
  assoc "items" (data request) = Some items ->
  is_ascii items = true ->
  keys_in_range items ->
  existsb isdigit (str_split "," items) = true ->
  let gone_contact := named_contact (User_id u) items in
  let gone_order := order_of_named (User_id u) items contacts in
  let gone_line := line_of_named (User_id u) items contacts db in
  ContactView_delete request contacts db
  = ((mkTable (filter (fun c => negb (gone_contact c)) (rows contacts))
              (next_id contacts),
      set_orders
        (mkTable (filter (fun o => negb (gone_order o)) (rows (orders db)))
                 (next_id (orders db)))
        (set_order_items
           (mkTable (filter (fun x => negb (gone_line x))
                            (rows (order_items db)))
                    (next_id (order_items db))) db)),
     Ok (JsonResponse
           [("Status", JBool true);
            ("Deleted objects",
             JInt (Z.of_nat
                     (List.length (filter gone_contact (rows contacts))
                      + List.length (filter gone_order (rows (orders db)))
                      + List.length (filter gone_line
                                            (rows (order_items db))))))]
           200)).
Proof.
  intros U A _ _ E. cbv zeta.
  destruct (ContactView_delete_store request contacts db)
    as [[S N]|(u' & items' & U' & A' & R & I & D & C)].
  - exfalso. revert S N. unfold ContactView_delete. rewrite U, A.
    destruct items as [|c s]; [discriminate|].
    rewrite contact_query_eq, E. cbn [app orb].
    destruct (filter_contacts_named u (String c s) db E) as [p [Hp _]].
    rewrite Hp. cbn [delete_contacts snd]. intros _ N.
    eapply N. reflexivity.
  - rewrite U in U'. injection U' as <-. rewrite A in A'.
    injection A' as <-.
    destruct (ContactView_delete request contacts db) as [[t d] r].
    cbn [fst snd] in *. subst d r. destruct t as [tr tn].
    cbn [rows next_id] in *. now subst.
Qed.

(** User 4 deletes the contact 3, its own: the order 1, which holds 3
    in [user_id], goes with its two lines. *)
Lemma ContactView_delete_cascades_witness :
  let r := ContactView_delete (contact_request "3") example_contacts
             example_store in
  is_ascii "3" = true
  /\ keys_in_range "3"
  /\ rows (orders (snd (fst r))) = [mkOrder 2 4 0 "basket"]
  /\ rows (order_items (snd (fst r))) = [mkOrderItem 3 2 2 1 1]
  /\ snd r = Ok (JsonResponse [("Status", JBool true);
                               ("Deleted objects", JInt 4)] 200)
  /\ r = ((mkTable
             (filter (fun c => negb (named_contact 4 "3" c))
                     (rows example_contacts))
             (next_id example_contacts),
           set_orders
             (mkTable
                (filter (fun o => negb (order_of_named 4 "3"
                                          example_contacts o))
                        (rows (orders example_store)))
                (next_id (orders example_store)))
             (set_order_items
                (mkTable
                   (filter (fun x => negb (line_of_named 4 "3"
                                             example_contacts
                                             example_store x))
                           (rows (order_items example_store)))
                   (next_id (order_items example_store)))
                example_store)),
          Ok (JsonResponse
                [("Status", JBool true);
                 ("Deleted objects",
                  JInt (Z.of_nat
                          (List.length
                             (filter (named_contact 4 "3")
                                     (rows example_contacts))
                           + List.length
                               (filter (order_of_named 4 "3"
                                          example_contacts)
                                       (rows (orders example_store)))
                           + List.length
                               (filter (line_of_named 4 "3"
                                          example_contacts example_store)
                                       (rows (order_items
                                                example_store))))))]
                200)).
Proof.
  cbv zeta.
  assert (K : keys_in_range "3").
  { unfold keys_in_range, max_integer. simpl. repeat constructor.
    vm_compute. discriminate. }
  split; [reflexivity|]. split; [exact K|].
  split; [vm_compute; reflexivity|].
  split; [vm_compute; reflexivity|]. split; [vm_compute; reflexivity|].
  apply (ContactView_delete_cascades (contact_request "3")
           (mkUser 4 "buyer") "3" example_contacts example_store);
    [reflexivity|reflexivity|reflexivity|exact K|reflexivity].
Defined.

(** ** The confirmation of an account *)

Lemma user_email_joined s k email (l : list Accounts.User) :
  existsb (Value_eqb (VStr email))
          (flat_map (Accounts.account_reach s [SColumn "email"])
             (filter (fun r' => Value_eqb (col_value r' "id") (VInt k))
                     (map (fun r c => Accounts.User_column c r) l)))
  = existsb (fun u => (Accounts.User_id u =? k)
                      && String.eqb email (Accounts.User_email u)) l.
Proof.
  induction l as [|a l IH]; [reflexivity|].
  cbn [map filter existsb].
  change (col_value (fun c => Accounts.User_column c a) "id")
    with (VInt (Accounts.User_id a)).
  cbn [Value_eqb].
  destruct (Accounts.User_id a =? k); cbn [andb orb]; [|exact IH].
  cbn [flat_map].
  change (Accounts.account_reach s [SColumn "email"]
            (fun c => Accounts.User_column c a))
    with [VStr (Accounts.User_email a)].
  cbn [app existsb Value_eqb]. now rewrite IH.
Qed.

Lemma token_filter email key s :
  exists p,
    Accounts.filter_tokens
      [("user__email", VStr email); ("key", VStr key)] s = Ok p
    /\ forall t, p t = Accounts.confirms email key s t.
Proof.
  unfold Accounts.filter_tokens. cbn [mapM].
  change (resolve_condition MConfirmEmailToken ("user__email", VStr email))
    with (Ok ([SForward "user_id" MUser; SColumn "email"], VStr email)
          : Result Condition).
  change (resolve_condition MConfirmEmailToken ("key", VStr key))
    with (Ok ([SColumn "key"], VStr key) : Result Condition).
  eexists. split; [reflexivity|]. intros t. cbn [forallb].
  unfold Accounts.confirms.
  rewrite <- (user_email_joined s (Accounts.ConfirmEmailToken_user_id t)).
  change (Accounts.account_holds s
            (fun c => Accounts.ConfirmEmailToken_column c t)
            ([SColumn "key"], VStr key))
    with (String.eqb key (Accounts.ConfirmEmailToken_key t) || false).
  now rewrite orb_false_r, andb_true_r.
Qed.

Lemma first_from l :
  forall best,
    match fold_left
            (fun best r =>
               match best with
               | None => Some r
               | Some b =>
                   if Accounts.ConfirmEmailToken_id r
                      <? Accounts.ConfirmEmailToken_id b
                   then Some r else Some b
               end) l best with
    | None => best = None /\ l = []
    | Some t => In t l \/ best = Some t
    end.
Proof.
  induction l as [|a l IH]; intros best; cbn [fold_left].
  - destruct best; auto.
  - specialize (IH (match best with
                    | None => Some a
                    | Some b =>
                        if Accounts.ConfirmEmailToken_id a
                           <? Accounts.ConfirmEmailToken_id b
                        then Some a else Some b
                    end)).
    destruct (fold_left _ l _) as [t|].
    + destruct IH as [I|E]; [left; now right|].
      destruct best as [b|].
      * destruct (_ <? _); injection E as <-; [left; now left|now right].
      * injection E as <-. left; now left.
    + destruct IH as [E _]. destruct best as [b|]; [|discriminate].
      destruct (_ <? _); discriminate.
Qed.

Lemma first_In l t : Accounts.first l = Some t -> In t l.
Proof.
  unfold Accounts.first. intros H. pose proof (first_from l None) as F.
  rewrite H in F. destruct F as [F|F]; [exact F|discriminate].
Qed.

Lemma first_None l : Accounts.first l = None -> l = [].
Proof.
  unfold Accounts.first. intros H. pose proof (first_from l None) as F.
  rewrite H in F. tauto.
Qed.

Lemma related_user_ok token s u :
  Accounts.related_user token s = Ok u ->
  In u (rows (Accounts.users s))
  /\ Accounts.User_id u = Accounts.ConfirmEmailToken_user_id token.
Proof.
  unfold Accounts.related_user.
  destruct (filter _ (rows (Accounts.users s))) as [|x [|y l]] eqn:F;
    try discriminate.
  intros H. injection H as <-.
  assert (I : In x (filter (fun u => Accounts.User_id u
                                     =? Accounts.ConfirmEmailToken_user_id
                                          token)
                           (rows (Accounts.users s))))
    by (rewrite F; now left).
  apply filter_In in I. destruct I as [I E]. apply Z.eqb_eq in E. auto.
Qed.

Lemma activate_one (l : list Accounts.User) u :
  NoDup (map Accounts.User_id l) -> In u l ->
  map (fun r => if Accounts.User_id r =? Accounts.User_id u
                then Accounts.activated u else r) l
  = map (fun r => if Accounts.User_id r =? Accounts.User_id u
                  then Accounts.activated r else r) l.
Proof.
  intros ND I. apply map_ext_in. intros r Hr.
  destruct (Accounts.User_id r =? Accounts.User_id u) eqn:E; [|reflexivity].
  apply Z.eqb_eq in E.
  now rewrite (NoDup_same_key Accounts.User_id l r u ND Hr I E).
Qed.

(** The outcome of [ConfirmUserView.post]. *)
Lemma ConfirmUserView_post_outcome request s :
  let r := Accounts.ConfirmUserView_post request s in
  (fst r = s
   /\ snd r <> Ok (JsonResponse [("Status", JBool true)] 200)
   /\ forall email key,
       assoc "email" (data request) = Some email ->
       assoc "token" (data request) = Some key ->
       (exists e, snd r = Raise e)
       \/ (filter (Accounts.confirms email key s)
                  (rows (Accounts.confirm_email_tokens s)) = []
           /\ snd r
              = Ok (JsonResponse
                      [("Status", JBool false);
                       ("Errors",
                        JStr "The token or email is incorrectly specified")]
                      200)))
  \/ exists email key token u,
      assoc "email" (data request) = Some email
      /\ assoc "token" (data request) = Some key
      /\ In token (rows (Accounts.confirm_email_tokens s))
      /\ Accounts.confirms email key s token = true
      /\ In u (rows (Accounts.users s))
      /\ Accounts.User_id u = Accounts.ConfirmEmailToken_user_id token
      /\ r = (Accounts.delete_token token
                (Accounts.save_user (Accounts.activated u) s),
              Ok (JsonResponse [("Status", JBool true)] 200)).
Proof.
  cbv zeta. unfold Accounts.ConfirmUserView_post.
  destruct (assoc "email" (data request)) as [email|];
    [|left; split; [reflexivity|]; split; [discriminate|];
      intros; discriminate].
  destruct (assoc "token" (data request)) as [key|];
    [|left; split; [reflexivity|]; split; [discriminate|];
      intros; discriminate].
  destruct (token_filter email key s) as [p [Hp Hpx]]. rewrite Hp.
  rewrite (filter_ext _ _ Hpx).
  destruct (Accounts.first _) as [token|] eqn:F.
  - apply first_In, filter_In in F. destruct F as [I C].
    destruct (Accounts.related_user token s) as [u|e] eqn:R.
    + right. apply related_user_ok in R. destruct R as [Iu Eu].
      exists email, key, token, u.
      split; [reflexivity|]. split; [reflexivity|]. split; [exact I|].
      split; [exact C|]. split; [exact Iu|]. split; [exact Eu|].
      reflexivity.
    + left. split; [reflexivity|]. split; [discriminate|].
      intros email' key' _ _. left. exists e. reflexivity.
  - apply first_None in F. left. split; [reflexivity|].
    split; [discriminate|]. intros email' key' E1 E2.
    injection E1 as <-. injection E2 as <-. right. auto.
Qed.

(** X16.  [ConfirmUserView.post] answers [Status: True] only for a token
    of the store whose text is the field [token] and whose user has the
    address of the field [email]; it then sets [is_active] of this user,
    changes no other user and no other column, and deletes this token
    and no other.  With any other answer the store is as before.  The
    keys of the users are unique. *)
Theorem ConfirmUserView_post_activates_owner
  (request : Request) (s : Accounts.Store) :
  Accounts.accounts_ok s ->
  let r := Accounts.ConfirmUserView_post request s in
  (snd r <> Ok (JsonResponse [("Status", JBool true)] 200) -> fst r = s)
  /\ (snd r = Ok (JsonResponse [("Status", JBool true)] 200) ->
      exists token u,
        In token (rows (Accounts.confirm_email_tokens s))
        /\ assoc "token" (data request)
           = Some (Accounts.ConfirmEmailToken_key token)
        /\ In u (rows (Accounts.users s))
        /\ Accounts.User_id u = Accounts.ConfirmEmailToken_user_id token
        /\ assoc "email" (data request) = Some (Accounts.User_email u)
        /\ rows (Accounts.users (fst r))
           = map (fun x => if Accounts.User_id x =? Accounts.User_id u
                           then Accounts.activated x else x)
                 (rows (Accounts.users s))
        /\ rows (Accounts.confirm_email_tokens (fst r))
           = filter (fun t => negb (Accounts.ConfirmEmailToken_id t
                                    =? Accounts.ConfirmEmailToken_id token))
                    (rows (Accounts.confirm_email_tokens s))).
Proof.
  intros (NU & _ & _). cbv zeta.
  destruct (ConfirmUserView_post_outcome request s)
    as [(E & N & _)|(email & key & token & u & A1 & A2 & I & C & Iu & Eu & R)].
  - split; [intros _; exact E|]. intros H. contradiction.
  - cbv zeta in R. rewrite R. cbn [fst snd]. split; [intros H; now elim H|].
    intros _. unfold Accounts.confirms in C.
    apply andb_true_iff in C. destruct C as [C1 C2].
    apply String.eqb_eq in C2. apply existsb_exists in C1.
    destruct C1 as [u' [Iu' C1]]. apply andb_true_iff in C1.
    destruct C1 as [C1 C3]. apply Z.eqb_eq in C1.
    apply String.eqb_eq in C3.
    assert (u' = u)
      by (apply (NoDup_same_key Accounts.User_id _ u' u NU Iu' Iu);
          congruence).
    subst u'. exists token, u.
    split; [exact I|]. split; [congruence|]. split; [exact Iu|].
    split; [exact Eu|]. split; [congruence|].
    split; [|reflexivity].
    cbn. apply (activate_one _ u NU Iu).
Qed.

Lemma example_accounts_ok : Accounts.accounts_ok Accounts.example_accounts.
Proof.
  unfold Accounts.accounts_ok. simpl.
  repeat split; repeat constructor; simpl; intuition (lia || discriminate).
Defined.

Lemma ConfirmUserView_post_activates_owner_witness :
  let request := Accounts.confirm_request "bob@example.org" "k2" in
  let s := Accounts.example_accounts in
  let r := Accounts.ConfirmUserView_post request s in
  Accounts.accounts_ok s
  /\ snd r = Ok (JsonResponse [("Status", JBool true)] 200)
  /\ map Accounts.User_is_active (rows (Accounts.users (fst r)))
     = [true; true]
  /\ rows (Accounts.confirm_email_tokens (fst r)) = []
  /\ (snd r <> Ok (JsonResponse [("Status", JBool true)] 200) -> fst r = s)
  /\ (snd r = Ok (JsonResponse [("Status", JBool true)] 200) ->
      exists token u,
        In token (rows (Accounts.confirm_email_tokens s))
        /\ assoc "token" (data request)
           = Some (Accounts.ConfirmEmailToken_key token)
        /\ In u (rows (Accounts.users s))
        /\ Accounts.User_id u = Accounts.ConfirmEmailToken_user_id token
        /\ assoc "email" (data request) = Some (Accounts.User_email u)
        /\ rows (Accounts.users (fst r))
           = map (fun x => if Accounts.User_id x =? Accounts.User_id u
                           then Accounts.activated x else x)
                 (rows (Accounts.users s))
        /\ rows (Accounts.confirm_email_tokens (fst r))
           = filter (fun t => negb (Accounts.ConfirmEmailToken_id t
                                    =? Accounts.ConfirmEmailToken_id token))
                    (rows (Accounts.confirm_email_tokens s))).
Proof.
  cbv zeta. split; [exact example_accounts_ok|].
  split; [vm_compute; reflexivity|]. split; [vm_compute; reflexivity|].
  split; [vm_compute; reflexivity|].
  exact (ConfirmUserView_post_activates_owner
           (Accounts.confirm_request "bob@example.org" "k2")
           Accounts.example_accounts example_accounts_ok).
Defined.

(** X17.  A token confirms once: in a store where the keys and the
    texts of the tokens are unique, the request that was answered with
    [Status: True] is answered, when it is sent again, with the error of
    a wrong token or address, and changes nothing. *)
Theorem ConfirmUserView_post_token_is_single_use
  (request : Request) (s : Accounts.Store) :
  Accounts.accounts_ok s ->
  let once := Accounts.ConfirmUserView_post request s in
  snd once = Ok (JsonResponse [("Status", JBool true)] 200) ->
  Accounts.ConfirmUserView_post request (fst once)
  = (fst once,
     Ok (JsonResponse
           [("Status", JBool false);
            ("Errors", JStr "The token or email is incorrectly specified")]
           200)).
Proof.
  intros (NU & NI & NK). cbv zeta. intros H.
  destruct (ConfirmUserView_post_outcome request s)
    as [(_ & N & _)|(email & key & token & u & A1 & A2 & I & C & Iu & Eu & R)];
    [contradiction|].
  cbv zeta in R. rewrite R. cbn [fst].
  set (s' := Accounts.delete_token token
               (Accounts.save_user (Accounts.activated u) s)).
  unfold Accounts.ConfirmUserView_post. rewrite A1, A2.
  destruct (token_filter email key s') as [p [Hp Hpx]]. rewrite Hp.
  rewrite (filter_ext _ _ Hpx).
  replace (filter (Accounts.confirms email key s')
                  (rows (Accounts.confirm_email_tokens s')))
    with (@nil Accounts.ConfirmEmailToken); [reflexivity|].
  symmetry. apply filter_none. intros t It.
  cbn [Accounts.delete_token Accounts.confirm_email_tokens rows s'] in It.
  apply filter_In in It. destruct It as [It Ne].
  destruct (Accounts.confirms email key s' t) eqn:C'; [|reflexivity].
  exfalso. unfold Accounts.confirms in C, C'.
  apply andb_true_iff in C, C'. destruct C as [_ K], C' as [_ K'].
  apply String.eqb_eq in K, K'.
  assert (t = token)
    by (apply (NoDup_same_key Accounts.ConfirmEmailToken_key _ t token NK
                 It I); congruence).
  subst t. rewrite Z.eqb_refl in Ne. discriminate.
Qed.

Lemma ConfirmUserView_post_token_is_single_use_witness :
  let request := Accounts.confirm_request "bob@example.org" "k2" in
  let once := Accounts.ConfirmUserView_post request
                Accounts.example_accounts in
  Accounts.accounts_ok Accounts.example_accounts
  /\ snd once = Ok (JsonResponse [("Status", JBool true)] 200)
  /\ Accounts.ConfirmUserView_post request (fst once)
     = (fst once,
        Ok (JsonResponse
              [("Status", JBool false);
               ("Errors",
                JStr "The token or email is incorrectly specified")]
              200)).
Proof.
  cbv zeta. split; [exact example_accounts_ok|].
  split; [vm_compute; reflexivity|].
  apply (ConfirmUserView_post_token_is_single_use
           (Accounts.confirm_request "bob@example.org" "k2")
           Accounts.example_accounts example_accounts_ok).
  vm_compute. reflexivity.
Defined.

(** ** The import of a catalog: the seller row *)

Lemma import_document_keeps_sellers request u data db :
  sellers (fst (import_document request u data db))
  = sellers (fst (objects_get_or_create Seller_objects (now request)
                    [("name", VStr (document_seller data));
                     ("user_id", VInt (User_id u))] db)).
Proof.
  destruct data as [name [|category entries] goods].
  - rewrite import_document_without_categories.
    cbn [document_seller].
    destruct (objects_get_or_create Seller_objects (now request) _ db)
      as [db1 [[seller created]|e]]; [|reflexivity].
    pose proof (import_goods_keeps_sellers (now request) (Seller_id seller)
                  goods (without_listings (Seller_id seller) db1)) as S.
    destruct (import_goods (now request) (Seller_id seller) goods _)
      as [db4 [[]|e]]; exact S.
  - unfold import_document.
    cbn [document_seller document_categories document_goods].
    destruct (objects_get_or_create Seller_objects (now request) _ db)
      as [db1 [[seller created]|e]]; [|reflexivity].
    rewrite import_categories_first.
    pose proof (objects_get_or_create_store Category_objects (now request)
                  [("id", VInt (category_id category));
                   ("name", VStr (category_name category))] db1) as S1.
    destruct (objects_get_or_create Category_objects (now request) _ db1)
      as [db2 [[c b']|e]]; cbn [fst] in *;
      destruct S1 as [->|[t1 ->]]; reflexivity.
Qed.

(** X19.  The import never changes or removes a row of a seller, and
    never stores the address it was given: the table of the sellers
    after the call is the table of before, or that table followed by one
    new row for the caller under the name of the document, which takes
    orders and has no address. *)
Theorem CatalogView_post_adds_at_most_one_seller
  (validate_url : string -> option string)
  (load_url : string -> Result Document)
  (request : Request) (db : Database) :
  let db' := fst (CatalogView_post validate_url load_url request db) in
  rows (sellers db') = rows (sellers db)
  \/ exists u name,
      user request = Some u
      /\ rows (sellers db')
         = rows (sellers db)
           ++ [mkSeller (next_id (sellers db)) (Some (User_id u)) name true
                        None].
Proof.
  cbv zeta. unfold CatalogView_post.
  destruct (user request) as [u|]; [|now left].
  destruct (negb (String.eqb (User_type u) "seller")); [now left|].
  destruct (assoc "url" (data request)) as [[|c url]|]; try (now left).
  destruct (validate_url (String c url)); [now left|].
  destruct (load_url (String c url)) as [data|e]; [|now left].
  cbn [fst]. rewrite import_document_keeps_sellers.
  destruct (objects_get_or_create Seller_objects (now request) _ db)
    as [db1 [[seller created]|e]] eqn:G; cbn [fst].
  - apply objects_get_or_create_ok in G.
    destruct G as [(_ & -> & _)|(_ & _ & C)]; [now left|].
    rewrite Seller_create in C.
    destruct (violates_unique _ _ _); [discriminate|].
    injection C as <- _. right. exists u, (document_seller data).
    split; reflexivity.
  - apply objects_get_or_create_raise in G. subst. now left.
Qed.

Lemma Seller_no_clash uid n db :
  below_next Seller_id (sellers db) ->
  (forall x, In x (rows (sellers db)) -> Seller_user_id x <> Some uid) ->
  violates_unique Seller_objects
    (mkSeller (next_id (sellers db)) (Some uid) n true None)
    (rows (sellers db)) = false.
Proof.
  intros B N.
  destruct (violates_unique _ _ _) eqn:V; [exfalso|reflexivity].
  unfold violates_unique in V.
  change (unique_columns (model Seller_objects)) with ["user_id"] in V.
  cbn [existsb] in V. rewrite orb_false_r in V.
  apply orb_true_iff in V.
  destruct V as [V|V]; apply existsb_exists in V;
    destruct V as [x [Ix Sx]].
  - unfold below_next in B. rewrite Forall_forall in B.
    specialize (B x Ix). destruct x as [xi xu xn xs xurl]. cbn in Sx, B.
    apply Z.eqb_eq in Sx. lia.
  - apply (N x Ix). destruct x as [xi [xu|] xn xs xurl]; cbn in Sx;
      [|discriminate].
    apply Z.eqb_eq in Sx. cbn. congruence.
Qed.

(** X18.  The first import of a caller who owns no seller, of a
    document without categories and under a name of at most 64
    characters, into a well-formed store where no two products share
    name and category and no two parameters share their name, of goods
    that the store takes (numbers between 0 and 2147483647, texts of at
    most 64 characters, parameters of distinct names, categories of the
    store): the import succeeds, the caller gets a seller row under the
    name of the document and the next key, and the catalog of this
    seller is the list of the goods of the document, in their order,
    every good with its one product row and every parameter with its
    one row, as [describes] says. *)
Theorem first_import_registers_seller
  (request : Request) (u : AuthUser) (name : string) (goods : list Good)
  (db : Database) :
  store_ok db -> keys_unique db -> goods_storable db goods ->
  text_fits name ->
  below_next Seller_id (sellers db) ->
  (forall x, In x (rows (sellers db)) ->
             Seller_user_id x <> Some (User_id u)) ->
  let r := import_document request u (mkDocument name [] goods) db in
  snd r = Ok (JsonResponse [("Status", JBool true)] 200)
  /\ rows (sellers (fst r))
     = rows (sellers db)
       ++ [mkSeller (next_id (sellers db)) (Some (User_id u)) name true None]
  /\ Forall2 (describes (fst r)) goods
             (catalog (next_id (sellers db)) (fst r)).
Proof.
  intros Hok Hu _ _ B N. cbv zeta.
  assert (E : sellers_named name (User_id u) db = []).
  { unfold sellers_named. apply filter_none. intros x Ix.
    specialize (N x Ix). destruct (Seller_user_id x) as [i|]; cbn.
    - replace (User_id u =? i) with false; [apply andb_false_r|].
      symmetry. apply Z.eqb_neq. congruence.
    - apply andb_false_r. }
  set (new := mkSeller (next_id (sellers db)) (Some (User_id u)) name true
                       None).
  set (db1 := set_sellers
                (mkTable (rows (sellers db) ++ [new])
                         (Z.max (next_id (sellers db))
                                (next_id (sellers db) + 1))) db).
  assert (G : objects_get_or_create Seller_objects (now request)
                [("name", VStr name); ("user_id", VInt (User_id u))] db
              = (db1, Ok (new, true))).
  { unfold objects_get_or_create, objects_get.
    rewrite sellers_named_filter, E, Seller_create.
    now rewrite (Seller_no_clash (User_id u) name db B N). }
  rewrite import_document_without_categories, G.
  assert (Hok1 : store_ok db1) by exact Hok.
  assert (Hu1 : keys_unique db1) by exact Hu.
  pose proof (store_ok_without_listings (Seller_id new) db1 Hok1) as Hok2.
  assert (Hu2 : keys_unique (without_listings (Seller_id new) db1))
    by exact Hu1.
  destruct (import_goods_described (now request) (Seller_id new) goods
              _ Hok2 Hu2) as (A & _ & _ & D).
  specialize (D (fst (import_goods (now request) (Seller_id new) goods
                        (without_listings (Seller_id new) db1)))
                (extends_refl _ _) (extends_refl _ _)).
  rewrite catalog_without_listings_own in D. cbn [app] in D.
  pose proof (import_goods_keeps_sellers (now request) (Seller_id new)
                goods (without_listings (Seller_id new) db1)) as S.
  destruct (import_goods (now request) (Seller_id new) goods
              (without_listings (Seller_id new) db1))
    as [db4 [[]|e]]; cbn [fst snd] in *; [|discriminate].
  split; [reflexivity|]. split; [now rewrite S|].
  destruct D as [D1 D2].
  change (Seller_id new) with (next_id (sellers db)) in D1. rewrite D1.
  exact (described_describes db4 goods D2).
Qed.

Lemma store_of_categories_ok : store_ok store_of_categories.
Proof.
  unfold store_ok, listings_ok, names_ok, below_next, parameters_point_back.
  simpl. repeat split; repeat constructor.
Defined.

Lemma store_of_categories_keys_unique : keys_unique store_of_categories.
Proof. split; intros k; simpl; lia. Defined.

Lemma first_import_registers_seller_witness :
  let r := import_document import_request a_seller document_of_goods
             store_of_categories in
  store_ok store_of_categories
  /\ keys_unique store_of_categories
  /\ goods_storable store_of_categories (document_goods document_of_goods)
  /\ snd r = Ok (JsonResponse [("Status", JBool true)] 200)
  /\ rows (sellers (fst r))
     = rows (sellers store_of_categories)
       ++ [mkSeller (next_id (sellers store_of_categories))
                    (Some (User_id a_seller)) "Acme" true None]
  /\ Forall2 (describes (fst r)) (document_goods document_of_goods)
             (catalog (next_id (sellers store_of_categories)) (fst r)).
Proof.
  cbv zeta. split; [exact store_of_categories_ok|].
  split; [exact store_of_categories_keys_unique|].
  assert (G : goods_storable store_of_categories
                (document_goods document_of_goods)).
  { unfold goods_storable, good_storable, number_fits, text_fits. simpl.
    repeat constructor; simpl; try lia; auto; intuition discriminate. }
  split; [exact G|].
  apply (first_import_registers_seller import_request a_seller "Acme"
           (document_goods document_of_goods) store_of_categories
           store_of_categories_ok store_of_categories_keys_unique G).
  - unfold text_fits. simpl. lia.
  - unfold below_next. simpl. constructor.
  - simpl. intros x [].
Defined.
